(** * The agency core of [backend/agency.py]: actor tree, tool gates,
      meetings, snapshots, servers, terminals and the file guard

    A shallow embedding of the parts of [backend/agency.py] that own the
    agent tree: [Agent], [Agency], [create_new_agent_helper],
    [prepare_create_new_agent_tool], [remove_agent_helper], [call_meeting],
    [Agency.save_state] and the state-loading branch of [Agency.__init__];
    of the endpoint [create_agent] of [backend/server.py]; and of the
    other [prepare_*] functions, [MCPServerManager], [TerminalManager] and
    the workspace test of the file tools.

    Python objects live in a store ([heap]); [agency.agents] and every
    [agent.children] are insertion-ordered dictionaries from ids to
    references into that store, so that an agent reached through its
    parent's [children] and through [agency.agents] is one shared object.
    The language-model call behind [Agent.run] is an oracle. *)

From Stdlib Require Import String Ascii ZArith List Bool Lia DecimalString DecimalZ.
From stdpp Require Import base tactics option list strings.
Import ListNotations.

Local Open Scope string_scope.
Local Open Scope list_scope.
Local Open Scope Z_scope.

(** ** Python strings *)

Module PyStr.

Definition nl : string := String (ascii_of_nat 10) EmptyString.
Definition dq : string := String (ascii_of_nat 34) EmptyString.

(** [str(n)] for a Python [int]. *)
Definition str (n : Z) : string := NilZero.string_of_int (Z.to_int n).

(** [c.upper()] on the ASCII range. *)
Definition upper_ascii (c : ascii) : ascii :=
  let n := nat_of_ascii c in
  if (Nat.leb 97 n && Nat.leb n 122)%bool then ascii_of_nat (n - 32) else c.

Fixpoint upper (s : string) : string :=
  match s with
  | EmptyString => EmptyString
  | String c t => String (upper_ascii c) (upper t)
  end.

(** [c.isspace()] on the ASCII range: tab, LF, VT, FF, CR, FS, GS, RS, US
    and the space. *)
Definition is_space (c : ascii) : bool :=
  let n := nat_of_ascii c in
  ((Nat.leb 9 n && Nat.leb n 13) || (Nat.leb 28 n && Nat.leb n 32))%bool.

Fixpoint lstrip (s : string) : string :=
  match s with
  | EmptyString => EmptyString
  | String c t => if is_space c then lstrip t else s
  end.

Fixpoint rstrip (s : string) : string :=
  match s with
  | EmptyString => EmptyString
  | String c t =>
      match rstrip t with
      | EmptyString => if is_space c then EmptyString else String c EmptyString
      | t' => String c t'
      end
  end.

Definition strip (s : string) : string := rstrip (lstrip s).

(** [needle in hay]. *)
Fixpoint contains (needle hay : string) : bool :=
  (String.prefix needle hay
   || match hay with
      | EmptyString => false
      | String _ t => contains needle t
      end)%bool.

(** [sep.join(parts)]. *)
Fixpoint join (sep : string) (parts : list string) : string :=
  match parts with
  | [] => EmptyString
  | [p] => p
  | p :: rest => p +:+ sep +:+ join sep rest
  end.

End PyStr.

(** ** Python dictionaries

    A [dict] keeps its keys in insertion order; assigning to a key that is
    present keeps the key's position. *)

Abbreviation dict V := (list (string * V)) (only parsing).

Section Dict.
Context {V : Type}.

Fixpoint dget (k : string) (d : list (string * V)) : option V :=
  match d with
  | [] => None
  | (k', v) :: rest => if String.eqb k k' then Some v else dget k rest
  end.

Definition dmem (k : string) (d : list (string * V)) : bool :=
  match dget k d with Some _ => true | None => false end.

(** [d[k] = v] *)
Fixpoint dset (k : string) (v : V) (d : list (string * V)) : list (string * V) :=
  match d with
  | [] => [(k, v)]
  | (k', v') :: rest =>
      if String.eqb k k' then (k', v) :: rest else (k', v') :: dset k v rest
  end.

(** [del d[k]], for a key that is present *)
Definition ddel (k : string) (d : list (string * V)) : list (string * V) :=
  List.filter (fun kv => negb (String.eqb k (fst kv))) d.

Definition dkeys (d : list (string * V)) : list string := map fst d.
Definition dvalues (d : list (string * V)) : list V := map snd d.

(** [len(d)] *)
Definition dlen (d : list (string * V)) : Z := Z.of_nat (length d).

End Dict.

(** ** Exceptions and results *)

Inductive exn :=
| KeyError (key : string)
| AttributeError (what : string)
| RecursionError
| ValueError (msg : string)
| ValidationError (field : string).

Inductive PyResult (A : Type) :=
| Ok (a : A)
| Raise (e : exn).

Arguments Ok {A} a.
Arguments Raise {A} e.

Definition bindR {A B} (m : PyResult A) (f : A -> PyResult B) : PyResult B :=
  match m with
  | Ok a => f a
  | Raise e => Raise e
  end.

Notation "'let*' x ':=' m 'in' k" := (bindR m (fun x => k))
  (at level 10, x pattern, m at level 100, k at level 200).

(** ** Data model *)

(** One entry of [Agent.message_history]. *)
Inductive ModelMessage :=
| SystemPromptMsg (content : string)
| UserPromptMsg (content : string)
| ModelResponseMsg (content : string).

(** The value bound to [Agent.accessible_tools]: a [Dict[str, bool]]
    everywhere except in [create_new_agent_helper], which passes the list
    literal [[]]. *)
Inductive tools_value :=
| ToolsDict (d : dict bool)
| ToolsList.

(** A reference to an [Agent] object. *)
Abbreviation ref := nat (only parsing).

Record Agent := mkAgent {
  name : string;
  id : string;
  provider : string;
  tools : list string;
  system_prompt : string;
  message_history : list ModelMessage;
  accessible_tools : tools_value;
  mcp_server_ids : list string;
  parent_id : option string;
  children : dict ref;
  (** the attribute [parent], which only [create_new_agent_helper] writes *)
  parent : option string
}.

Record Agency := mkAgency {
  agents : dict ref;
  all_tools_map : list string;
  main_agent : ref;
  default_provider : string;
  current_id : Z;
  max_depth : Z;
  max_breadth : Z;
  max_agents : Z;
  workspace_id : string;
  (** [default_mcp_servers], an attribute that only [_setup_mcp_servers]
      creates *)
  default_mcp_servers : option (list string)
}.

Record State := mkState {
  heap : list Agent;
  agency : Agency
}.

(** Names of [all_tools], in order. *)
Definition all_tools : list string :=
  ["create_new_agent"; "message_agent"; "call_meeting"; "internal_monologue"].

(** [Agent.__init__] *)
Definition Agent_init (name id provider system_prompt : string)
    (tools : list string) (accessible_tools : tools_value)
    (mcp_servers : list string) : Agent :=
  {| name := name;
     id := id;
     provider := provider;
     tools := tools;
     system_prompt := system_prompt;
     message_history := [SystemPromptMsg system_prompt];
     accessible_tools := accessible_tools;
     mcp_server_ids := mcp_servers;
     parent_id := None;
     children := [];
     parent := None |}.

(** The default of [Agent.__init__]'s [accessible_tools] argument. *)
Definition default_accessible_tools : tools_value :=
  ToolsDict (map (fun k => (k, true)) all_tools).

(** The store is read with the total lookup [h !!! r]. A reference that the
    program holds always points to an allocated object, so the default that
    the lookup needs is never read in a store built by the operations
    below. *)
#[global] Instance Agent_inhabited : Inhabited Agent :=
  populate (Agent_init EmptyString EmptyString EmptyString EmptyString [] ToolsList []).

(** Field updates of one object. *)
Definition set_parent_id (p : option string) (a : Agent) : Agent :=
  mkAgent (name a) (id a) (provider a) (tools a) (system_prompt a)
    (message_history a) (accessible_tools a) (mcp_server_ids a)
    p (children a) (parent a).

Definition set_parent (p : option string) (a : Agent) : Agent :=
  mkAgent (name a) (id a) (provider a) (tools a) (system_prompt a)
    (message_history a) (accessible_tools a) (mcp_server_ids a)
    (parent_id a) (children a) p.

Definition set_children (c : dict ref) (a : Agent) : Agent :=
  mkAgent (name a) (id a) (provider a) (tools a) (system_prompt a)
    (message_history a) (accessible_tools a) (mcp_server_ids a)
    (parent_id a) c (parent a).

Definition set_accessible_tools (t : tools_value) (a : Agent) : Agent :=
  mkAgent (name a) (id a) (provider a) (tools a) (system_prompt a)
    (message_history a) t (mcp_server_ids a)
    (parent_id a) (children a) (parent a).

Definition set_message_history (h : list ModelMessage) (a : Agent) : Agent :=
  mkAgent (name a) (id a) (provider a) (tools a) (system_prompt a)
    h (accessible_tools a) (mcp_server_ids a)
    (parent_id a) (children a) (parent a).

(** [a.message_history.append(m)] / [.extend(ms)] *)
Definition extend_history (ms : list ModelMessage) (a : Agent) : Agent :=
  set_message_history (message_history a ++ ms) a.

Definition set_agents (d : dict ref) (g : Agency) : Agency :=
  mkAgency d (all_tools_map g) (main_agent g) (default_provider g)
    (current_id g) (max_depth g) (max_breadth g) (max_agents g) (workspace_id g)
    (default_mcp_servers g).

Definition set_current_id (n : Z) (g : Agency) : Agency :=
  mkAgency (agents g) (all_tools_map g) (main_agent g) (default_provider g)
    n (max_depth g) (max_breadth g) (max_agents g) (workspace_id g)
    (default_mcp_servers g).

(** Allocation of a new object; the reference is the old store size. *)
Definition alloc (a : Agent) (h : list Agent) : ref * list Agent :=
  (length h, h ++ [a]).

(** [agency.agents[k]] *)
Definition agents_at (st : State) (k : string) : PyResult ref :=
  match dget k (agents (agency st)) with
  | Some r => Ok r
  | None => Raise (KeyError k)
  end.

(** An optional string as a condition: [None] and the empty string count
    as false. *)
Definition nonempty (o : option string) : option string :=
  match o with
  | Some EmptyString => None
  | _ => o
  end.

(** ** [Agency.__init__] without a saved state

    [provider] is [DEFAULT_PROVIDER] from the environment or the built-in
    default; [ws] is the workspace id the constructor settles on. *)
Definition Agency_init_fresh (provider ws main_agent_system_prompt : string) : State :=
  let main :=
    Agent_init "main_agent" "0" provider main_agent_system_prompt all_tools
      (ToolsDict [("create_new_agent", true); ("message_agent", true);
                  ("call_meeting", true); ("internal_monologue", true)])
      [] in
  {| heap := [set_parent_id None main];
     agency := {| agents := [("0", 0%nat)];
                  all_tools_map := all_tools;
                  main_agent := 0%nat;
                  default_provider := provider;
                  current_id := 1;
                  max_depth := 3;
                  max_breadth := 3;
                  max_agents := 10;
                  workspace_id := ws;
                  default_mcp_servers :=
                    Some ["mcp_server_playwright"; "mcp_server_python"] |} |}.

(** ** [Agency.next_id] *)
Definition next_id (st : State) : string * State :=
  (PyStr.str (current_id (agency st)),
   mkState (heap st) (set_current_id (current_id (agency st) + 1) (agency st))).

(** ** [create_new_agent_helper] *)
Definition create_new_agent_helper (st : State) (name system_prompt parent_id : string)
  : string * State :=
  let '(new_agent_id, st1) := next_id st in
  let new_agent :=
    Agent_init name new_agent_id (default_provider (agency st1)) system_prompt
      all_tools ToolsList [] in
  let '(r, h1) := alloc new_agent (heap st1) in
  (* agency.agents[new_agent_id] = new_agent *)
  let ag1 := dset new_agent_id r (agents (agency st1)) in
  let h2 :=
    match dget parent_id ag1 with
    | Some p =>
        (* new_agent.parent = parent_id *)
        let h := alter (set_parent (Some parent_id)) r h1 in
        (* agency.agents[parent_id].children[new_agent_id] = new_agent *)
        alter (fun pa => set_children (dset new_agent_id r (children pa)) pa) p h
    | None => h1
    end in
  ("Created agent: " +:+ name +:+ " with ID: " +:+ new_agent_id,
   mkState h2 (set_agents ag1 (agency st1))).

(** ** [create_agent], the endpoint [POST /agent/create] of [backend/server.py]

    The second way to create an agent; [req_parent_id] is the optional
    field of the request. The result is the new agent's id. *)
Definition server_create_agent (st : State) (req_name req_system_prompt : string)
    (req_parent_id : option string) : PyResult string * State :=
  let parent_id :=
    default (id (heap st !!! main_agent (agency st))) (nonempty req_parent_id) in
  let '(new_agent_id, st1) := next_id st in
  match default_mcp_servers (agency st1) with
  | None => (Raise (AttributeError "default_mcp_servers"), st1)
  | Some servers =>
      let new_agent :=
        Agent_init req_name new_agent_id (default_provider (agency st1))
          req_system_prompt all_tools default_accessible_tools servers in
      let '(r, h1) := alloc new_agent (heap st1) in
      let ag1 := dset new_agent_id r (agents (agency st1)) in
      let h2 :=
        match dget parent_id ag1 with
        | Some p =>
            (* new_agent.parent_id = parent_id *)
            let h := alter (set_parent_id (Some parent_id)) r h1 in
            alter (fun pa => set_children (dset new_agent_id r (children pa)) pa) p h
        | None => h1
        end in
      (Ok new_agent_id, mkState h2 (set_agents ag1 (agency st1)))
  end.

(** ** [Agent.curr_depth] and [Agent.curr_breadth]

    [curr_depth] follows [parent_id] through [agency.agents]; [fuel] is the
    number of nested calls the interpreter allows before it raises
    [RecursionError]. *)
Fixpoint curr_depth (fuel : nat) (st : State) (r : ref) : PyResult Z :=
  match fuel with
  | O => Raise RecursionError
  | S fuel' =>
      match parent_id (heap st !!! r) with
      | None => Ok 0
      | Some p =>
          let* pr := agents_at st p in
          let* d := curr_depth fuel' st pr in
          Ok (d + 1)
      end
  end.

Definition curr_breadth (st : State) (r : ref) : Z :=
  dlen (children (heap st !!! r)).

(** ** [prepare_create_new_agent_tool] *)

Record ToolDefinition := mkToolDefinition {
  tool_name : string;
  tool_description : string
}.

(** [agent.accessible_tools.get(name, False)] *)
Definition accessible (t : tools_value) (name : string) : PyResult bool :=
  match t with
  | ToolsDict d => Ok (default false (dget name d))
  | ToolsList => Raise (AttributeError "get")
  end.

(** [None] is "do not offer the tool on this step". The function only reads
    the agency. *)
Definition prepare_create_new_agent_tool (fuel : nat) (st : State)
    (agent_id : string) (tool_def : ToolDefinition) : PyResult (option ToolDefinition) :=
  let* r := agents_at st agent_id in
  let* current_depth := curr_depth fuel st r in
  let current_breadth := curr_breadth st r in
  let* ok := accessible (accessible_tools (heap st !!! r)) (tool_name tool_def) in
  if negb ok then Ok None
  else if current_depth >=? max_depth (agency st) then Ok None
  else if current_breadth >=? max_breadth (agency st) then Ok None
  else Ok (Some tool_def).

(** [create_new_agent], the tool body: the parent is the calling agent. *)
Definition create_new_agent (st : State) (agent_id name system_prompt : string)
  : string * State :=
  create_new_agent_helper st name system_prompt agent_id.

(** ** [remove_agent_helper] *)

(** The loop over [agency.agents[agent_id].children.keys()]. A missing
    child id raises [KeyError] after the children before it have already
    been orphaned. *)
Fixpoint orphan_children (child_ids : list string) (st : State) : PyResult unit * State :=
  match child_ids with
  | [] => (Ok tt, st)
  | child_id :: rest =>
      match dget child_id (agents (agency st)) with
      | None => (Raise (KeyError child_id), st)
      | Some child_agent =>
          (* child_agent.parent_id = None *)
          let h := alter (set_parent_id None) child_agent (heap st) in
          (* agency.agents[child_id] = child_agent *)
          let ag := dset child_id child_agent (agents (agency st)) in
          orphan_children rest (mkState h (set_agents ag (agency st)))
      end
  end.

(** The block under [# remove from parent]. *)
Definition remove_from_parent (st : State) (agent_id : string) (r : ref) : PyResult State :=
  match parent_id (heap st !!! r) with
  | None => Ok st
  | Some p =>
      let* parent_agent := agents_at st p in
      if dmem agent_id (children (heap st !!! parent_agent)) then
        Ok (mkState
              (alter (fun pa => set_children (ddel agent_id (children pa)) pa)
                     parent_agent (heap st))
              (agency st))
      else Raise (KeyError agent_id)
  end.

Definition remove_agent_helper (st : State) (agent_id : string) : PyResult string * State :=
  match dget agent_id (agents (agency st)) with
  | None => (Ok ("Agent with ID " +:+ agent_id +:+ " does not exist."), st)
  | Some r =>
      match remove_from_parent st agent_id r with
      | Raise e => (Raise e, st)
      | Ok st1 =>
          match orphan_children (dkeys (children (heap st1 !!! r))) st1 with
          | (Raise e, st2) => (Raise e, st2)
          | (Ok _, st2) =>
              (* del agency.agents[agent_id] *)
              (Ok ("Removed agent with ID: " +:+ agent_id),
               mkState (heap st2)
                 (set_agents (ddel agent_id (agents (agency st2))) (agency st2)))
          end
      end
  end.

(** ** Snapshots: [AgentState], [AgencyState], [save_state], [load_state] *)

Module AgentState.
Record t := mk {
  id : string;
  name : string;
  system_prompt : string;
  provider : string;
  tool_names : list string;
  accessible_tools : dict bool;
  message_history : list ModelMessage;
  parent_id : option string;
  child_ids : list string;
  mcp_server_ids : list string
}.
End AgentState.

Module AgencyState.
Record t := mk {
  agency_id : string;
  agents : list AgentState.t;
  current_id : Z;
  max_depth : Z;
  max_breadth : Z;
  max_agents : Z;
  workspace_id : option string
}.
End AgencyState.

Fixpoint mapR {A B} (f : A -> PyResult B) (l : list A) : PyResult (list B) :=
  match l with
  | [] => Ok []
  | x :: rest =>
      let* y := f x in
      let* ys := mapR f rest in
      Ok (y :: ys)
  end.

(** [Agent.save_state]. The model validates [accessible_tools] against the
    declared [Dict[str, bool]]; the list that [create_new_agent_helper]
    stores is rejected. *)
Definition Agent_save_state (a : Agent) : PyResult AgentState.t :=
  match accessible_tools a with
  | ToolsDict d =>
      Ok {| AgentState.id := id a;
            AgentState.name := name a;
            AgentState.system_prompt := system_prompt a;
            AgentState.provider := provider a;
            AgentState.tool_names := tools a;
            AgentState.accessible_tools := d;
            AgentState.message_history := message_history a;
            AgentState.parent_id := parent_id a;
            AgentState.child_ids := dkeys (children a);
            AgentState.mcp_server_ids := mcp_server_ids a |}
  | ToolsList => Raise (ValidationError "accessible_tools")
  end.

(** [Agency.save_state] *)
Definition Agency_save_state (st : State) : PyResult AgencyState.t :=
  let* recs := mapR (fun r => Agent_save_state (heap st !!! r))
                    (dvalues (agents (agency st))) in
  Ok {| AgencyState.agency_id := id (heap st !!! main_agent (agency st));
        AgencyState.agents := recs;
        AgencyState.current_id := current_id (agency st);
        AgencyState.max_depth := max_depth (agency st);
        AgencyState.max_breadth := max_breadth (agency st);
        AgencyState.max_agents := max_agents (agency st);
        AgencyState.workspace_id := Some (workspace_id (agency st)) |}.

(** [Agent.load_state] *)
Definition Agent_load_state (state : AgentState.t) (all_tools_map : list string) : Agent :=
  let agent_tools :=
    List.filter (fun n => existsb (String.eqb n) all_tools_map)
                (AgentState.tool_names state) in
  let agent :=
    Agent_init (AgentState.name state) (AgentState.id state)
      (AgentState.provider state) (AgentState.system_prompt state)
      agent_tools (ToolsDict (AgentState.accessible_tools state))
      (AgentState.mcp_server_ids state) in
  set_parent_id (AgentState.parent_id state)
    (set_message_history (AgentState.message_history state) agent).

(** ** [Agency.__init__] from a saved state *)

(** What the first loop has built so far: the store, [self.agents],
    [self.main_agent] when it is set, and [self.default_provider]. *)
Record Loading := mkLoading {
  l_heap : list Agent;
  l_agents : dict ref;
  l_main : option ref;
  l_provider : string
}.

(** Step 1, [# 1. Create all agents from state]. *)
Definition load_one (agency_id : string) (tools : list string)
    (ld : Loading) (agent_state : AgentState.t) : Loading :=
  let '(r, h) := alloc (Agent_load_state agent_state tools) (l_heap ld) in
  let ag := dset (AgentState.id agent_state) r (l_agents ld) in
  if String.eqb (AgentState.id agent_state) agency_id
  then mkLoading h ag (Some r) (AgentState.provider agent_state)
  else mkLoading h ag (l_main ld) (l_provider ld).

Definition child_warning (child_id agent_id : string) : string :=
  "Warning: Child agent ID " +:+ child_id +:+ " not found for parent " +:+ agent_id.

(** The inner loop of step 2 on one agent's [children]; [out] collects the
    printed lines. *)
Fixpoint link_children (ag : dict ref) (agent_id : string) (child_ids : list string)
    (ch : dict ref) (out : list string) : dict ref * list string :=
  match child_ids with
  | [] => (ch, out)
  | child_id :: rest =>
      match dget child_id ag with
      | Some c => link_children ag agent_id rest (dset child_id c ch) out
      | None => link_children ag agent_id rest ch (out ++ [child_warning child_id agent_id])
      end
  end.

(** Step 2, [# 2. Rebuild parent/child relationships]. *)
Fixpoint rebuild (ag : dict ref) (states : list AgentState.t)
    (h : list Agent) (out : list string) : PyResult (list Agent * list string) :=
  match states with
  | [] => Ok (h, out)
  | agent_state :: rest =>
      match dget (AgentState.id agent_state) ag with
      | None => Raise (KeyError (AgentState.id agent_state))
      | Some r =>
          (* agent.parent_id = agent_state.parent_id *)
          let h1 := alter (set_parent_id (AgentState.parent_id agent_state)) r h in
          let '(ch, out1) :=
            link_children ag (id (h1 !!! r)) (AgentState.child_ids agent_state)
              (children (h1 !!! r)) out in
          rebuild ag rest (alter (set_children ch) r h1) out1
      end
  end.

(** [Agency(state=state, tools=tools, workspace_id=workspace_id)]. [uuid_ws]
    is the random workspace name used when neither the state nor the
    argument gives one. The second component is what was printed by step 2. *)
Definition Agency_init_from_state (state : AgencyState.t) (tools : list string)
    (workspace_id : option string) (uuid_ws : string)
  : PyResult (State * list string) :=
  let ws :=
    match nonempty (AgencyState.workspace_id state) with
    | Some w => w
    | None => match nonempty workspace_id with Some w => w | None => uuid_ws end
    end in
  let ld :=
    fold_left (load_one (AgencyState.agency_id state) tools)
      (AgencyState.agents state) (mkLoading [] [] None EmptyString) in
  match l_main ld with
  | None => Raise (ValueError "Main agent ID not found in loaded state")
  | Some m =>
      let* built := rebuild (l_agents ld) (AgencyState.agents state) (l_heap ld) [] in
      let '(h, out) := built in
      Ok (mkState h
            {| agents := l_agents ld;
               all_tools_map := tools;
               main_agent := m;
               default_provider := l_provider ld;
               current_id := AgencyState.current_id state;
               max_depth := AgencyState.max_depth state;
               max_breadth := AgencyState.max_breadth state;
               max_agents := AgencyState.max_agents state;
               workspace_id := ws;
               default_mcp_servers := None |},
          out)
  end.

(** ** [call_meeting] *)

(** The outcome of [await agent.run(prompt)]: [result.data] and
    [result.new_messages()], or the text of the exception raised. *)
Inductive RunResult :=
| RunOk (data : string) (new_messages : list ModelMessage)
| RunRaise (msg : string).

(** The model behind [Agent.run]: it sees the number of the turn, the agent
    object as it is when called, and the prompt. *)
Definition Backend := Z -> Agent -> string -> RunResult.

(** One dictionary of [discussion_log]. *)
Record LogEntry := mkLogEntry {
  agent_name : string;
  agent_id : string;
  message : string
}.

Definition YOUR_TURN_PHRASE : string := "It is your turn to speak. Please respond.".

Definition child_instructions : string :=
"Meeting Instructions:
- Review the discussion so far
- Share your thoughts related to the meeting objective
- Respond to points raised by other participants
- If you have said all you need to contribute, include " +:+ PyStr.dq +:+ "READY_TO_MOVE_ON" +:+ PyStr.dq +:+ " in your response
".

Definition host_instructions : string :=
"Meeting Instructions:
- You are the host of this meeting. You will go first. Begin by elaborating on the objective of the meeting.
- Review the discussion so far
- Share your thoughts related to the meeting objective
- Respond to points raised by other participants
- If you have said all you need to contribute and want to end the meeting, include " +:+ PyStr.dq +:+ "READY_TO_END_MEETING" +:+ PyStr.dq +:+ " in your response
".

Definition meeting_end_message : string :=
  "Meeting has ended. Thank you for your participation.".

(** [s.add(x)] on a set kept as a duplicate-free list. *)
Definition set_add (x : string) (s : list string) : list string :=
  if existsb (String.eqb x) s then s else s ++ [x].

(** The locals of [call_meeting] that the rounds change, with the store.
    [rounds] counts the iterations of the outer loop that reached the inner
    loop; the source has no such variable. *)
Record Meeting := mkMeeting {
  m_heap : list Agent;
  agents_done : list string;
  discussion_log : list LogEntry;
  turn : Z;
  rounds : nat
}.

(** [agent.id if agent.id != temp_host_id else host_id] *)
Definition logging_agent_id (temp_host_id host_id : string) (a : Agent) : string :=
  if String.eqb (id a) temp_host_id then host_id else id a.

Definition broadcast_content (a_name lid response : string) : string :=
  "From " +:+ a_name +:+ " (" +:+ lid +:+ "): " +:+ response.

(** The loop [for other_agent in participants] of a successful turn. *)
Definition broadcast (participants : list ref) (speaker_id : string)
    (content : string) (h : list Agent) : list Agent :=
  fold_left
    (fun h other_agent =>
       if String.eqb (id (h !!! other_agent)) speaker_id then h
       else alter (extend_history [UserPromptMsg content]) other_agent h)
    participants h.

Definition is_ready (response : string) : bool :=
  (PyStr.contains "READY_TO_END_MEETING" (PyStr.upper response)
   || PyStr.contains "READY_TO_MOVE_ON" (PyStr.upper response))%bool.

Section Rounds.
Variable backend : Backend.
Variables temp_host_id host_id : string.
Variable participants : list ref.

Definition all_done (m : Meeting) : bool :=
  Nat.eqb (length (agents_done m)) (length participants).

(** One pass through the body of [for agent in participants]; the boolean
    is true when the body ends in [break]. *)
Definition take_turn (agent : ref) (m : Meeting) : Meeting * bool :=
  let turn1 := turn m + 1 in
  let a := m_heap m !!! agent in
  let lid := logging_agent_id temp_host_id host_id a in
  match backend turn1 a YOUR_TURN_PHRASE with
  | RunOk data new_messages =>
      (* Agent.run: save_message_history *)
      let h1 := alter (extend_history new_messages) agent (m_heap m) in
      let response := PyStr.strip data in
      let h2 := broadcast participants (id a) (broadcast_content (name a) lid response) h1 in
      let log := discussion_log m ++ [mkLogEntry (name a) lid response] in
      let done := if is_ready response then set_add (id a) (agents_done m)
                  else agents_done m in
      let m' := mkMeeting h2 done log turn1 (rounds m) in
      (m', all_done m')
  | RunRaise e =>
      let error_msg := "Error during response: " +:+ e in
      let log := discussion_log m ++ [mkLogEntry (name a) lid error_msg] in
      (mkMeeting (m_heap m) (set_add (id a) (agents_done m)) log turn1 (rounds m), false)
  end.

(** [for agent in participants: ...] *)
Fixpoint run_round (ps : list ref) (m : Meeting) : Meeting :=
  match ps with
  | [] => m
  | agent :: rest =>
      let '(m', brk) := take_turn agent m in
      if brk then m' else run_round rest m'
  end.

(** [for _ in range(max_rounds): ...], with [n] iterations left. *)
Fixpoint run_rounds (max_rounds : Z) (n : nat) (m : Meeting) : Meeting :=
  match n with
  | O => m
  | S n' =>
      if all_done m then m
      else
        let m1 := run_round participants
                    (mkMeeting (m_heap m) (agents_done m) (discussion_log m)
                               (turn m) (S (rounds m))) in
        if turn m1 >=? max_rounds then m1
        else run_rounds max_rounds n' m1
  end.

End Rounds.

(** What the code before the rounds leaves behind. *)
Record MeetingSetup := mkMeetingSetup {
  s_state : State;
  s_temp_host_id : string;
  s_temp_host : ref;
  s_children : list ref;
  s_original_accessible_tools : dict tools_value;
  s_participants : list ref;
  s_discussion_log : list LogEntry
}.

(** The loop that empties the children's [accessible_tools]. *)
Definition stash_tools (children : list ref) (h : list Agent)
  : dict tools_value * list Agent :=
  fold_left
    (fun '(orig, h) child =>
       (dset (id (h !!! child)) (accessible_tools (h !!! child)) orig,
        alter (set_accessible_tools (ToolsDict [])) child h))
    children ([], h).

Definition append_to_all (rs : list ref) (msg : ModelMessage) (h : list Agent) : list Agent :=
  fold_left (fun h r => alter (extend_history [msg]) r h) rs h.

(** From [temp_host_id = host_id + "_temp"] to the host's instructions. *)
Definition meeting_setup (st : State) (host_id : string) (host : ref)
    (children : list ref) (prompt meeting_objective : string) : MeetingSetup :=
  let hosta := heap st !!! host in
  let temp_host_id := host_id +:+ "_temp" in
  let temp_host0 :=
    Agent_init (name hosta +:+ " [Active Host]") temp_host_id (provider hosta)
      (system_prompt hosta) (tools hosta) (ToolsDict []) [] in
  let '(temp_host, h0) := alloc temp_host0 (heap st) in
  let h1 := alter (set_message_history (message_history hosta)) temp_host h0 in
  let h2 := alter (extend_history [UserPromptMsg prompt]) temp_host h1 in
  (* agency.agents[temp_host_id] = temp_host *)
  let ag := dset temp_host_id temp_host (agents (agency st)) in
  let '(original, h3) := stash_tools children h2 in
  let participants := temp_host :: children in
  let meeting_initialized_message :=
    "Meeting initialized with objective: " +:+ meeting_objective in
  let log :=
    [mkLogEntry (name (h3 !!! temp_host)) (id (h3 !!! temp_host))
       meeting_initialized_message] in
  let h4 := alter (extend_history [UserPromptMsg meeting_initialized_message]) temp_host h3 in
  let h5 := append_to_all children (UserPromptMsg meeting_initialized_message) h4 in
  let h6 := append_to_all children (UserPromptMsg child_instructions) h5 in
  let h7 := alter (extend_history [UserPromptMsg host_instructions]) temp_host h6 in
  mkMeetingSetup (mkState h7 (set_agents ag (agency st)))
    temp_host_id temp_host children original participants log.

(** The rounds, from [agents_done = set()] to the end of the outer loop. *)
Definition meeting_rounds (backend : Backend) (host_id : string) (max_turns : Z)
    (s : MeetingSetup) : Meeting :=
  let max_rounds := Z.min (max_turns * Z.of_nat (length (s_participants s))) 15 in
  run_rounds backend (s_temp_host_id s) host_id (s_participants s) max_rounds
    (Z.to_nat max_rounds)
    (mkMeeting (heap (s_state s)) [] (s_discussion_log s) 0 0).

Definition summary_line (e : LogEntry) : string :=
  "[" +:+ agent_name e +:+ " (" +:+ agent_id e +:+ ")]: " +:+ message e.

(** The loop that gives the children their [accessible_tools] back. *)
Definition restore_tools (children : list ref) (original : dict tools_value)
    (h : list Agent) : list Agent :=
  fold_left
    (fun h child =>
       alter (set_accessible_tools
                (default (ToolsDict []) (dget (id (h !!! child)) original)))
             child h)
    children h.

(** From [# Final summary] to the [return]. *)
Definition meeting_finish (s : MeetingSetup) (m : Meeting) : string * State :=
  let final_summary := PyStr.join PyStr.nl (map summary_line (discussion_log m)) in
  let h1 := restore_tools (s_children s) (s_original_accessible_tools s) (m_heap m) in
  let h2 := append_to_all (s_children s) (UserPromptMsg meeting_end_message) h1 in
  let ag := agents (agency (s_state s)) in
  let ag' := if dmem (s_temp_host_id s) ag then ddel (s_temp_host_id s) ag else ag in
  ("Meeting complete. Summary:" +:+ PyStr.nl +:+ PyStr.nl +:+ final_summary,
   mkState h2 (set_agents ag' (agency (s_state s)))).

(** [call_meeting], called by the agent [host_id]; [ctx_prompt] is
    [ctx.prompt]. *)
Definition call_meeting (backend : Backend) (st : State) (host_id : string)
    (ctx_prompt : option string) (meeting_objective : string) (max_turns : Z)
  : PyResult (string * State) :=
  let* host := agents_at st host_id in
  let children := dvalues (children (heap st !!! host)) in
  let prompt := default "Meeting called" (nonempty ctx_prompt) in
  match children with
  | [] => Ok ("No agents available to meet.", st)
  | _ =>
      let s := meeting_setup st host_id host children prompt meeting_objective in
      let m := meeting_rounds backend host_id max_turns s in
      Ok (meeting_finish s m)
  end.

(** * Example inputs and well-formedness predicates *)

(** A new agency, as [Agency(workspace_id="demo_workspace")] builds it. *)
Definition fresh_agency : State :=
  Agency_init_fresh "openai:gpt-4.1-nano" "demo_workspace" "You are a helpful assistant.".

(** The new agency after its main agent has created three agents. *)
Definition agency_with_three_workers : State :=
  let st1 := snd (create_new_agent_helper fresh_agency "planner" "You plan." "0") in
  let st2 := snd (create_new_agent_helper st1 "writer" "You write." "0") in
  snd (create_new_agent_helper st2 "critic" "You review." "0").

(** The new agency after its main agent has created two agents. *)
Definition agency_with_two_workers : State :=
  let st1 := snd (create_new_agent_helper fresh_agency "planner" "You plan." "0") in
  snd (create_new_agent_helper st1 "writer" "You write." "0").

(** A backend that answers by the number of the turn. *)
Definition scripted_backend : Backend :=
  fun t _ _ =>
    if t =? 1 then RunOk "Welcome. Here is the objective." []
    else if t =? 2 then RunOk "I agree. READY_TO_MOVE_ON" []
    else if t =? 3 then RunOk "Nothing to add, ready_to_move_on." []
    else if t =? 4 then RunOk "Thank you all. READY_TO_END_MEETING" []
    else RunOk "One more thing." [].

(** The new agency after its main agent has created one agent. *)
Definition agency_with_worker : State :=
  snd (create_new_agent_helper fresh_agency "worker" "You do the work." "0").

Definition create_tool_def : ToolDefinition :=
  mkToolDefinition "create_new_agent"
    "Create a new agent with the given name and system prompt.".

(** A saved agency of one agent whose [max_agents] is already reached. *)
Definition full_snapshot : AgencyState.t :=
  {| AgencyState.agency_id := "0";
     AgencyState.agents :=
       [ {| AgentState.id := "0";
            AgentState.name := "main_agent";
            AgentState.system_prompt := "You are a helpful assistant.";
            AgentState.provider := "openai:gpt-4.1-nano";
            AgentState.tool_names := all_tools;
            AgentState.accessible_tools := [("create_new_agent", true)];
            AgentState.message_history := [SystemPromptMsg "You are a helpful assistant."];
            AgentState.parent_id := None;
            AgentState.child_ids := [];
            AgentState.mcp_server_ids := [] |} ];
     AgencyState.current_id := 1;
     AgencyState.max_depth := 3;
     AgencyState.max_breadth := 3;
     AgencyState.max_agents := 1;
     AgencyState.workspace_id := Some "demo_workspace" |}.

Definition set_max_agents (n : Z) (st : State) : State :=
  mkState (heap st)
    (mkAgency (agents (agency st)) (all_tools_map (agency st)) (main_agent (agency st))
       (default_provider (agency st)) (current_id (agency st)) (max_depth (agency st))
       (max_breadth (agency st)) n (workspace_id (agency st))
       (default_mcp_servers (agency st))).

Definition saved_agent (id name : string) (parent_id : option string)
    (child_ids : list string) : AgentState.t :=
  {| AgentState.id := id;
     AgentState.name := name;
     AgentState.system_prompt := "You are a helpful assistant.";
     AgentState.provider := "openai:gpt-4.1-nano";
     AgentState.tool_names := all_tools;
     AgentState.accessible_tools := [("create_new_agent", true); ("call_meeting", true)];
     AgentState.message_history := [SystemPromptMsg "You are a helpful assistant."];
     AgentState.parent_id := parent_id;
     AgentState.child_ids := child_ids;
     AgentState.mcp_server_ids := [] |}.

(** A saved agency: the main agent ["0"] with the children ["1"] and ["2"],
    and ["3"] below ["1"]. *)
Definition team_snapshot : AgencyState.t :=
  {| AgencyState.agency_id := "0";
     AgencyState.agents :=
       [ saved_agent "0" "main_agent" None ["1"; "2"];
         saved_agent "1" "planner" (Some "0") ["3"];
         saved_agent "2" "writer" (Some "0") [];
         saved_agent "3" "researcher" (Some "1") [] ];
     AgencyState.current_id := 4;
     AgencyState.max_depth := 3;
     AgencyState.max_breadth := 3;
     AgencyState.max_agents := 10;
     AgencyState.workspace_id := Some "demo_workspace" |}.

(** The agency that [Agency(state=team_snapshot)] builds. *)
Definition team_agency : State :=
  match Agency_init_from_state team_snapshot all_tools None "workspace_0" with
  | Ok (st, _) => st
  | Raise _ => fresh_agency
  end.

(** Every entry of [agency.agents] is an allocated agent stored under its
    own id. *)
Definition agents_keyed_by_id (st : State) : Prop :=
  forall (k : string) (r : ref),
    (k, r) ∈ agents (agency st) ->
    (r < length (heap st))%nat /\ id (heap st !!! r) = k.

(** Every entry of an agent's [children] is an allocated agent stored under
    its own id, and no id occurs twice. *)
Definition children_keyed_by_id (st : State) (r : ref) : Prop :=
  NoDup (dkeys (children (heap st !!! r))) /\
  forall (k : string) (c : ref),
    (k, c) ∈ children (heap st !!! r) ->
    (c < length (heap st))%nat /\ id (heap st !!! c) = k.

(** What [remove_agent_helper] relies on when it removes the agent [r]
    stored under [agent_id]: [agency.agents] has no key twice and holds
    allocated agents only; if the agent names a parent, the parent is in
    [agency.agents] and lists the agent among its children; and each of the
    agent's children is in [agency.agents]. *)
Definition links_consistent (st : State) (agent_id : string) (r : ref) : Prop :=
  NoDup (dkeys (agents (agency st))) /\
  (forall k x, dget k (agents (agency st)) = Some x -> (x < length (heap st))%nat) /\
  (forall p, parent_id (heap st !!! r) = Some p ->
     exists pr, dget p (agents (agency st)) = Some pr /\
                is_Some (dget agent_id (children (heap st !!! pr)))) /\
  (forall c, c ∈ dkeys (children (heap st !!! r)) ->
     is_Some (dget c (agents (agency st)))).

(** The object that [agency.agents] holds under the [parent_id] of the
    agent [r], if there is one. *)
Definition parent_of (st : State) (r : ref) : option ref :=
  match parent_id (heap st !!! r) with
  | Some p => dget p (agents (agency st))
  | None => None
  end.

(** Two agent objects that differ at most in [parent_id] and [children]. *)
Definition same_but_links (a a' : Agent) : Prop :=
  name a' = name a /\ id a' = id a /\ provider a' = provider a /\
  tools a' = tools a /\ system_prompt a' = system_prompt a /\
  message_history a' = message_history a /\
  accessible_tools a' = accessible_tools a /\
  mcp_server_ids a' = mcp_server_ids a /\ parent a' = parent a.

(** The agent that [Agency.__init__] ends with for one saved record, given
    the finished [self.agents]. *)
Definition restored_agent (ag : dict ref) (tools : list string) (rec : AgentState.t)
  : Agent :=
  set_children
    (fst (link_children ag (AgentState.id rec) (AgentState.child_ids rec) [] []))
    (Agent_load_state rec tools).

(** The lines that step 2 prints for a list of records. *)
Definition restore_warnings (ag : dict ref) (recs : list AgentState.t) : list string :=
  concat (map (fun rec =>
                 snd (link_children ag (AgentState.id rec) (AgentState.child_ids rec) [] []))
              recs).

(** The record that [Agent.save_state] makes of an agent whose
    [accessible_tools] is a dictionary. *)
Definition agent_record (a : Agent) : AgentState.t :=
  {| AgentState.id := id a;
     AgentState.name := name a;
     AgentState.system_prompt := system_prompt a;
     AgentState.provider := provider a;
     AgentState.tool_names := tools a;
     AgentState.accessible_tools :=
       match accessible_tools a with ToolsDict d => d | ToolsList => [] end;
     AgentState.message_history := message_history a;
     AgentState.parent_id := parent_id a;
     AgentState.child_ids := dkeys (children a);
     AgentState.mcp_server_ids := mcp_server_ids a |}.

(** A tree that can be saved and loaded again without loss: the agents are
    stored under their own ids, the main agent is among them, every
    [accessible_tools] is a dictionary, and every child id names an agent
    of the tree. *)
Definition tree_saveable (st : State) : Prop :=
  NoDup (dkeys (agents (agency st))) /\
  agents_keyed_by_id st /\
  id (heap st !!! main_agent (agency st)) ∈ dkeys (agents (agency st)) /\
  forall (k : string) (r : ref),
    (k, r) ∈ agents (agency st) ->
    (exists d, accessible_tools (heap st !!! r) = ToolsDict d) /\
    NoDup (dkeys (children (heap st !!! r))) /\
    forall c, c ∈ dkeys (children (heap st !!! r)) -> c ∈ dkeys (agents (agency st)).

(** A saved agency whose only agent names a parent and a child that are
    not in the snapshot. *)
Definition dangling_snapshot : AgencyState.t :=
  {| AgencyState.agency_id := "0";
     AgencyState.agents := [ saved_agent "0" "main_agent" (Some "9") ["7"] ];
     AgencyState.current_id := 1;
     AgencyState.max_depth := 3;
     AgencyState.max_breadth := 3;
     AgencyState.max_agents := 10;
     AgencyState.workspace_id := Some "demo_workspace" |}.

(** A saved agency whose [agency_id] names no record, and whose one record
    names a child that is not there. *)
Definition headless_snapshot : AgencyState.t :=
  {| AgencyState.agency_id := "0";
     AgencyState.agents := [ saved_agent "1" "planner" None ["7"] ];
     AgencyState.current_id := 2;
     AgencyState.max_depth := 3;
     AgencyState.max_breadth := 3;
     AgencyState.max_agents := 10;
     AgencyState.workspace_id := Some "demo_workspace" |}.

(** [team_agency] after [remove_agent_helper(agency, "0")]: the agents
    ["1"], ["2"] and ["3"] are left. *)
Definition team_without_main : State :=
  snd (remove_agent_helper team_agency "0").

(** The store of [call_meeting] just before the loop that empties the
    children's [accessible_tools]: the temporary host is allocated and has
    the host's history and the prompt. *)
Definition store_before_stash (st : State) (host_id : string) (host : ref)
    (prompt : string) : list Agent :=
  let hosta := heap st !!! host in
  alter (extend_history [UserPromptMsg prompt]) (length (heap st))
    (alter (set_message_history (message_history hosta)) (length (heap st))
       (heap st ++
          [Agent_init (name hosta +:+ " [Active Host]") (host_id +:+ "_temp")
             (provider hosta) (system_prompt hosta) (tools hosta) (ToolsDict []) []])).

(** Two stores that differ at most in the agents' [message_history]. *)
Definition same_but_history (h h' : list Agent) : Prop :=
  length h' = length h /\
  forall r : ref,
    id (h' !!! r) = id (h !!! r) /\
    name (h' !!! r) = name (h !!! r) /\
    accessible_tools (h' !!! r) = accessible_tools (h !!! r) /\
    parent_id (h' !!! r) = parent_id (h !!! r) /\
    children (h' !!! r) = children (h !!! r).

(** A backend that is down: every call raises. *)
Definition failing_backend : Backend :=
  fun _ _ _ => RunRaise "Connection error.".

(** The meeting that the main agent of [agency_with_three_workers] calls,
    as it stands when the rounds begin. *)
Definition workers_meeting_setup : MeetingSetup :=
  meeting_setup agency_with_three_workers "0" 0%nat [1%nat; 2%nat; 3%nat]
    "Meeting called" "Agree on a plan.".

Definition workers_meeting_start : Meeting :=
  mkMeeting (heap (s_state workers_meeting_setup)) []
    (s_discussion_log workers_meeting_setup) 0 0.

(** The entries a stretch of the meeting adds to the log: each is the turn
    of one of the agents [ps], under that agent's name and logging id. *)
Definition turns_of (temp_host_id host_id : string) (h : list Agent) (ps : list ref)
    (added : list LogEntry) : Prop :=
  Forall (fun e => exists r, r ∈ ps /\ agent_name e = name (h !!! r) /\
                     agent_id e = logging_agent_id temp_host_id host_id (h !!! r))
         added.

(** * The other gates, reachable states and clean snapshots *)

(** ** The other [prepare_*] functions *)

(** [prepare_message_agent_tool] *)
Definition prepare_message_agent_tool (st : State) (agent_id : string)
    (tool_def : ToolDefinition) : PyResult (option ToolDefinition) :=
  let* r := agents_at st agent_id in
  let sender_agent := heap st !!! r in
  let* ok := accessible (accessible_tools sender_agent) (tool_name tool_def) in
  if negb ok then Ok None
  else
    match children sender_agent with
    | [] => Ok None
    | _ :: _ => Ok (Some tool_def)
    end.

(** [prepare_call_meeting_tool] *)
Definition prepare_call_meeting_tool (st : State) (agent_id : string)
    (tool_def : ToolDefinition) : PyResult (option ToolDefinition) :=
  let* r := agents_at st agent_id in
  let agent := heap st !!! r in
  let* ok := accessible (accessible_tools agent) (tool_name tool_def) in
  if negb ok then Ok None
  else
    match children agent with
    | [] => Ok None
    | _ :: _ => Ok (Some tool_def)
    end.

(** [prepare_get_file_content_tool]; the gates of the other file tools and
    of the terminal tools have the same body. *)
Definition prepare_get_file_content_tool (st : State) (agent_id : string)
    (tool_def : ToolDefinition) : PyResult (option ToolDefinition) :=
  let* r := agents_at st agent_id in
  let* ok := accessible (accessible_tools (heap st !!! r)) (tool_name tool_def) in
  if negb ok then Ok None else Ok (Some tool_def).

Definition prepare_make_file_tool := prepare_get_file_content_tool.
Definition prepare_edit_file_tool := prepare_get_file_content_tool.
Definition prepare_delete_file_tool := prepare_get_file_content_tool.
Definition prepare_list_files_tool := prepare_get_file_content_tool.
Definition prepare_new_terminal_tool := prepare_get_file_content_tool.
Definition prepare_run_command_tool := prepare_get_file_content_tool.
Definition prepare_delete_terminal_tool := prepare_get_file_content_tool.
Definition prepare_list_terminals_tool := prepare_get_file_content_tool.

(** ** States that the agency can reach *)

(** The states that a new agency goes through when agents are created with
    [create_new_agent_helper] or the endpoint [create_agent] and removed
    with [remove_agent_helper], in any order. The state after a removal
    that raised is among them. *)
Inductive reachable : State -> Prop :=
| reachable_fresh (provider ws main_agent_system_prompt : string) :
    reachable (Agency_init_fresh provider ws main_agent_system_prompt)
| reachable_create (st : State) (name system_prompt parent_id : string) :
    reachable st ->
    reachable (snd (create_new_agent_helper st name system_prompt parent_id))
| reachable_server_create (st : State) (req_name req_system_prompt : string)
    (req_parent_id : option string) :
    reachable st ->
    reachable (snd (server_create_agent st req_name req_system_prompt req_parent_id))
| reachable_remove (st : State) (agent_id : string) :
    reachable st ->
    reachable (snd (remove_agent_helper st agent_id))
| reachable_meeting (st : State) (backend : Backend) (host_id : string)
    (ctx_prompt : option string) (meeting_objective : string) (max_turns : Z)
    (summary : string) (st' : State) :
    reachable st ->
    call_meeting backend st host_id ctx_prompt meeting_objective max_turns
      = Ok (summary, st') ->
    reachable st'.

(** Every key of [agency.agents] is the decimal form of a number below
    [agency.current_id]. *)
Definition ids_below_counter (st : State) : Prop :=
  forall k, k ∈ dkeys (agents (agency st)) ->
    exists n, n < current_id (agency st) /\ k = PyStr.str n.

(** The agent objects that the two ways of creating an agent allocate. *)
Definition helper_agent (st : State) (nm sp : string) : Agent :=
  Agent_init nm (PyStr.str (current_id (agency st))) (default_provider (agency st)) sp
    all_tools ToolsList [].

Definition endpoint_agent (st : State) (nm sp : string) (servers : list string) : Agent :=
  Agent_init nm (PyStr.str (current_id (agency st))) (default_provider (agency st)) sp
    all_tools default_accessible_tools servers.

(** The registry [agency.agents] is in order: no id twice, every id bound to
    an allocated agent that carries it, and every id below the counter. *)
Definition registry_ok (st : State) : Prop :=
  NoDup (dkeys (agents (agency st))) /\
  agents_keyed_by_id st /\
  ids_below_counter st.

(** ** Snapshots as [Agency.save_state] writes them *)

(** A snapshot that [Agency.save_state] can have written with the tools
    [tools]: the ids are distinct, [agency_id] and every child id name a
    record, no record lists a child twice, every tool name is a known tool,
    and the workspace id is set. *)
Definition clean_snapshot (tools : list string) (state : AgencyState.t) : Prop :=
  NoDup (map AgentState.id (AgencyState.agents state)) /\
  AgencyState.agency_id state ∈ map AgentState.id (AgencyState.agents state) /\
  (exists w, AgencyState.workspace_id state = Some w /\ w <> "") /\
  forall rec, rec ∈ AgencyState.agents state ->
    NoDup (AgentState.child_ids rec) /\
    (forall c, c ∈ AgentState.child_ids rec ->
       c ∈ map AgentState.id (AgencyState.agents state)) /\
    (forall n, n ∈ AgentState.tool_names rec -> n ∈ tools).

(** ** [MCPServerManager], [Agency.create_mcp_server] and the agents' server lists *)

(** The two kinds of server object, with the [id] they are built from. *)
Inductive MCPServer :=
| PlaywrightMCPServer (server_no : Z)
| PythonMCPServer (server_no : Z).

(** [servers], [_running_servers] and the ids that have an entry in
    [_server_tasks]. *)
Record MCPServerManager := mkMCPServerManager {
  servers : dict MCPServer;
  running_servers : dict bool;
  server_tasks : list string
}.

(** [MCPServerManager.__init__] *)
Definition MCPServerManager_init : MCPServerManager := mkMCPServerManager [] [] [].

(** [MCPServerManager.add_server] *)
Definition add_server (server_id : string) (server : MCPServer) (m : MCPServerManager)
  : MCPServerManager :=
  mkMCPServerManager (dset server_id server (servers m))
    (dset server_id false (running_servers m)) (server_tasks m).

(** [MCPServerManager.get_server] *)
Definition get_server (m : MCPServerManager) (server_id : string) : option MCPServer :=
  dget server_id (servers m).

(** [MCPServerManager.is_running] *)
Definition is_running (m : MCPServerManager) (server_id : string) : bool :=
  default false (dget server_id (running_servers m)).

(** [MCPServerManager.get_running_servers] *)
Definition get_running_servers (m : MCPServerManager) : list string :=
  map fst (List.filter snd (running_servers m)).

(** [Agency._setup_mcp_servers], as far as the manager goes. *)
Definition setup_mcp_servers (m : MCPServerManager) : MCPServerManager :=
  add_server "mcp_server_python" (PythonMCPServer 0)
    (add_server "mcp_server_playwright" (PlaywrightMCPServer 0) m).

(** [Agency.create_mcp_server], which touches the manager only. *)
Definition create_mcp_server (m : MCPServerManager) (server_id : option string)
  : string * MCPServerManager :=
  let server_id :=
    match server_id with
    | None => "mcp_server_" +:+ PyStr.str (dlen (servers m))
    | Some s => s
    end in
  if dmem server_id (servers m)
  then ("Server with ID " +:+ server_id +:+ " already exists", m)
  else
    ("Created MCP server with ID: " +:+ server_id,
     add_server server_id (PlaywrightMCPServer (dlen (servers m))) m).

(** [l.remove(x)], for an [x] that is in [l]: the first occurrence goes. *)
Fixpoint list_remove (x : string) (l : list string) : list string :=
  match l with
  | [] => []
  | y :: rest => if String.eqb x y then rest else y :: list_remove x rest
  end.

(** [Agent.add_mcp_server] and [Agent.remove_mcp_server]. They change the
    list object bound to [self.mcp_server_ids] in place; [ids] is that
    list, and the result holds the returned truth value and the list
    afterwards. The [PydanticAgent] that both build anew before they
    return [True] is not part of the model. *)
Definition add_mcp_server (m : MCPServerManager) (ids : list string) (server_id : string)
  : bool * list string :=
  if existsb (String.eqb server_id) ids then (false, ids)
  else
    let ids' := ids ++ [server_id] in
    match get_server m server_id with
    | None => (false, ids')
    | Some _ => (true, ids')
    end.

Definition remove_mcp_server (ids : list string) (server_id : string)
  : bool * list string :=
  if existsb (String.eqb server_id) ids then (true, list_remove server_id ids)
  else (false, ids).

(** ** [TerminalProcess] and [TerminalManager]

    What the operating system answers to a call is an argument of the
    function that makes the call: [spawned] for [subprocess.Popen],
    [terminated] for the lines from [process.terminate()] to the end of the
    [try] block, [output] for what the shell wrote. *)

(** A process handle. *)
Inductive Popen := popen (cwd : string).

Record TerminalProcess := mkTerminalProcess {
  tp_workspace_path : string;
  tp_terminal_id : string;
  process : option Popen;
  active : bool
}.

(** [TerminalProcess.__init__] *)
Definition TerminalProcess_init (workspace_path terminal_id : string) : TerminalProcess :=
  mkTerminalProcess workspace_path terminal_id None false.

(** [TerminalProcess.start] *)
Definition TerminalProcess_start (spawned : PyResult Popen) (t : TerminalProcess)
  : PyResult bool * TerminalProcess :=
  if active t then (Ok false, t)
  else
    match spawned with
    | Raise e => (Raise e, t)
    | Ok p => (Ok true, mkTerminalProcess (tp_workspace_path t) (tp_terminal_id t) (Some p) true)
    end.

(** [TerminalProcess.stop] *)
Definition TerminalProcess_stop (terminated : PyResult unit) (t : TerminalProcess)
  : bool * TerminalProcess :=
  match active t, process t with
  | true, Some p =>
      match terminated with
      | Ok _ => (true, mkTerminalProcess (tp_workspace_path t) (tp_terminal_id t) (Some p) false)
      | Raise _ => (false, t)
      end
  | _, _ => (false, t)
  end.

(** What the [try] block of [TerminalProcess.run_command] comes to:
    [output_lines] as the loop leaves it, or the text of the exception. *)
Inductive ShellOutput :=
| ShellLines (output_lines : list string)
| ShellRaise (msg : string).

(** [TerminalProcess.run_command] *)
Definition TerminalProcess_run_command (output : ShellOutput)
    (t : TerminalProcess) (command : string) : string :=
  match active t, process t with
  | true, Some _ =>
      match output with
      | ShellLines output_lines =>
          let output_lines :=
            match output_lines with
            | first :: rest =>
                if PyStr.contains command first then rest else output_lines
            | [] => output_lines
            end in
          String.concat "" output_lines
      | ShellRaise msg => "Error executing command: " +:+ msg
      end
  | _, _ => "Error: Terminal is not active"
  end.

Record TerminalManager := mkTerminalManager {
  tm_workspace_path : string;
  terminals : dict TerminalProcess
}.

(** [TerminalManager.__init__] *)
Definition TerminalManager_init (workspace_path : string) : TerminalManager :=
  mkTerminalManager workspace_path [].

(** [TerminalManager.create_terminal]; [uuid_hex] is [uuid.uuid4().hex[:8]]. *)
Definition create_terminal (uuid_hex : string) (spawned : PyResult Popen)
    (tm : TerminalManager) (terminal_id : option string)
  : PyResult string * TerminalManager :=
  let terminal_id :=
    match terminal_id with
    | None => "terminal_" +:+ uuid_hex
    | Some t => t
    end in
  if dmem terminal_id (terminals tm)
  then (Ok ("Terminal with ID " +:+ terminal_id +:+ " already exists"), tm)
  else
    let terminal := TerminalProcess_init (tm_workspace_path tm) terminal_id in
    match TerminalProcess_start spawned terminal with
    | (Raise e, _) => (Raise e, tm)
    | (Ok true, terminal') =>
        (Ok ("Created terminal with ID: " +:+ terminal_id),
         mkTerminalManager (tm_workspace_path tm) (dset terminal_id terminal' (terminals tm)))
    | (Ok false, _) => (Ok ("Failed to create terminal with ID: " +:+ terminal_id), tm)
    end.

(** [TerminalManager.delete_terminal] *)
Definition delete_terminal (terminated : PyResult unit) (tm : TerminalManager)
    (terminal_id : string) : string * TerminalManager :=
  match dget terminal_id (terminals tm) with
  | None => ("Terminal with ID " +:+ terminal_id +:+ " does not exist", tm)
  | Some t =>
      let '(success, t') := TerminalProcess_stop terminated t in
      if success
      then ("Terminal " +:+ terminal_id +:+ " deleted successfully",
            mkTerminalManager (tm_workspace_path tm) (ddel terminal_id (terminals tm)))
      else ("Failed to delete terminal " +:+ terminal_id,
            mkTerminalManager (tm_workspace_path tm) (dset terminal_id t' (terminals tm)))
  end.

(** [TerminalManager.run_command] *)
Definition TerminalManager_run_command (output : ShellOutput)
    (tm : TerminalManager) (terminal_id command : string) : string :=
  match dget terminal_id (terminals tm) with
  | None => "Terminal with ID " +:+ terminal_id +:+ " does not exist"
  | Some t => TerminalProcess_run_command output t command
  end.

(** [TerminalManager.list_terminals] *)
Definition list_terminals (tm : TerminalManager) : string :=
  match terminals tm with
  | [] => "No active terminals"
  | _ :: _ =>
      "Active terminals:" +:+ PyStr.nl +:+
      PyStr.join PyStr.nl (map (fun terminal_id => "- " +:+ terminal_id) (dkeys (terminals tm)))
  end.

(** [TerminalManager.shutdown_all]: every terminal is asked to stop, and
    the table is emptied whatever the answers are. *)
Definition shutdown_all (tm : TerminalManager) : TerminalManager :=
  mkTerminalManager (tm_workspace_path tm) [].

(** The states of a terminal manager: it starts empty, and terminals are
    created and deleted and the manager is shut down in any order, with
    any answers of the operating system. *)
Inductive tm_reachable : TerminalManager -> Prop :=
| tm_reachable_init (workspace_path : string) :
    tm_reachable (TerminalManager_init workspace_path)
| tm_reachable_create (tm : TerminalManager) (uuid_hex : string)
    (spawned : PyResult Popen) (terminal_id : option string) :
    tm_reachable tm ->
    tm_reachable (snd (create_terminal uuid_hex spawned tm terminal_id))
| tm_reachable_delete (tm : TerminalManager) (terminated : PyResult unit)
    (terminal_id : string) :
    tm_reachable tm ->
    tm_reachable (snd (delete_terminal terminated tm terminal_id))
| tm_reachable_shutdown (tm : TerminalManager) :
    tm_reachable tm ->
    tm_reachable (shutdown_all tm).

(** Every terminal in the table is running, has a process and is stored
    under its own id. *)
Definition terminals_ok (tm : TerminalManager) : Prop :=
  NoDup (dkeys (terminals tm)) /\
  forall tid t, (tid, t) ∈ terminals tm ->
    active t = true /\ is_Some (process t) /\ tp_terminal_id t = tid.

(** ** Paths: [os.path] on a POSIX system *)

Module PosixPath.

(** [s.split("/")] *)
Fixpoint split (s : string) : list string :=
  match s with
  | EmptyString => [EmptyString]
  | String c t =>
      if Ascii.eqb c "/" then EmptyString :: split t
      else
        match split t with
        | [] => [String c EmptyString]
        | h :: r => String c h :: r
        end
  end.

(** [s.endswith("/")] *)
Fixpoint endswith_sep (s : string) : bool :=
  match s with
  | EmptyString => false
  | String c EmptyString => Ascii.eqb c "/"
  | String _ t => endswith_sep t
  end.

Definition isabs (s : string) : bool := String.prefix "/" s.

(** [os.path.join(a, b)] *)
Definition join (a b : string) : string :=
  if isabs b then b
  else if (String.eqb a EmptyString || endswith_sep a)%bool then a +:+ b
  else a +:+ "/" +:+ b.

(** The loop of [normpath] over the components, with [new_comps] in
    [acc]; [rooted] tells whether the path begins with a slash. *)
Definition normpath_step (rooted : bool) (acc : list string) (comp : string)
  : list string :=
  if (String.eqb comp EmptyString || String.eqb comp ".")%bool then acc
  else if (negb (String.eqb comp "..")
           || (negb rooted && match acc with [] => true | _ => false end)
           || match last acc with Some l => String.eqb l ".." | None => false end)%bool
  then acc ++ [comp]
  else removelast acc.

(** [os.path.normpath] *)
Definition normpath (path : string) : string :=
  match path with
  | EmptyString => "."
  | _ =>
      let initial_slashes :=
        if (String.prefix "//" path && negb (String.prefix "///" path))%bool then "//"
        else if String.prefix "/" path then "/"
        else EmptyString in
      let comps := fold_left (normpath_step (isabs path)) (split path) [] in
      match initial_slashes +:+ PyStr.join "/" comps with
      | EmptyString => "."
      | p => p
      end
  end.

(** [os.path.abspath], with [cwd] for [os.getcwd()] *)
Definition abspath (cwd path : string) : string :=
  normpath (if isabs path then path else join cwd path).

End PosixPath.

(** ** The file tools *)

(** [full_path], as every file tool computes it. *)
Definition full_path (workspace_path file_path : string) : string :=
  PosixPath.join workspace_path file_path.

(** The test that [get_file_content], [make_file], [edit_file],
    [delete_file] and [list_files] make before they touch the disk:
    [os.path.abspath(full_path).startswith(os.path.abspath(agency.workspace_path))]. *)
Definition in_workspace (cwd workspace_path file_path : string) : bool :=
  String.prefix (PosixPath.abspath cwd workspace_path)
    (PosixPath.abspath cwd (full_path workspace_path file_path)).

(** What the [try] block of [get_file_content] finds at a path. *)
Inductive ReadResult :=
| FileMissing
| FileContent (content : string)
| FileError (msg : string).

(** [get_file_content]; [read] is the disk. *)
Definition get_file_content (read : string -> ReadResult)
    (cwd workspace_path file_path : string) : string :=
  if negb (in_workspace cwd workspace_path file_path)
  then "Error: Cannot access files outside the workspace: " +:+ file_path
  else
    match read (full_path workspace_path file_path) with
    | FileMissing => "Error: File not found: " +:+ file_path
    | FileContent content =>
        "File content of " +:+ file_path +:+ ":" +:+ PyStr.nl +:+ PyStr.nl +:+ content
    | FileError msg => "Error reading file " +:+ file_path +:+ ": " +:+ msg
    end.

(** A path component that is a plain name: not empty, not [.] or [..],
    and without a slash. *)
Fixpoint no_slash (s : string) : bool :=
  match s with
  | EmptyString => true
  | String c t => (negb (Ascii.eqb c "/") && no_slash t)%bool
  end.

Definition plain (c : string) : bool :=
  (negb (String.eqb c EmptyString) && negb (String.eqb c ".")
   && negb (String.eqb c "..") && no_slash c)%bool.

(** The absolute path made of the components [comps]. *)
Definition rooted (comps : list string) : string := "/" +:+ PyStr.join "/" comps.

(** * Properties *)

(** Case split on a comparison of strings. *)
Ltac case_eqb a b := destruct (String.eqb_spec a b); subst; try congruence.

(** Closes [NoDup] of a list of different string literals. *)
Ltac nodup_strings :=
  repeat (apply NoDup_cons; split;
          [rewrite ?elem_of_cons, ?elem_of_nil; intuition discriminate|]);
  apply NoDup_nil_2.

(** Rewrites the turn that [E] describes, whatever form its meeting has in
    the goal. *)
Ltac use_turn E :=
  match type of E with
  | take_turn ?bk ?ti ?hi ?ps ?ag ?m = _ =>
      match goal with
      | |- context [take_turn bk ti hi ps ag ?m'] =>
          change (take_turn bk ti hi ps ag m') with (take_turn bk ti hi ps ag m);
          rewrite E
      end
  end.


(** ** Dictionaries *)

Section DictFacts.
Context {V : Type}.
Implicit Types (d : list (string * V)) (k : string) (v : V).

Lemma dget_dset_eq k v d : dget k (dset k v d) = Some v.
Proof.
  induction d as [|[k' v'] d IH]; simpl.
  - by rewrite String.eqb_refl.
  - case_eqb k k'; simpl.
    + by rewrite String.eqb_refl.
    + by destruct (String.eqb_spec k k').
Qed.

Lemma dget_dset_ne k k' v d : k <> k' -> dget k' (dset k v d) = dget k' d.
Proof.
  intros Hne. induction d as [|[k0 v0] d IH]; simpl.
  - by case_eqb k' k.
  - case_eqb k k0; simpl.
    + by case_eqb k' k0.
    + by rewrite IH.
Qed.

Lemma dget_ddel_eq k d : dget k (ddel k d) = None.
Proof.
  induction d as [|[k0 v0] d IH]; simpl; [done|].
  case_eqb k k0; simpl; [done|].
  by case_eqb k k0.
Qed.

Lemma dget_ddel_ne k k' d : k <> k' -> dget k' (ddel k d) = dget k' d.
Proof.
  intros Hne. induction d as [|[k0 v0] d IH]; simpl; [done|].
  case_eqb k k0; simpl.
  - by case_eqb k' k0.
  - by rewrite IH.
Qed.

Lemma dset_same k v d : dget k d = Some v -> dset k v d = d.
Proof.
  induction d as [|[k0 v0] d IH]; simpl; [done|].
  case_eqb k k0.
  intros Hg. by rewrite IH.
Qed.

Lemma dget_None_keys k d : dget k d = None <-> k ∉ dkeys d.
Proof.
  induction d as [|[k0 v0] d IH]; simpl.
  - split; [intros _; apply not_elem_of_nil | done].
  - rewrite not_elem_of_cons. case_eqb k k0.
    + split; [done|]. intros [Hk _]. by destruct Hk.
    + rewrite IH. split; [by split|by intros [_ ?]].
Qed.

Lemma dget_Some_keys k d : is_Some (dget k d) <-> k ∈ dkeys d.
Proof.
  destruct (dget k d) eqn:Hg.
  - split; [intros _|eauto].
    destruct (decide (k ∈ dkeys d)) as [|Hn]; [done|].
    apply dget_None_keys in Hn. congruence.
  - apply dget_None_keys in Hg. split; [by intros [? ?]|done].
Qed.

Lemma dmem_keys k d : dmem k d = true <-> k ∈ dkeys d.
Proof.
  rewrite <- dget_Some_keys. unfold dmem.
  destruct (dget k d); split; eauto; try done.
Qed.

Lemma dget_Some_elem k v d : dget k d = Some v -> (k, v) ∈ d.
Proof.
  induction d as [|[k0 v0] d IH]; simpl; [done|].
  case_eqb k k0.
  - intros [= ->]. apply elem_of_cons; by left.
  - intros Hg. apply elem_of_cons; right; auto.
Qed.

Lemma elem_dget_NoDup k v d : NoDup (dkeys d) -> (k, v) ∈ d -> dget k d = Some v.
Proof.
  induction d as [|[k0 v0] d IH]; simpl; intros Hnd Hin.
  - by apply elem_of_nil in Hin.
  - apply NoDup_cons in Hnd as [Hk0 Hnd].
    apply elem_of_cons in Hin as [[= -> ->]|Hin].
    + by rewrite String.eqb_refl.
    + case_eqb k k0; [|auto].
      exfalso. apply Hk0. unfold dkeys.
      apply (list_elem_of_fmap_2 fst) in Hin. exact Hin.
Qed.

Lemma dset_absent k v d : dget k d = None -> dset k v d = d ++ [(k, v)].
Proof.
  induction d as [|[k0 v0] d IH]; simpl; [done|].
  case_eqb k k0. intros Hg. by rewrite IH.
Qed.

Lemma dkeys_dset_present k v d : is_Some (dget k d) -> dkeys (dset k v d) = dkeys d.
Proof.
  induction d as [|[k0 v0] d IH]; simpl; [by intros [? ?]|].
  case_eqb k k0; simpl; [done|].
  intros Hs. by rewrite IH.
Qed.

Lemma dkeys_dset_absent k v d : dget k d = None -> dkeys (dset k v d) = dkeys d ++ [k].
Proof. intros Hg. rewrite dset_absent by done. unfold dkeys. by rewrite map_app. Qed.

Lemma elem_of_ddel k k' v d : (k', v) ∈ ddel k d <-> (k', v) ∈ d /\ k' <> k.
Proof.
  unfold ddel. rewrite list_elem_of_In, filter_In, <- list_elem_of_In. simpl.
  case_eqb k k'; simpl; intuition (try congruence).
Qed.

Lemma length_ddel k d :
  NoDup (dkeys d) -> is_Some (dget k d) -> S (length (ddel k d)) = length d.
Proof.
  induction d as [|[k0 v0] d IH]; simpl; intros Hnd Hs.
  - by destruct Hs.
  - apply NoDup_cons in Hnd as [Hk0 Hnd].
    case_eqb k k0; simpl.
    + f_equal. apply dget_None_keys in Hk0.
      clear -Hk0. induction d as [|[k1 v1] d IH]; simpl in *; [done|].
      case_eqb k0 k1. simpl. f_equal. auto.
    + f_equal. auto.
Qed.

End DictFacts.

(** ** Field updates and the store *)

Lemma lookup_total_snoc (h : list Agent) (a : Agent) : (h ++ [a]) !!! length h = a.
Proof.
  apply list_lookup_total_correct.
  rewrite lookup_app_r by lia. by rewrite Nat.sub_diag.
Qed.

(** A field that [f] leaves alone is the same after [alter f]. *)
Lemma lookup_total_alter_field {B} (field : Agent -> B) (f : Agent -> Agent)
    (i j : nat) (h : list Agent) :
  (forall a, field (f a) = field a) ->
  field (alter f i h !!! j) = field (h !!! j).
Proof.
  intros Hf. rewrite list_lookup_total_alter.
  case_decide as Hd; [|done]. destruct Hd as [-> _]. apply Hf.
Qed.

(** ** Depth of a created agent *)

Lemma curr_depth_root (fuel : nat) (st : State) (r : ref) :
  parent_id (heap st !!! r) = None -> curr_depth (S fuel) st r = Ok 0.
Proof. intros Hp. simpl. by rewrite Hp. Qed.

(** The agent made by [create_new_agent_helper] never gets a [parent_id],
    whatever the tree and the parent are: the helper writes the attribute
    [parent] instead. *)
Lemma create_new_agent_helper_parent_id (st : State) (nm sp pid : string) :
  let st' := snd (create_new_agent_helper st nm sp pid) in
  let r := length (heap st) in
  dget (PyStr.str (current_id (agency st))) (agents (agency st')) = Some r /\
  parent_id (heap st' !!! r) = None /\
  forall fuel, curr_depth (S fuel) st' r = Ok 0.
Proof.
  unfold create_new_agent_helper, next_id, alloc.
  cbn [snd fst heap agency agents set_agents set_current_id default_provider current_id].
  set (new_id := PyStr.str (current_id (agency st))).
  set (na := Agent_init nm new_id _ sp all_tools ToolsList []).
  set (h2 := match dget pid _ with Some _ => _ | None => _ end).
  assert (Hp : parent_id (h2 !!! length (heap st)) = None).
  { subst h2. destruct (dget pid _).
    - rewrite (lookup_total_alter_field parent_id) by done.
      rewrite (lookup_total_alter_field parent_id) by done.
      by rewrite lookup_total_snoc.
    - by rewrite lookup_total_snoc. }
  split; [apply dget_dset_eq|]. split; [exact Hp|].
  intros fuel. apply curr_depth_root. exact Hp.
Qed.

(** C1 (the code departs from the claim). In a new agency the main agent
    ["0"] is at depth 0 and [create_new_agent_helper] links the new agent
    ["1"] as its child, yet the depth computed for ["1"] is 0, not 1: its
    [parent_id] is still [None]. *)
Theorem create_new_agent_helper_depth_not_incremented :
  curr_depth 1000 fresh_agency 0%nat = Ok 0 /\
  create_new_agent_helper fresh_agency "worker" "You do the work." "0"
    = ("Created agent: worker with ID: 1", agency_with_worker) /\
  dget "1" (agents (agency agency_with_worker)) = Some 1%nat /\
  dget "1" (children (heap agency_with_worker !!! 0%nat)) = Some 1%nat /\
  parent (heap agency_with_worker !!! 1%nat) = Some "0" /\
  parent_id (heap agency_with_worker !!! 1%nat) = None /\
  curr_depth 1000 agency_with_worker 1%nat = Ok 0.
Proof. repeat split; vm_compute; reflexivity. Qed.

(** The endpoint [create_agent] of [backend/server.py] sets [parent_id]:
    the agent it creates below the main agent is at depth 1, and one
    created below that agent is at depth 2. *)
Example server_create_agent_depth_incremented :
  let st1 := snd (server_create_agent fresh_agency "worker" "You do the work." None) in
  let st2 := snd (server_create_agent st1 "helper" "You help." (Some "1")) in
  fst (server_create_agent fresh_agency "worker" "You do the work." None) = Ok "1" /\
  parent_id (heap st1 !!! 1%nat) = Some "0" /\
  curr_depth 1000 st1 1%nat = Ok 1 /\
  fst (server_create_agent st1 "helper" "You help." (Some "1")) = Ok "2" /\
  curr_depth 1000 st2 2%nat = Ok 2.
Proof. repeat split; vm_compute; reflexivity. Qed.

(** When [parent_id] is set, as the state loader and the HTTP endpoint set
    it, the computed depth is the parent's plus one. *)
Lemma curr_depth_parent (fuel : nat) (st : State) (r pr : ref) (p : string) (d : Z) :
  parent_id (heap st !!! r) = Some p ->
  dget p (agents (agency st)) = Some pr ->
  curr_depth fuel st pr = Ok d ->
  curr_depth (S fuel) st r = Ok (d + 1).
Proof.
  intros Hp Hg Hd. simpl. rewrite Hp. unfold agents_at. rewrite Hg. simpl.
  by rewrite Hd.
Qed.

(** ** The gate of [create_new_agent] *)

Lemma prepare_create_new_agent_tool_decision (fuel : nat) (st : State)
    (agent_id : string) (tool_def : ToolDefinition) (r : ref) (d : Z) (t : dict bool) :
  dget agent_id (agents (agency st)) = Some r ->
  curr_depth fuel st r = Ok d ->
  accessible_tools (heap st !!! r) = ToolsDict t ->
  prepare_create_new_agent_tool fuel st agent_id tool_def =
    Ok (if (negb (default false (dget (tool_name tool_def) t))
            || (d >=? max_depth (agency st))
            || (curr_breadth st r >=? max_breadth (agency st)))%bool
        then None else Some tool_def).
Proof.
  intros Hg Hd Ht. unfold prepare_create_new_agent_tool, agents_at.
  rewrite Hg. simpl. rewrite Hd. simpl. rewrite Ht. simpl.
  destruct (default false (dget (tool_name tool_def) t)); simpl; [|done].
  destruct (d >=? max_depth (agency st)); simpl; [done|].
  by destruct (curr_breadth st r >=? max_breadth (agency st)).
Qed.

Lemma curr_depth_set_max_agents (n : Z) (fuel : nat) (st : State) (r : ref) :
  curr_depth fuel (set_max_agents n st) r = curr_depth fuel st r.
Proof.
  revert r. induction fuel as [|fuel IH]; intros r; simpl; [done|].
  destruct (parent_id (heap st !!! r)); [|done].
  unfold agents_at; simpl. destruct (dget s (agents (agency st))); simpl; [|done].
  by rewrite IH.
Qed.

(** C2, counterexample. An agency restored from [full_snapshot] holds one
    agent and has [max_agents = 1], so that the total is at the cap; the
    gate still offers [create_new_agent] to the agent, and the call then
    adds a second agent. *)
Lemma create_offered_when_agency_is_full :
  exists st,
    Agency_init_from_state full_snapshot all_tools None "workspace_0" = Ok (st, []) /\
    dlen (agents (agency st)) = 1 /\ max_agents (agency st) = 1 /\
    prepare_create_new_agent_tool 1000 st "0" create_tool_def = Ok (Some create_tool_def) /\
    dlen (agents (agency (snd (create_new_agent st "0" "worker" "You do the work.")))) = 2.
Proof. eexists. repeat split; vm_compute; reflexivity. Qed.

(** C2, as amended. For a registered agent whose depth [d] is computed and
    whose [accessible_tools] is a dictionary, the gate withholds
    [create_new_agent] when the tool is not enabled for the agent, or
    [d + 1 > max_depth], or the agent already has [max_breadth] children,
    and offers it otherwise; [max_agents] has no part in the decision. The
    gate only reads the agency, so a refusal changes nothing.
    [create_new_agent_helper] makes no check of its own: whatever the
    agency and the parent are, it answers with the new id, registers the
    new agent under it and allocates one object; when the id was free,
    [len(agency.agents)] goes up by one. *)
Theorem prepare_create_new_agent_tool_gate (fuel : nat) (st : State)
    (agent_id : string) (tool_def : ToolDefinition) (r : ref) (d : Z) (t : dict bool)
    (Hagent : dget agent_id (agents (agency st)) = Some r)
    (Hdepth : curr_depth fuel st r = Ok d)
    (Htools : accessible_tools (heap st !!! r) = ToolsDict t) :
  (default false (dget (tool_name tool_def) t) = false \/
   d + 1 > max_depth (agency st) \/
   dlen (children (heap st !!! r)) >= max_breadth (agency st) ->
   prepare_create_new_agent_tool fuel st agent_id tool_def = Ok None) /\
  (default false (dget (tool_name tool_def) t) = true ->
   d + 1 <= max_depth (agency st) ->
   dlen (children (heap st !!! r)) < max_breadth (agency st) ->
   prepare_create_new_agent_tool fuel st agent_id tool_def = Ok (Some tool_def)) /\
  (forall n,
     prepare_create_new_agent_tool fuel (set_max_agents n st) agent_id tool_def =
     prepare_create_new_agent_tool fuel st agent_id tool_def) /\
  (forall nm sp pid,
     let out := create_new_agent_helper st nm sp pid in
     let new_id := PyStr.str (current_id (agency st)) in
     fst out = "Created agent: " +:+ nm +:+ " with ID: " +:+ new_id /\
     dget new_id (agents (agency (snd out))) = Some (length (heap st)) /\
     length (heap (snd out)) = S (length (heap st)) /\
     (dget new_id (agents (agency st)) = None ->
      dlen (agents (agency (snd out))) = dlen (agents (agency st)) + 1)).
Proof.
  rewrite (prepare_create_new_agent_tool_decision fuel st agent_id tool_def r d t) by done.
  unfold curr_breadth. split; [|split; [|split]]; cycle 3.
  { intros nm sp pid. cbv zeta.
    unfold create_new_agent_helper, next_id, alloc.
    cbn [snd fst heap agency agents set_agents set_current_id default_provider current_id].
    split; [done|]. split; [apply dget_dset_eq|]. split.
    - destruct (dget pid _); rewrite ?length_alter, length_app; simpl; lia.
    - intros Hfree. rewrite (dset_absent _ _ _ Hfree). unfold dlen.
      rewrite length_app. simpl. lia. }
  - intros [Ha|[Hd|Hb]].
    + by rewrite Ha.
    + replace (d >=? max_depth (agency st)) with true by lia.
      by rewrite orb_true_r.
    + replace (dlen (children (heap st !!! r)) >=? max_breadth (agency st)) with true by lia.
      by rewrite orb_true_r.
  - intros Ha Hd Hb. rewrite Ha. simpl.
    replace (d >=? max_depth (agency st)) with false by lia.
    by replace (dlen (children (heap st !!! r)) >=? max_breadth (agency st)) with false by lia.
  - intros n.
    rewrite (prepare_create_new_agent_tool_decision fuel _ agent_id tool_def r d t);
      [done|done| |done].
    by rewrite curr_depth_set_max_agents.
Qed.

Lemma prepare_create_new_agent_tool_gate_witness :
  prepare_create_new_agent_tool 1000 agency_with_three_workers "0" create_tool_def = Ok None.
Proof.
  refine (proj1 (prepare_create_new_agent_tool_gate 1000 agency_with_three_workers "0"
            create_tool_def 0%nat 0
            [("create_new_agent", true); ("message_agent", true);
             ("call_meeting", true); ("internal_monologue", true)]
            eq_refl eq_refl eq_refl) _).
  right; right. vm_compute. discriminate.
Defined.

(** ** Meetings: what a turn and a round change *)

Lemma same_but_history_refl (h : list Agent) : same_but_history h h.
Proof. by split. Qed.

Lemma same_but_history_trans (h1 h2 h3 : list Agent) :
  same_but_history h1 h2 -> same_but_history h2 h3 -> same_but_history h1 h3.
Proof.
  intros [Hl1 H1] [Hl2 H2]. split; [congruence|].
  intros r. destruct (H1 r) as (?&?&?&?&?), (H2 r) as (?&?&?&?&?).
  repeat split; congruence.
Qed.

Lemma same_but_history_alter (f : Agent -> Agent) (r : ref) (h : list Agent) :
  (forall a, id (f a) = id a /\ name (f a) = name a /\
             accessible_tools (f a) = accessible_tools a /\
             parent_id (f a) = parent_id a /\ children (f a) = children a) ->
  same_but_history h (alter f r h).
Proof.
  intros Hf. split; [apply length_alter|].
  intros j. repeat split; apply lookup_total_alter_field; intros a; apply Hf.
Qed.

Lemma same_but_history_extend (ms : list ModelMessage) (r : ref) (h : list Agent) :
  same_but_history h (alter (extend_history ms) r h).
Proof. by apply same_but_history_alter. Qed.

Lemma same_but_history_append_to_all (rs : list ref) (msg : ModelMessage) (h : list Agent) :
  same_but_history h (append_to_all rs msg h).
Proof.
  revert h. induction rs as [|r rs IH]; intros h; simpl.
  - apply same_but_history_refl.
  - eapply same_but_history_trans; [apply same_but_history_extend|apply IH].
Qed.

Lemma same_but_history_broadcast (ps : list ref) (sid c : string) (h : list Agent) :
  same_but_history h (broadcast ps sid c h).
Proof.
  revert h. induction ps as [|p ps IH]; intros h; simpl.
  - apply same_but_history_refl.
  - destruct (String.eqb _ sid); [apply IH|].
    eapply same_but_history_trans; [apply same_but_history_extend|apply IH].
Qed.

(** The messages that [broadcast] appends to a history are copies of the
    one broadcast message. *)
Lemma broadcast_history (ps : list ref) (sid c : string) (h : list Agent) (o : ref) :
  exists k : nat,
    message_history (broadcast ps sid c h !!! o) =
    message_history (h !!! o) ++ repeat (UserPromptMsg c) k.
Proof.
  revert h. induction ps as [|p ps IH]; intros h; simpl.
  - exists 0%nat. by rewrite app_nil_r.
  - destruct (String.eqb _ sid); [apply IH|].
    destruct (IH (alter (extend_history [UserPromptMsg c]) p h)) as [k Hk].
    rewrite Hk, list_lookup_total_alter. case_decide as Hd.
    + destruct Hd as [-> _]. exists (S k). simpl. by rewrite <- app_assoc.
    + by exists k.
Qed.

Lemma elem_of_set_add (x y : string) (s : list string) :
  y ∈ set_add x s <-> y = x \/ y ∈ s.
Proof.
  unfold set_add. destruct (existsb (String.eqb x) s) eqn:He.
  - apply existsb_exists in He as (z & Hz & Hxz).
    apply String.eqb_eq in Hxz as <-. apply list_elem_of_In in Hz.
    split; [by right|]. by intros [->|?].
  - rewrite elem_of_app, list_elem_of_singleton. tauto.
Qed.

Lemma logging_agent_id_same (temp_host_id host_id : string) (a a' : Agent) :
  id a = id a' ->
  logging_agent_id temp_host_id host_id a = logging_agent_id temp_host_id host_id a'.
Proof. unfold logging_agent_id. by intros ->. Qed.

Section RoundFacts.
Variable backend : Backend.
Variables temp_host_id host_id : string.
Variable participants : list ref.

Local Abbreviation turn_of := (take_turn backend temp_host_id host_id participants).
Local Abbreviation round_of := (run_round backend temp_host_id host_id participants).
Local Abbreviation rounds_of := (run_rounds backend temp_host_id host_id participants).

Lemma take_turn_raise (agent : ref) (m : Meeting) (e : string) :
  backend (turn m + 1) (m_heap m !!! agent) YOUR_TURN_PHRASE = RunRaise e ->
  turn_of agent m =
    (mkMeeting (m_heap m)
       (set_add (id (m_heap m !!! agent)) (agents_done m))
       (discussion_log m ++
          [mkLogEntry (name (m_heap m !!! agent))
             (logging_agent_id temp_host_id host_id (m_heap m !!! agent))
             ("Error during response: " +:+ e)])
       (turn m + 1) (rounds m),
     false).
Proof. intros Hb. unfold take_turn. by rewrite Hb. Qed.

Lemma take_turn_ok (agent : ref) (m : Meeting) (data : string) (ms : list ModelMessage) :
  backend (turn m + 1) (m_heap m !!! agent) YOUR_TURN_PHRASE = RunOk data ms ->
  let a := m_heap m !!! agent in
  let lid := logging_agent_id temp_host_id host_id a in
  let m' :=
    mkMeeting
      (broadcast participants (id a) (broadcast_content (name a) lid (PyStr.strip data))
         (alter (extend_history ms) agent (m_heap m)))
      (if is_ready (PyStr.strip data) then set_add (id a) (agents_done m)
       else agents_done m)
      (discussion_log m ++ [mkLogEntry (name a) lid (PyStr.strip data)])
      (turn m + 1) (rounds m) in
  turn_of agent m = (m', all_done participants m').
Proof. intros Hb. unfold take_turn. by rewrite Hb. Qed.

(** Whatever the backend does, a turn adds one to [turn], appends one
    entry to the log under the logging id, and leaves every agent's id,
    name, tools and links alone. *)
Lemma take_turn_effect (agent : ref) (m : Meeting) :
  let a := m_heap m !!! agent in
  let m' := fst (turn_of agent m) in
  turn m' = turn m + 1 /\
  rounds m' = rounds m /\
  (exists text,
     discussion_log m' =
     discussion_log m ++
       [mkLogEntry (name a) (logging_agent_id temp_host_id host_id a) text]) /\
  same_but_history (m_heap m) (m_heap m') /\
  (forall x, x ∈ agents_done m -> x ∈ agents_done m').
Proof.
  intros a m'. subst m'.
  destruct (backend (turn m + 1) (m_heap m !!! agent) YOUR_TURN_PHRASE)
    as [data ms|e] eqn:Hb.
  - rewrite (take_turn_ok agent m data ms Hb). simpl.
    split; [done|]. split; [done|]. split; [by eexists|]. split.
    + apply (same_but_history_trans _ _ _ (same_but_history_extend ms agent (m_heap m))
               (same_but_history_broadcast _ _ _ _)).
    + intros x Hx. destruct (is_ready _); [|done].
      apply elem_of_set_add. by right.
  - rewrite (take_turn_raise agent m e Hb). simpl.
    split; [done|]. split; [done|]. split; [by eexists|]. split.
    + apply same_but_history_refl.
    + intros x Hx. apply elem_of_set_add. by right.
Qed.

Lemma turns_of_same (h h' : list Agent) (ps : list ref) (added : list LogEntry) :
  same_but_history h h' ->
  turns_of temp_host_id host_id h' ps added -> turns_of temp_host_id host_id h ps added.
Proof.
  intros [_ Hs] Hf. unfold turns_of. eapply Forall_impl; [exact Hf|].
  intros e (r & Hr & Hn & Hi). exists r. destruct (Hs r) as (Hid & Hname & _).
  split; [done|]. split; [congruence|].
  rewrite Hi. by apply logging_agent_id_same.
Qed.

Lemma run_round_effect (ps : list ref) (m : Meeting) :
  exists added,
    discussion_log (round_of ps m) = discussion_log m ++ added /\
    turn (round_of ps m) = turn m + Z.of_nat (length added) /\
    (length added <= length ps)%nat /\
    rounds (round_of ps m) = rounds m /\
    same_but_history (m_heap m) (m_heap (round_of ps m)) /\
    (forall x, x ∈ agents_done m -> x ∈ agents_done (round_of ps m)) /\
    turns_of temp_host_id host_id (m_heap m) ps added.
Proof.
  revert m. induction ps as [|p ps IH]; intros m; simpl.
  - exists []. rewrite app_nil_r. simpl.
    repeat split; try done; try lia. by apply Forall_nil.
  - destruct (take_turn_effect p m) as (Ht & Hr & [text Hl] & Hs & Hd).
    destruct (turn_of p m) as [m' brk] eqn:Hm'. simpl in *.
    assert (Hfirst : turns_of temp_host_id host_id (m_heap m) (p :: ps)
              [mkLogEntry (name (m_heap m !!! p))
                 (logging_agent_id temp_host_id host_id (m_heap m !!! p)) text]).
    { apply Forall_cons; split; [|by apply Forall_nil].
      exists p. split; [apply elem_of_cons; by left|done]. }
    destruct brk.
    + eexists. split; [exact Hl|]. simpl.
      split; [lia|]. split; [lia|]. split; [done|]. split; [done|]. by split.
    + destruct (IH m') as (added & Hl' & Ht' & Hlen & Hr' & Hs' & Hd' & Hf').
      exists (mkLogEntry (name (m_heap m !!! p))
                (logging_agent_id temp_host_id host_id (m_heap m !!! p)) text :: added).
      rewrite Hl', Hl, <- app_assoc. simpl.
      split; [done|]. split; [lia|]. split; [lia|]. split; [congruence|].
      split; [by eapply same_but_history_trans|]. split; [by auto|].
      apply Forall_cons; split.
      * by apply Forall_cons in Hfirst as [? _].
      * apply (turns_of_same _ _ _ _ Hs) in Hf'.
        eapply Forall_impl; [exact Hf'|]. intros e (r & Hr0 & ?). exists r.
        split; [apply elem_of_cons; by right|done].
Qed.

Lemma run_rounds_effect (max_rounds : Z) (n : nat) (m : Meeting) :
  let mf := rounds_of max_rounds n m in
  exists added,
    discussion_log mf = discussion_log m ++ added /\
    turn mf = turn m + Z.of_nat (length added) /\
    (rounds m <= rounds mf <= rounds m + n)%nat /\
    (length added <= (rounds mf - rounds m) * length participants)%nat /\
    same_but_history (m_heap m) (m_heap mf) /\
    (forall x, x ∈ agents_done m -> x ∈ agents_done mf) /\
    turns_of temp_host_id host_id (m_heap m) participants added.
Proof.
  revert m. induction n as [|n IH]; intros m; simpl.
  - exists []. rewrite app_nil_r. simpl.
    repeat split; try done; try lia. by apply Forall_nil.
  - destruct (all_done participants m).
    { exists []. rewrite app_nil_r. simpl.
      repeat split; try done; try lia. by apply Forall_nil. }
    set (mb := mkMeeting (m_heap m) (agents_done m) (discussion_log m) (turn m)
                 (S (rounds m))).
    destruct (run_round_effect participants mb)
      as (added1 & Hl1 & Ht1 & Hlen1 & Hr1 & Hs1 & Hd1 & Hf1).
    simpl in *.
    destruct (turn (round_of participants mb) >=? max_rounds).
    + exists added1. rewrite Hr1.
      split; [done|]. split; [done|]. split; [lia|]. split; [lia|].
      split; [done|]. by split.
    + destruct (IH (round_of participants mb))
        as (added2 & Hl2 & Ht2 & Hr2 & Hlen2 & Hs2 & Hd2 & Hf2).
      exists (added1 ++ added2). rewrite Hl2, Hl1, <- app_assoc, length_app.
      split; [done|]. split; [lia|]. split; [lia|]. split; [nia|].
      split; [by eapply same_but_history_trans|]. split; [by auto|].
      apply Forall_app; split; [done|]. by apply (turns_of_same _ _ _ _ Hs1).
Qed.

End RoundFacts.

(** ** A failing turn *)

(** C7. When the backend raises on a participant's turn, the turn appends
    exactly one log entry, which carries the error text in place of a
    response, puts the participant into [agents_done], keeps everybody
    already there, touches no history and does not end the round early.
    With any backend, so also with one that keeps failing, the meeting
    stops after at most [max_rounds <= 15] rounds, that is after at most
    [rounds * len(participants)] turns, each with its one log entry. *)
Theorem failing_turn_is_isolated (backend : Backend) (host_id : string) (max_turns : Z)
    (s : MeetingSetup) (agent : ref) (m : Meeting) (e : string)
    (Hraise : backend (turn m + 1) (m_heap m !!! agent) YOUR_TURN_PHRASE = RunRaise e) :
  let a := m_heap m !!! agent in
  let step := take_turn backend (s_temp_host_id s) host_id (s_participants s) agent m in
  let mf := meeting_rounds backend host_id max_turns s in
  let max_rounds := Z.min (max_turns * Z.of_nat (length (s_participants s))) 15 in
  (discussion_log (fst step) =
     discussion_log m ++
       [mkLogEntry (name a) (logging_agent_id (s_temp_host_id s) host_id a)
          ("Error during response: " +:+ e)] /\
   id a ∈ agents_done (fst step) /\
   (forall x, x ∈ agents_done m -> x ∈ agents_done (fst step)) /\
   m_heap (fst step) = m_heap m /\
   turn (fst step) = turn m + 1 /\
   snd step = false) /\
  ((rounds mf <= Z.to_nat max_rounds)%nat /\
   (rounds mf <= 15)%nat /\
   0 <= turn mf <= Z.of_nat (rounds mf * length (s_participants s)) /\
   length (discussion_log mf) = (length (s_discussion_log s) + Z.to_nat (turn mf))%nat).
Proof.
  intros a step mf max_rounds. split.
  - subst step. rewrite (take_turn_raise _ _ _ _ _ _ _ Hraise). simpl.
    split; [done|]. split; [apply elem_of_set_add; by left|].
    split; [intros x Hx; apply elem_of_set_add; by right|]. done.
  - subst mf. unfold meeting_rounds. fold max_rounds.
    destruct (run_rounds_effect backend (s_temp_host_id s) host_id (s_participants s)
                max_rounds (Z.to_nat max_rounds)
                (mkMeeting (heap (s_state s)) [] (s_discussion_log s) 0 0))
      as (added & Hl & Ht & Hr & Hlen & _).
    simpl in *. rewrite Hl, Ht, length_app.
    split; [lia|]. split; [lia|]. split; [lia|]. lia.
Qed.

Lemma failing_turn_is_isolated_witness :
  agents_done
    (fst (take_turn failing_backend "0_temp" "0" [4%nat; 1%nat; 2%nat; 3%nat] 2%nat
            workers_meeting_start)) = ["2"] /\
  (rounds (meeting_rounds failing_backend "0" 2 workers_meeting_setup) <= 15)%nat.
Proof.
  pose proof (failing_turn_is_isolated failing_backend "0" 2 workers_meeting_setup
                2%nat workers_meeting_start "Connection error." eq_refl) as H.
  split.
  - reflexivity.
  - exact (proj1 (proj2 (proj2 H))).
Defined.

(** ** Meetings: what the set-up builds *)



Section SetupFacts.
Context {B : Type} (field : Agent -> B).
Hypothesis field_history : forall x a, field (set_message_history x a) = field a.

Lemma append_to_all_field (rs : list ref) (msg : ModelMessage) (h : list Agent) (r : ref) :
  field (append_to_all rs msg h !!! r) = field (h !!! r).
Proof.
  unfold append_to_all.
  revert h. induction rs as [|x rs IH]; intros h; simpl; [done|].
  rewrite IH.
  apply lookup_total_alter_field. intros a. apply field_history.
Qed.

Hypothesis field_tools : forall t a, field (set_accessible_tools t a) = field a.

Lemma stash_tools_field (cs : list ref) (h : list Agent) (r : ref) :
  field (snd (stash_tools cs h) !!! r) = field (h !!! r).
Proof.
  unfold stash_tools.
  change h with (snd (@nil (string * tools_value), h)) at 2.
  generalize (@nil (string * tools_value), h). clear h.
  induction cs as [|c cs IH]; intros [orig h]; simpl; [done|].
  rewrite IH. simpl. by apply lookup_total_alter_field.
Qed.

Lemma restore_tools_field (cs : list ref) (orig : dict tools_value) (h : list Agent)
    (r : ref) :
  field (restore_tools cs orig h !!! r) = field (h !!! r).
Proof.
  unfold restore_tools.
  revert h. induction cs as [|c cs IH]; intros h; simpl; [done|].
  rewrite IH.
  by apply lookup_total_alter_field.
Qed.

Lemma meeting_setup_field (st : State) (host_id : string) (host : ref)
    (cs : list ref) (prompt objective : string) (r : ref) :
  let hosta := heap st !!! host in
  field (heap (s_state (meeting_setup st host_id host cs prompt objective)) !!! r) =
  field ((heap st ++
            [Agent_init (name hosta +:+ " [Active Host]") (host_id +:+ "_temp")
               (provider hosta) (system_prompt hosta) (tools hosta) (ToolsDict []) []])
         !!! r).
Proof.
  intros hosta. unfold meeting_setup, alloc. fold hosta.
  match goal with
  | |- context [stash_tools cs ?h] =>
      pose proof (stash_tools_field cs h r) as Hs;
      destruct (stash_tools cs h) as [orig h3]
  end.
  simpl in *.
  rewrite lookup_total_alter_field by (intros; apply field_history).
  rewrite !append_to_all_field.
  rewrite lookup_total_alter_field by (intros; apply field_history).
  etransitivity; [exact Hs|].
  rewrite lookup_total_alter_field by (intros; apply field_history).
  by rewrite lookup_total_alter_field by (intros; apply field_history).
Qed.

End SetupFacts.

Lemma length_append_to_all (rs : list ref) (msg : ModelMessage) (h : list Agent) :
  length (append_to_all rs msg h) = length h.
Proof. apply (same_but_history_append_to_all rs msg h). Qed.

Lemma length_stash_tools (cs : list ref) (h : list Agent) :
  length (snd (stash_tools cs h)) = length h.
Proof.
  unfold stash_tools.
  change h with (snd (@nil (string * tools_value), h)) at 2.
  generalize (@nil (string * tools_value), h). clear h.
  induction cs as [|c cs IH]; intros [orig h]; simpl; [done|].
  rewrite IH. simpl. apply length_alter.
Qed.

Lemma length_restore_tools (cs : list ref) (orig : dict tools_value) (h : list Agent) :
  length (restore_tools cs orig h) = length h.
Proof.
  unfold restore_tools.
  revert h. induction cs as [|c cs IH]; intros h; simpl; [done|].
  rewrite IH. apply length_alter.
Qed.

(** The parts of the set-up that do not depend on the histories. *)
Lemma meeting_setup_parts (st : State) (host_id : string) (host : ref)
    (cs : list ref) (prompt objective : string) :
  let s := meeting_setup st host_id host cs prompt objective in
  s_temp_host_id s = host_id +:+ "_temp" /\
  s_temp_host s = length (heap st) /\
  s_children s = cs /\
  s_participants s = length (heap st) :: cs /\
  agents (agency (s_state s)) =
    dset (host_id +:+ "_temp") (length (heap st)) (agents (agency st)) /\
  length (heap (s_state s)) = S (length (heap st)) /\
  s_discussion_log s =
    [mkLogEntry (name (heap st !!! host) +:+ " [Active Host]") (host_id +:+ "_temp")
       ("Meeting initialized with objective: " +:+ objective)] /\
  s_original_accessible_tools s =
    fst (stash_tools cs
           (alter (extend_history [UserPromptMsg prompt]) (length (heap st))
              (alter (set_message_history (message_history (heap st !!! host)))
                 (length (heap st))
                 (heap st ++
                    [Agent_init (name (heap st !!! host) +:+ " [Active Host]")
                       (host_id +:+ "_temp") (provider (heap st !!! host))
                       (system_prompt (heap st !!! host)) (tools (heap st !!! host))
                       (ToolsDict []) []])))).
Proof.
  intros s.
  pose proof (meeting_setup_field id (fun _ _ => eq_refl) (fun _ _ => eq_refl)
                st host_id host cs prompt objective (length (heap st))) as Hid.
  pose proof (meeting_setup_field name (fun _ _ => eq_refl) (fun _ _ => eq_refl)
                st host_id host cs prompt objective (length (heap st))) as Hname.
  simpl in Hid, Hname. rewrite lookup_total_snoc in Hid, Hname. simpl in Hid, Hname.
  subst s. unfold meeting_setup, alloc in *.
  match goal with
  | |- context [stash_tools cs ?h] =>
      pose proof (length_stash_tools cs h) as Hlen;
      destruct (stash_tools cs h) as [orig h3]
  end.
  simpl in *.
  repeat split; try done.
  - rewrite length_alter, !length_append_to_all, length_alter, Hlen.
    rewrite !length_alter, length_app. simpl. lia.
  - f_equal. f_equal; [|].
    + rewrite <- Hname.
      rewrite lookup_total_alter_field by done.
      rewrite !(append_to_all_field name) by done.
      by rewrite lookup_total_alter_field by done.
    + rewrite <- Hid.
      rewrite lookup_total_alter_field by done.
      rewrite !(append_to_all_field id) by done.
      by rewrite lookup_total_alter_field by done.
Qed.

(** ** The speaker recorded for a turn *)


(** What one turn appends: one log entry, and to each history the speaker's
    own new messages ([own]) followed by copies of the one broadcast. *)
Lemma take_turn_histories (backend : Backend) (temp_host_id host_id : string)
    (participants : list ref) (agent : ref) (m : Meeting) :
  let a := m_heap m !!! agent in
  let lid := logging_agent_id temp_host_id host_id a in
  let m' := fst (take_turn backend temp_host_id host_id participants agent m) in
  exists text,
    discussion_log m' = discussion_log m ++ [mkLogEntry (name a) lid text] /\
    forall o : ref, exists own k,
      message_history (m_heap m' !!! o) =
      message_history (m_heap m !!! o) ++ own ++
        repeat (UserPromptMsg (broadcast_content (name a) lid text)) k.
Proof.
  intros a lid m'. subst m'.
  destruct (backend (turn m + 1) (m_heap m !!! agent) YOUR_TURN_PHRASE)
    as [data ms|e] eqn:Hb.
  - rewrite (take_turn_ok _ _ _ _ _ _ _ _ Hb). simpl. fold a lid.
    exists (PyStr.strip data). split; [done|]. intros o.
    destruct (broadcast_history participants (id a)
                (broadcast_content (name a) lid (PyStr.strip data))
                (alter (extend_history ms) agent (m_heap m)) o) as [k Hk].
    rewrite Hk, list_lookup_total_alter. case_decide as Hd.
    + destruct Hd as [-> _]. exists ms, k. simpl. by rewrite <- app_assoc.
    + by exists [], k.
  - rewrite (take_turn_raise _ _ _ _ _ _ _ Hb). simpl. fold a lid.
    eexists. split; [done|]. intros o. exists [], 0%nat. simpl.
    by rewrite app_nil_r.
Qed.



(** ** A meeting of a host and two children *)

Lemma set_add_fresh (x : string) (s : list string) :
  x ∉ s -> set_add x s = s ++ [x].
Proof.
  intros Hx. unfold set_add.
  destruct (existsb (String.eqb x) s) eqn:He; [|done].
  apply existsb_exists in He as (y & Hy & Hxy).
  apply String.eqb_eq in Hxy as <-. by apply list_elem_of_In in Hy.
Qed.

Lemma run_round_cons (backend : Backend) (temp_host_id host_id : string)
    (participants : list ref) (p : ref) (ps : list ref) (m : Meeting) :
  run_round backend temp_host_id host_id participants (p :: ps) m =
  (let '(m', brk) := take_turn backend temp_host_id host_id participants p m in
   if brk then m' else run_round backend temp_host_id host_id participants ps m').
Proof. reflexivity. Qed.

Lemma run_rounds_S (backend : Backend) (temp_host_id host_id : string)
    (participants : list ref) (max_rounds : Z) (n : nat) (m : Meeting) :
  run_rounds backend temp_host_id host_id participants max_rounds (S n) m =
  if all_done participants m then m
  else
    let m1 := run_round backend temp_host_id host_id participants participants
                (mkMeeting (m_heap m) (agents_done m) (discussion_log m) (turn m)
                   (S (rounds m))) in
    if turn m1 >=? max_rounds then m1
    else run_rounds backend temp_host_id host_id participants max_rounds n m1.
Proof. reflexivity. Qed.

(** A turn that the backend answers, seen from outside: the store changes
    in histories only. *)
Lemma take_turn_answered (backend : Backend) (temp_host_id host_id : string)
    (participants : list ref) (agent : ref) (m : Meeting)
    (data : string) (ms : list ModelMessage) (aid aname lid : string) (ready : bool) :
  backend (turn m + 1) (m_heap m !!! agent) YOUR_TURN_PHRASE = RunOk data ms ->
  id (m_heap m !!! agent) = aid ->
  name (m_heap m !!! agent) = aname ->
  logging_agent_id temp_host_id host_id (m_heap m !!! agent) = lid ->
  is_ready (PyStr.strip data) = ready ->
  exists h',
    same_but_history (m_heap m) h' /\
    take_turn backend temp_host_id host_id participants agent m =
    (let done := if ready then set_add aid (agents_done m) else agents_done m in
     (mkMeeting h' done
        (discussion_log m ++ [mkLogEntry aname lid (PyStr.strip data)])
        (turn m + 1) (rounds m),
      Nat.eqb (length done) (length participants))).
Proof.
  intros Hb <- <- <- <-. eexists.
  split; [|by rewrite (take_turn_ok _ _ _ _ _ _ _ _ Hb)].
  apply (same_but_history_trans _ _ _ (same_but_history_extend ms agent (m_heap m))
           (same_but_history_broadcast _ _ _ _)).
Qed.

(** The rounds of a meeting of three, on any store in which the temporary
    host [t] and the children [a] and [b] carry three different ids. *)
Lemma four_turn_rounds (backend : Backend) (host_id : string) (t a b : ref)
    (h0 : list Agent) (log0 : list LogEntry) (ida idb : string)
    (d1 dA dB d4 : string) (ms1 msA msB ms4 : list ModelMessage) :
  let temp := host_id +:+ "_temp" in
  id (h0 !!! t) = temp -> id (h0 !!! a) = ida -> id (h0 !!! b) = idb ->
  ida <> idb -> ida <> temp -> idb <> temp ->
  (forall x p, backend 1 x p = RunOk d1 ms1) -> is_ready (PyStr.strip d1) = false ->
  (forall x p, backend 2 x p = RunOk dA msA) -> is_ready (PyStr.strip dA) = true ->
  (forall x p, backend 3 x p = RunOk dB msB) -> is_ready (PyStr.strip dB) = true ->
  (forall x p, backend 4 x p = RunOk d4 ms4) -> is_ready (PyStr.strip d4) = true ->
  let m0 := mkMeeting h0 [] log0 0 0 in
  let e1 := mkLogEntry (name (h0 !!! t)) host_id (PyStr.strip d1) in
  let eA := mkLogEntry (name (h0 !!! a)) ida (PyStr.strip dA) in
  let eB := mkLogEntry (name (h0 !!! b)) idb (PyStr.strip dB) in
  let e4 := mkLogEntry (name (h0 !!! t)) host_id (PyStr.strip d4) in
  exists h3 h4,
    run_rounds backend temp host_id [t; a; b] 6 1 m0 =
      mkMeeting h3 [ida; idb] (log0 ++ [e1; eA; eB]) 3 1 /\
    run_rounds backend temp host_id [t; a; b] 6 6 m0 =
      mkMeeting h4 [ida; idb; temp] (log0 ++ [e1; eA; eB; e4]) 4 2.
Proof.
  intros temp Hit Hia Hib Hab Hat Hbt H1 Hr1 H2 HrA H3 HrB H4 Hr4 m0 e1 eA eB e4.
  assert (Hlog : forall (h : list Agent) (r : nat), id (h !!! r) = id (h0 !!! r) ->
            logging_agent_id temp host_id (h !!! r) =
            if String.eqb (id (h0 !!! r)) temp then host_id else id (h0 !!! r)).
  { intros h r Hr. unfold logging_agent_id. by rewrite Hr. }
  (* turn 1: the host *)
  destruct (take_turn_answered backend temp host_id [t; a; b] t
              (mkMeeting h0 [] log0 0 1) d1 ms1 temp (name (h0 !!! t)) host_id false
              (H1 _ _) Hit eq_refl) as (h1 & [_ S1] & E1);
    [cbn [m_heap]; by rewrite (Hlog h0 t eq_refl), Hit, String.eqb_refl|done|].
  (* turn 2: the first child *)
  destruct (take_turn_answered backend temp host_id [t; a; b] a
              (mkMeeting h1 [] (log0 ++ [e1]) 1 1) dA msA ida (name (h0 !!! a)) ida true
              (H2 _ _)) as (h2 & [_ S2] & E2).
  { cbn [m_heap] in *. destruct (S1 a) as (-> & _). done. }
  { cbn [m_heap] in *. by destruct (S1 a) as (_ & -> & _). }
  { cbn [m_heap] in *. rewrite (Hlog _ a (proj1 (S1 a))), Hia. by case_eqb ida temp. }
  { done. }
  (* turn 3: the second child *)
  destruct (take_turn_answered backend temp host_id [t; a; b] b
              (mkMeeting h2 [ida] ((log0 ++ [e1]) ++ [eA]) 2 1) dB msB idb
              (name (h0 !!! b)) idb true (H3 _ _)) as (h3 & [_ S3] & E3).
  { cbn [m_heap] in *. destruct (S2 b) as (-> & _), (S1 b) as (-> & _). done. }
  { cbn [m_heap] in *. destruct (S2 b) as (_ & -> & _).
    by destruct (S1 b) as (_ & -> & _). }
  { cbn [m_heap] in *. rewrite (Hlog _ b), Hib; [by case_eqb idb temp|].
    destruct (S2 b) as (-> & _). by destruct (S1 b) as (-> & _). }
  { done. }
  (* turn 4: the host again, in round 2 *)
  destruct (take_turn_answered backend temp host_id [t; a; b] t
              (mkMeeting h3 [ida; idb] (((log0 ++ [e1]) ++ [eA]) ++ [eB]) 3 2) d4 ms4
              temp (name (h0 !!! t)) host_id true (H4 _ _)) as (h4 & [_ S4] & E4).
  { cbn [m_heap] in *.
    destruct (S3 t) as (-> & _), (S2 t) as (-> & _), (S1 t) as (-> & _). done. }
  { cbn [m_heap] in *. destruct (S3 t) as (_ & -> & _), (S2 t) as (_ & -> & _).
    by destruct (S1 t) as (_ & -> & _). }
  { cbn [m_heap] in *. rewrite (Hlog _ t), Hit; [by rewrite String.eqb_refl|].
    destruct (S3 t) as (-> & _), (S2 t) as (-> & _). by destruct (S1 t) as (-> & _). }
  { done. }
  assert (Hadd1 : set_add ida [] = [ida]) by done.
  assert (Hadd2 : set_add idb [ida] = [ida; idb]).
  { apply set_add_fresh. rewrite list_elem_of_singleton. congruence. }
  assert (Hadd3 : set_add temp [ida; idb] = [ida; idb; temp]).
  { apply (set_add_fresh temp [ida; idb]). rewrite !elem_of_cons, elem_of_nil.
    intros [?|[?|?]]; congruence. }
  simpl in E1, E2, E3, E4. rewrite ?Hadd1, ?Hadd2, ?Hadd3 in *.
  simpl in E1, E2, E3, E4.
  assert (Hfirst : run_round backend temp host_id [t; a; b] [t; a; b]
                     (mkMeeting h0 [] log0 0 1) =
                   mkMeeting h3 [ida; idb] (log0 ++ [e1; eA; eB]) 3 1).
  { rewrite run_round_cons. use_turn E1. simpl.
    use_turn E2. simpl. use_turn E3. simpl.
    by rewrite <- !app_assoc. }
  exists h3, h4. split.
  - rewrite run_rounds_S.
    cbn [all_done agents_done length Nat.eqb m_heap discussion_log turn rounds m0].
    rewrite Hfirst. cbn [turn]. by change (3 >=? 6) with false.
  - rewrite run_rounds_S.
    cbn [all_done agents_done length Nat.eqb m_heap discussion_log turn rounds m0].
    rewrite Hfirst. cbn [turn]. change (3 >=? 6) with false. cbv iota.
    rewrite run_rounds_S.
    cbn [all_done agents_done length Nat.eqb m_heap discussion_log turn rounds].
    rewrite <- !app_assoc in E4. simpl in E4.
    rewrite run_round_cons. use_turn E4. done.
Qed.

(** C3. A host with the two children [a] and [b] calls a meeting with
    [max_turns = 2]: the round budget is [min(2 * 3, 15) = 6]. When the
    host's first answer carries no signal, both children answer with
    READY_TO_MOVE_ON in round 1 and the host answers with
    READY_TO_END_MEETING on its second turn, the meeting takes exactly four
    turns, logged for host, [a], [b], host; the ready set has two members
    after round 1 and gets its third on the host's second turn; round 2 is
    the last round. *)
Theorem two_children_meeting_ends_after_four_turns
    (backend : Backend) (st : State) (host_id : string) (host a b : ref)
    (ida idb : string) (ctx_prompt : option string) (objective : string)
    (d1 dA dB d4 : string) (ms1 msA msB ms4 : list ModelMessage)
    (Hhost : dget host_id (agents (agency st)) = Some host)
    (Hchildren : children (heap st !!! host) = [(ida, a); (idb, b)])
    (Ha : (a < length (heap st))%nat) (Hb : (b < length (heap st))%nat)
    (Hida : id (heap st !!! a) = ida) (Hidb : id (heap st !!! b) = idb)
    (Hab : ida <> idb)
    (Hat : ida <> host_id +:+ "_temp") (Hbt : idb <> host_id +:+ "_temp")
    (H1 : forall x p, backend 1 x p = RunOk d1 ms1)
    (Hr1 : is_ready (PyStr.strip d1) = false)
    (H2 : forall x p, backend 2 x p = RunOk dA msA)
    (HrA : PyStr.contains "READY_TO_MOVE_ON" (PyStr.upper (PyStr.strip dA)) = true)
    (H3 : forall x p, backend 3 x p = RunOk dB msB)
    (HrB : PyStr.contains "READY_TO_MOVE_ON" (PyStr.upper (PyStr.strip dB)) = true)
    (H4 : forall x p, backend 4 x p = RunOk d4 ms4)
    (Hr4 : PyStr.contains "READY_TO_END_MEETING" (PyStr.upper (PyStr.strip d4)) = true) :
  let temp := host_id +:+ "_temp" in
  let prompt := default "Meeting called" (nonempty ctx_prompt) in
  let s := meeting_setup st host_id host [a; b] prompt objective in
  let m0 := mkMeeting (heap (s_state s)) [] (s_discussion_log s) 0 0 in
  let round1 := run_rounds backend temp host_id (s_participants s) 6 1 m0 in
  let m := meeting_rounds backend host_id 2 s in
  let host_name := name (heap st !!! host) +:+ " [Active Host]" in
  call_meeting backend st host_id ctx_prompt objective 2 = Ok (meeting_finish s m) /\
  Z.min (2 * Z.of_nat (length (s_participants s))) 15 = 6 /\
  turn round1 = 3 /\ agents_done round1 = [ida; idb] /\
  turn m = 4 /\ rounds m = 2%nat /\
  agents_done m = [ida; idb; temp] /\
  discussion_log m =
    s_discussion_log s ++
      [mkLogEntry host_name host_id (PyStr.strip d1);
       mkLogEntry (name (heap st !!! a)) ida (PyStr.strip dA);
       mkLogEntry (name (heap st !!! b)) idb (PyStr.strip dB);
       mkLogEntry host_name host_id (PyStr.strip d4)].
Proof.
  intros temp prompt s m0 round1 m host_name.
  split.
  { unfold call_meeting, agents_at. rewrite Hhost. simpl. by rewrite Hchildren. }
  destruct (meeting_setup_parts st host_id host [a; b] prompt objective)
    as (Htid & _ & _ & Hps & _ & _ & _ & _).
  fold s in Htid, Hps. fold temp in Htid.
  set (t := length (heap st)) in *.
  assert (Hfield : forall {B} (f : Agent -> B),
            (forall x y, f (set_message_history x y) = f y) ->
            (forall x y, f (set_accessible_tools x y) = f y) ->
            (forall r, (r < t)%nat -> f (heap (s_state s) !!! r) = f (heap st !!! r)) /\
            f (heap (s_state s) !!! t) =
            f (Agent_init host_name temp (provider (heap st !!! host))
                 (system_prompt (heap st !!! host)) (tools (heap st !!! host))
                 (ToolsDict []) [])).
  { intros B f Hf1 Hf2. subst s. split.
    - intros r Hr. rewrite (meeting_setup_field f Hf1 Hf2). simpl.
      by rewrite lookup_total_app_l.
    - rewrite (meeting_setup_field f Hf1 Hf2). simpl. unfold t.
      by rewrite lookup_total_snoc. }
  destruct (Hfield _ id (fun _ _ => eq_refl) (fun _ _ => eq_refl)) as [Hid Hit].
  destruct (Hfield _ name (fun _ _ => eq_refl) (fun _ _ => eq_refl)) as [Hname Hnt].
  change (id (heap (s_state s) !!! t) = temp) in Hit.
  change (name (heap (s_state s) !!! t) = host_name) in Hnt.
  clear Hfield. clearbody s.
  assert (HrA' : is_ready (PyStr.strip dA) = true)
    by (unfold is_ready; rewrite HrA; apply orb_true_r).
  assert (HrB' : is_ready (PyStr.strip dB) = true)
    by (unfold is_ready; rewrite HrB; apply orb_true_r).
  assert (Hr4' : is_ready (PyStr.strip d4) = true)
    by (unfold is_ready; by rewrite Hr4).
  destruct (four_turn_rounds backend host_id t a b (heap (s_state s))
              (s_discussion_log s) ida idb d1 dA dB d4 ms1 msA msB ms4)
    as (h3 & h4 & Eround1 & Eall); try done.
  { by rewrite Hid. }
  { by rewrite Hid. }
  fold temp in Eround1, Eall. rewrite Hnt, !Hname in Eround1, Eall by done.
  split; [by rewrite Hps|].
  assert (Hm : m = mkMeeting h4 [ida; idb; temp]
                 (s_discussion_log s ++
                    [mkLogEntry host_name host_id (PyStr.strip d1);
                     mkLogEntry (name (heap st !!! a)) ida (PyStr.strip dA);
                     mkLogEntry (name (heap st !!! b)) idb (PyStr.strip dB);
                     mkLogEntry host_name host_id (PyStr.strip d4)]) 4 2).
  { subst m. unfold meeting_rounds. rewrite Htid, Hps.
    change (Z.min (2 * Z.of_nat (length [t; a; b])) 15) with 6.
    change (Z.to_nat 6) with 6%nat. exact Eall. }
  subst round1. rewrite Hps. fold m0 in Eround1. rewrite Eround1, Hm. done.
Qed.

Lemma two_children_meeting_ends_after_four_turns_witness :
  turn (meeting_rounds scripted_backend "0" 2
          (meeting_setup agency_with_two_workers "0" 0%nat [1%nat; 2%nat]
             "Meeting called" "Agree on a plan.")) = 4.
Proof.
  pose proof (two_children_meeting_ends_after_four_turns scripted_backend
                agency_with_two_workers "0" 0%nat 1%nat 2%nat "1" "2" None
                "Agree on a plan."
                "Welcome. Here is the objective." "I agree. READY_TO_MOVE_ON"
                "Nothing to add, ready_to_move_on." "Thank you all. READY_TO_END_MEETING"
                [] [] [] []
                eq_refl eq_refl ltac:(vm_compute; lia) ltac:(vm_compute; lia)
                eq_refl eq_refl ltac:(discriminate) ltac:(discriminate)
                ltac:(discriminate)
                (fun _ _ => eq_refl) eq_refl (fun _ _ => eq_refl) eq_refl
                (fun _ _ => eq_refl) eq_refl (fun _ _ => eq_refl) eq_refl) as H.
  exact (proj1 (proj2 (proj2 (proj2 (proj2 H))))).
Defined.

(** ** The temporary host in [agency.agents] *)

Lemma elem_of_dset {V} (k k' : string) (v v' : V) (d : list (string * V)) :
  (k', v') ∈ dset k v d -> (k' = k /\ v' = v) \/ (k', v') ∈ d.
Proof.
  induction d as [|[k0 v0] d IH]; simpl.
  - rewrite list_elem_of_singleton. intros [= -> ->]. by left.
  - case_eqb k k0.
    + rewrite !elem_of_cons. intros [[= -> ->]|?]; [by left|right; by right].
    + rewrite !elem_of_cons. intros [?|Hin]; [right; by left|].
      destruct (IH Hin) as [?|?]; [by left|right; by right].
Qed.

Lemma mapR_Ok_elem {A B} (f : A -> PyResult B) (l : list A) (l' : list B) (y : B) :
  mapR f l = Ok l' -> y ∈ l' -> exists x, x ∈ l /\ f x = Ok y.
Proof.
  revert l'. induction l as [|x l IH]; intros l'; simpl.
  - intros [= <-] Hy. by apply elem_of_nil in Hy.
  - destruct (f x) as [y0|] eqn:Hx; simpl; [|done].
    destruct (mapR f l) as [ys|]; simpl; [|done].
    intros [= <-] Hy. apply elem_of_cons in Hy as [->|Hy].
    + exists x. split; [apply elem_of_cons; by left|done].
    + destruct (IH ys eq_refl Hy) as (x' & Hx' & Hfx').
      exists x'. split; [apply elem_of_cons; by right|done].
Qed.

Lemma elem_of_dvalues {V} (v : V) (d : list (string * V)) :
  v ∈ dvalues d -> exists k, (k, v) ∈ d.
Proof.
  unfold dvalues. rewrite list_elem_of_In, in_map_iff.
  intros ([k v'] & <- & Hin). exists k. by apply list_elem_of_In.
Qed.

Lemma meeting_rounds_same (backend : Backend) (host_id : string) (max_turns : Z)
    (s : MeetingSetup) :
  same_but_history (heap (s_state s)) (m_heap (meeting_rounds backend host_id max_turns s)).
Proof.
  unfold meeting_rounds.
  destruct (run_rounds_effect backend (s_temp_host_id s) host_id (s_participants s)
              (Z.min (max_turns * Z.of_nat (length (s_participants s))) 15)
              (Z.to_nat (Z.min (max_turns * Z.of_nat (length (s_participants s))) 15))
              (mkMeeting (heap (s_state s)) [] (s_discussion_log s) 0 0))
    as (added & _ & _ & _ & _ & Hs & _).
  exact Hs.
Qed.

(** Through a whole meeting an agent keeps its id. *)
Lemma meeting_keeps_ids (backend : Backend) (st : State) (host_id : string) (host : ref)
    (cs : list ref) (prompt objective : string) (max_turns : Z) (r : ref) :
  let s := meeting_setup st host_id host cs prompt objective in
  let m := meeting_rounds backend host_id max_turns s in
  (r < length (heap st))%nat ->
  id (heap (snd (meeting_finish s m)) !!! r) = id (heap st !!! r).
Proof.
  intros s m Hr. subst m. unfold meeting_finish. simpl.
  rewrite (append_to_all_field id) by done.
  rewrite (restore_tools_field id) by done.
  destruct (meeting_rounds_same backend host_id max_turns s) as [_ Hs].
  destruct (Hs r) as (-> & _). subst s.
  rewrite (meeting_setup_field id) by done. simpl.
  by rewrite lookup_total_app_l.
Qed.

(** C4, counterexample. While the meeting of [team_agency]'s main agent
    runs, [agency.agents] maps ["0_temp"] to the temporary host, and a
    snapshot taken then holds a record for it. *)
Lemma temporary_host_is_in_agents_during_meeting :
  let s := meeting_setup team_agency "0" 0%nat [1%nat; 2%nat]
             "Meeting called" "Agree on a plan." in
  dget "0_temp" (agents (agency team_agency)) = None /\
  dget "0_temp" (agents (agency (s_state s))) = Some 4%nat /\
  id (heap (s_state s) !!! 4%nat) = "0_temp" /\
  s_temp_host s = 4%nat /\
  exists snap,
    Agency_save_state (s_state s) = Ok snap /\
    map AgentState.id (AgencyState.agents snap) = ["0"; "1"; "2"; "3"; "0_temp"].
Proof.
  repeat split; try (vm_compute; reflexivity).
  eexists. split; vm_compute; reflexivity.
Qed.

(** C4, as amended. [call_meeting] registers the temporary host in
    [agency.agents] under [host_id + "_temp"] before the rounds, as a new
    object, and deletes that entry before it returns: after the meeting a
    lookup of the temporary id finds nothing, every other entry is as it was
    before, and, in an agency whose agents are stored under their own ids,
    no record of a snapshot taken afterwards carries the temporary id. *)
Theorem temporary_host_is_removed_when_meeting_ends
    (backend : Backend) (st : State) (host_id : string) (host : ref)
    (ctx_prompt : option string) (objective : string) (max_turns : Z)
    (Hhost : dget host_id (agents (agency st)) = Some host)
    (Hchildren : children (heap st !!! host) <> []) :
  let temp := host_id +:+ "_temp" in
  let cs := dvalues (children (heap st !!! host)) in
  let prompt := default "Meeting called" (nonempty ctx_prompt) in
  let s := meeting_setup st host_id host cs prompt objective in
  dget temp (agents (agency (s_state s))) = Some (length (heap st)) /\
  id (heap (s_state s) !!! length (heap st)) = temp /\
  exists summary st',
    call_meeting backend st host_id ctx_prompt objective max_turns = Ok (summary, st') /\
    dget temp (agents (agency st')) = None /\
    (forall k, k <> temp -> dget k (agents (agency st')) = dget k (agents (agency st))) /\
    (agents_keyed_by_id st ->
     forall snap, Agency_save_state st' = Ok snap ->
       Forall (fun rec => AgentState.id rec <> temp) (AgencyState.agents snap)).
Proof.
  intros temp cs prompt s.
  destruct (meeting_setup_parts st host_id host cs prompt objective)
    as (Htid & _ & _ & _ & Hag & _).
  fold s temp in Htid, Hag.
  split; [rewrite Hag; apply dget_dset_eq|].
  split.
  { subst s. rewrite (meeting_setup_field id) by done. simpl.
    by rewrite lookup_total_snoc. }
  set (m := meeting_rounds backend host_id max_turns s).
  exists (fst (meeting_finish s m)), (snd (meeting_finish s m)).
  assert (Hag' : agents (agency (snd (meeting_finish s m))) =
                 ddel temp (dset temp (length (heap st)) (agents (agency st)))).
  { unfold meeting_finish. simpl. rewrite Htid, Hag.
    unfold dmem. by rewrite dget_dset_eq. }
  split.
  { unfold call_meeting, agents_at. rewrite Hhost. simpl. fold cs.
    destruct cs as [|c cs'] eqn:Hcs.
    - exfalso. apply Hchildren. subst cs. unfold dvalues in Hcs.
      by destruct (children (heap st !!! host)).
    - by destruct (meeting_finish s m). }
  rewrite Hag'. split; [apply dget_ddel_eq|]. split.
  { intros k Hk. rewrite dget_ddel_ne, dget_dset_ne by done. done. }
  intros Hkeyed snap Hsave. unfold Agency_save_state in Hsave.
  destruct (mapR _ _) as [recs|] eqn:Hrecs; simpl in Hsave; [|done].
  injection Hsave as <-. cbn [AgencyState.agents].
  apply Forall_forall. intros rec Hrec.
  destruct (mapR_Ok_elem _ _ _ _ Hrecs Hrec) as (r' & Hr & Hsaved).
  apply elem_of_dvalues in Hr as [k Hkr]. rewrite Hag' in Hkr.
  apply elem_of_ddel in Hkr as [Hkr Hk].
  apply elem_of_dset in Hkr as [[? _]|Hkr]; [done|].
  destruct (Hkeyed k r' Hkr) as [Hlt Hid].
  pose proof (meeting_keeps_ids backend st host_id host cs prompt objective max_turns
                r' Hlt) as Hkeep.
  cbv zeta in Hkeep. fold s m in Hkeep.
  unfold Agent_save_state in Hsaved.
  destruct (accessible_tools _); [|done].
  injection Hsaved as <-. cbn [AgentState.id].
  rewrite Hid in Hkeep. intros Heq. apply Hk. rewrite <- Hkeep. exact Heq.
Qed.

Lemma temporary_host_is_removed_when_meeting_ends_witness :
  exists summary st',
    call_meeting scripted_backend team_agency "0" None "Agree on a plan." 2
      = Ok (summary, st') /\
    dget "0_temp" (agents (agency st')) = None.
Proof.
  destruct (temporary_host_is_removed_when_meeting_ends scripted_backend team_agency
              "0" 0%nat None "Agree on a plan." 2 eq_refl ltac:(discriminate))
    as (_ & _ & summary & st' & Hcall & Hgone & _).
  exists summary, st'. by split.
Defined.

(** ** The children's tools around a meeting *)

Lemma stash_fold_spec (cs : list ref) (orig0 : dict tools_value) (h0 : list Agent) :
  (forall r, r ∈ cs -> (r < length h0)%nat) ->
  NoDup (map (fun r => id (h0 !!! r)) cs) ->
  let res :=
    fold_left
      (fun '(orig, h) child =>
         (dset (id (h !!! child)) (accessible_tools (h !!! child)) orig,
          alter (set_accessible_tools (ToolsDict [])) child h))
      cs (orig0, h0) in
  (forall r, r ∈ cs ->
     dget (id (h0 !!! r)) (fst res) = Some (accessible_tools (h0 !!! r)) /\
     accessible_tools (snd res !!! r) = ToolsDict []) /\
  (forall k, k ∉ map (fun r => id (h0 !!! r)) cs -> dget k (fst res) = dget k orig0) /\
  (forall r, r ∉ cs -> snd res !!! r = h0 !!! r).
Proof.
  revert orig0 h0. induction cs as [|c cs IH]; intros orig0 h0 Hlt Hnd;
    cbv zeta; cbn [fold_left].
  - split; [|by split]. intros r Hr. by apply elem_of_nil in Hr.
  - set (h1 := alter (set_accessible_tools (ToolsDict [])) c h0).
    set (orig1 := dset (id (h0 !!! c)) (accessible_tools (h0 !!! c)) orig0).
    assert (Hids : forall r, id (h1 !!! r) = id (h0 !!! r))
      by (intros r; by apply lookup_total_alter_field).
    assert (Hmap : map (fun r => id (h1 !!! r)) cs = map (fun r => id (h0 !!! r)) cs)
      by (apply map_ext; intros r; apply Hids).
    apply NoDup_cons in Hnd as [Hc Hnd].
    assert (Hccs : c ∉ cs).
    { intros Hin. apply Hc. apply list_elem_of_In, in_map_iff.
      exists c. split; [done|]. by apply list_elem_of_In. }
    specialize (IH orig1 h1). cbv zeta in IH.
    destruct IH as (IHa & IHb & IHc).
    { intros r Hr. unfold h1. rewrite length_alter. apply Hlt, elem_of_cons. by right. }
    { by rewrite Hmap. }
    rewrite Hmap in IHb.
    split; [|split].
    + intros r Hr. apply elem_of_cons in Hr as [->|Hr].
      * rewrite IHb by done. rewrite (IHc c Hccs). unfold orig1, h1.
        rewrite dget_dset_eq, list_lookup_total_alter_eq; [done|].
        apply Hlt, elem_of_cons. by left.
      * destruct (IHa r Hr) as [Hg Ht]. rewrite Hids in Hg. rewrite Hg. split; [|done].
        unfold h1. rewrite list_lookup_total_alter_ne; [done|].
        intros ->. done.
    + intros k Hk. cbn [map] in Hk.
      rewrite not_elem_of_cons in Hk. destruct Hk as [Hk1 Hk2].
      rewrite IHb by done. unfold orig1. by rewrite dget_dset_ne.
    + intros r Hr. rewrite not_elem_of_cons in Hr. destruct Hr as [Hr1 Hr2].
      rewrite IHc by done. unfold h1. by rewrite list_lookup_total_alter_ne.
Qed.

Lemma restore_tools_other (cs : list ref) (orig : dict tools_value) (h : list Agent)
    (r : ref) :
  r ∉ cs -> restore_tools cs orig h !!! r = h !!! r.
Proof.
  unfold restore_tools. revert h.
  induction cs as [|c cs IH]; intros h Hr; simpl; [done|].
  rewrite not_elem_of_cons in Hr. destruct Hr as [Hr1 Hr2].
  rewrite IH by done. by rewrite list_lookup_total_alter_ne.
Qed.

Lemma restore_tools_spec (cs : list ref) (orig : dict tools_value) (h : list Agent)
    (r : ref) :
  r ∈ cs -> (r < length h)%nat ->
  accessible_tools (restore_tools cs orig h !!! r) =
  default (ToolsDict []) (dget (id (h !!! r)) orig).
Proof.
  revert h. induction cs as [|c cs IH]; intros h Hr Hlt.
  - by apply elem_of_nil in Hr.
  - change (restore_tools (c :: cs) orig h)
      with (restore_tools cs orig
              (alter (set_accessible_tools
                        (default (ToolsDict []) (dget (id (h !!! c)) orig))) c h)).
    destruct (decide (r ∈ cs)) as [Hin|Hnin].
    + rewrite IH by (by rewrite ?length_alter).
      by rewrite (lookup_total_alter_field id).
    + apply elem_of_cons in Hr as [->|?]; [|done].
      rewrite restore_tools_other by done.
      by rewrite list_lookup_total_alter_eq.
Qed.

(** After the set-up, a field that the history updates leave alone is what
    the loop over the children's tools left. *)
Lemma meeting_setup_field_stash {B} (field : Agent -> B) (st : State) (host_id : string)
    (host : ref) (cs : list ref) (prompt objective : string) (r : ref) :
  (forall x a, field (set_message_history x a) = field a) ->
  field (heap (s_state (meeting_setup st host_id host cs prompt objective)) !!! r) =
  field (snd (stash_tools cs (store_before_stash st host_id host prompt)) !!! r).
Proof.
  intros Hf. unfold meeting_setup, alloc, store_before_stash.
  destruct (stash_tools cs _) as [orig h3]. simpl.
  rewrite lookup_total_alter_field by (intros; apply Hf).
  rewrite !append_to_all_field by done.
  by rewrite lookup_total_alter_field by (intros; apply Hf).
Qed.

(** C6. For a host whose children are stored under their own ids,
    [call_meeting] empties every child's [accessible_tools] for the rounds
    and gives each child back exactly the value it had before the meeting. *)
Theorem children_tools_are_restored
    (backend : Backend) (st : State) (host_id : string) (host : ref)
    (ctx_prompt : option string) (objective : string) (max_turns : Z)
    (Hhost : dget host_id (agents (agency st)) = Some host)
    (Hchildren : children (heap st !!! host) <> [])
    (Hkeyed : children_keyed_by_id st host) :
  let cs := dvalues (children (heap st !!! host)) in
  let prompt := default "Meeting called" (nonempty ctx_prompt) in
  let s := meeting_setup st host_id host cs prompt objective in
  let m := meeting_rounds backend host_id max_turns s in
  (forall r, r ∈ cs -> accessible_tools (heap (s_state s) !!! r) = ToolsDict []) /\
  (forall r, r ∈ cs -> accessible_tools (m_heap m !!! r) = ToolsDict []) /\
  exists summary st',
    call_meeting backend st host_id ctx_prompt objective max_turns = Ok (summary, st') /\
    forall r, r ∈ cs ->
      accessible_tools (heap st' !!! r) = accessible_tools (heap st !!! r).
Proof.
  intros cs prompt s m. destruct Hkeyed as [Hnd Hkeyed].
  set (h2 := store_before_stash st host_id host prompt).
  assert (Hcs : forall r, r ∈ cs -> (r < length (heap st))%nat /\
                  exists k, (k, r) ∈ children (heap st !!! host) /\ id (heap st !!! r) = k).
  { intros r Hr. apply elem_of_dvalues in Hr as [k Hk].
    destruct (Hkeyed k r Hk). eauto. }
  assert (Hh2 : forall {B} (f : Agent -> B) r, (r < length (heap st))%nat ->
                  f (h2 !!! r) = f (heap st !!! r)).
  { intros B f r Hr. unfold h2, store_before_stash.
    rewrite !list_lookup_total_alter_ne by lia. by rewrite lookup_total_app_l. }
  assert (Hlen2 : length h2 = S (length (heap st))).
  { unfold h2, store_before_stash. rewrite !length_alter, length_app. simpl. lia. }
  assert (Hidmap : map (fun r => id (h2 !!! r)) cs = dkeys (children (heap st !!! host))).
  { unfold cs, dvalues, dkeys. rewrite map_map.
    apply map_ext_in. intros [k r] Hin. simpl.
    apply list_elem_of_In in Hin. destruct (Hkeyed k r Hin) as [Hlt Hid].
    by rewrite Hh2. }
  destruct (stash_fold_spec cs [] h2) as (Hstash & _ & _).
  { intros r Hr. destruct (Hcs r Hr). lia. }
  { by rewrite Hidmap. }
  fold (stash_tools cs h2) in Hstash.
  assert (Hcleared : forall r, r ∈ cs -> accessible_tools (heap (s_state s) !!! r) = ToolsDict []).
  { intros r Hr. subst s. rewrite (meeting_setup_field_stash accessible_tools) by done.
    by destruct (Hstash r Hr). }
  destruct (meeting_rounds_same backend host_id max_turns s) as [Hlenm Hsame].
  fold m in Hlenm, Hsame.
  split; [done|]. split.
  { intros r Hr. destruct (Hsame r) as (_ & _ & -> & _). by apply Hcleared. }
  exists (fst (meeting_finish s m)), (snd (meeting_finish s m)). split.
  { unfold call_meeting, agents_at. rewrite Hhost. simpl. fold cs.
    destruct cs as [|c cs'] eqn:Hcseq.
    - exfalso. apply Hchildren. subst cs. unfold dvalues in Hcseq.
      by destruct (children (heap st !!! host)).
    - by destruct (meeting_finish s m). }
  intros r Hr. destruct (Hcs r Hr) as [Hlt _].
  destruct (meeting_setup_parts st host_id host cs prompt objective)
    as (_ & _ & Hsc & _ & _ & Hlens & _ & Horig).
  fold s in Hsc, Hlens, Horig. fold (store_before_stash st host_id host prompt) in Horig.
  fold h2 in Horig.
  unfold meeting_finish. cbn [snd heap].
  rewrite (append_to_all_field accessible_tools) by done.
  rewrite Hsc, Horig, restore_tools_spec; [|done|lia].
  destruct (Hsame r) as (-> & _). subst s.
  rewrite (meeting_setup_field id) by done.
  cbn zeta. rewrite lookup_total_app_l by done.
  destruct (Hstash r Hr) as [Hg _]. rewrite (Hh2 _ id) in Hg by done.
  rewrite Hg. simpl. by apply Hh2.
Qed.

Lemma children_tools_are_restored_witness :
  exists summary st',
    call_meeting scripted_backend team_agency "0" None "Agree on a plan." 2
      = Ok (summary, st') /\
    accessible_tools (heap st' !!! 1%nat) =
      ToolsDict [("create_new_agent", true); ("call_meeting", true)].
Proof.
  destruct (children_tools_are_restored scripted_backend team_agency
              "0" 0%nat None "Agree on a plan." 2 eq_refl ltac:(discriminate))
    as (_ & _ & summary & st' & Hcall & Hsame).
  { assert (Hch : children (heap team_agency !!! 0%nat) = [("1", 1%nat); ("2", 2%nat)])
      by reflexivity.
    split; rewrite Hch.
    - apply NoDup_cons. split; [|apply NoDup_singleton].
      rewrite list_elem_of_singleton. discriminate.
    - intros k c Hin. rewrite !elem_of_cons, elem_of_nil in Hin.
      destruct Hin as [[= -> ->]|[[= -> ->]|[]]]; split;
        solve [reflexivity | vm_compute; lia]. }
  exists summary, st'. split; [done|].
  rewrite (Hsame 1%nat); [reflexivity|].
  change (1%nat ∈ [1%nat; 2%nat]). apply elem_of_cons. by left.
Defined.

(** ** Removing an agent *)

Lemma set_agents_same (g : Agency) : set_agents (agents g) g = g.
Proof. by destruct g. Qed.

(** The loop that orphans the children, when each child id is in
    [agency.agents]: it leaves [agency.agents] and all [children] alone and
    only ever sets [parent_id] to [None]. *)
Lemma orphan_children_spec (cs : list string) (st : State) :
  (forall c, c ∈ cs -> is_Some (dget c (agents (agency st)))) ->
  exists h',
    orphan_children cs st = (Ok tt, mkState h' (agency st)) /\
    length h' = length (heap st) /\
    (forall x, children (h' !!! x) = children (heap st !!! x)) /\
    (forall x, parent_id (heap st !!! x) = None -> parent_id (h' !!! x) = None) /\
    (forall c cr, c ∈ cs -> dget c (agents (agency st)) = Some cr ->
       (cr < length (heap st))%nat -> parent_id (h' !!! cr) = None).
Proof.
  revert st. induction cs as [|c cs IH]; intros [h g] Hin; simpl in *.
  - exists h. repeat split; try done. intros c cr Hc. by apply elem_of_nil in Hc.
  - destruct (Hin c) as [cr Hcr]; [apply elem_of_cons; by left|].
    rewrite Hcr, (dset_same _ _ _ Hcr), set_agents_same.
    destruct (IH (mkState (alter (set_parent_id None) cr h) g))
      as (h' & Hrun & Hlen & Hch & Hmono & Horph).
    { intros c' Hc'. apply Hin, elem_of_cons. by right. }
    simpl in *. exists h'. rewrite Hrun. split; [done|].
    split; [by rewrite Hlen, length_alter|].
    split; [intros x; rewrite Hch; by apply lookup_total_alter_field|].
    split.
    + intros x Hx. apply Hmono. rewrite list_lookup_total_alter.
      case_decide as Hd; [|done]. by destruct Hd as [-> _].
    + intros c' cr' Hc' Hg Hlt. apply elem_of_cons in Hc' as [->|Hc'].
      * assert (cr' = cr) as -> by congruence.
        apply Hmono. by rewrite list_lookup_total_alter_eq.
      * apply (Horph c' cr' Hc' Hg). by rewrite length_alter.
Qed.

(** What a removal can change: the fields other than [parent_id] and
    [children] stay as they are. *)
Section RemoveFacts.
Context {B : Type} (field : Agent -> B).
Hypothesis field_parent_id : forall p a, field (set_parent_id p a) = field a.

Lemma orphan_children_shape (cs : list string) (st : State) :
  let st' := snd (orphan_children cs st) in
  agency st' = agency st /\
  length (heap st') = length (heap st) /\
  forall x, field (heap st' !!! x) = field (heap st !!! x).
Proof.
  revert st. induction cs as [|c cs IH]; intros [h g]; simpl; [done|].
  destruct (dget c (agents g)) as [cr|] eqn:Hcr; simpl; [|done].
  rewrite (dset_same _ _ _ Hcr), set_agents_same.
  destruct (IH (mkState (alter (set_parent_id None) cr h) g)) as (Hag & Hlen & Hf).
  simpl in *. split; [done|]. split; [by rewrite Hlen, length_alter|].
  intros x. rewrite Hf. by apply lookup_total_alter_field.
Qed.

Hypothesis field_children : forall c a, field (set_children c a) = field a.

Lemma remove_from_parent_shape (st st1 : State) (agent_id : string) (r : ref) :
  remove_from_parent st agent_id r = Ok st1 ->
  agency st1 = agency st /\
  length (heap st1) = length (heap st) /\
  forall x, field (heap st1 !!! x) = field (heap st !!! x).
Proof.
  unfold remove_from_parent. destruct (parent_id (heap st !!! r)) as [p|].
  - unfold agents_at. destruct (dget p _) as [pr|]; simpl; [|done].
    destruct (dmem agent_id _); [|done].
    intros [= <-]. simpl. split; [done|]. split; [apply length_alter|].
    intros x. by apply lookup_total_alter_field.
  - by intros [= <-].
Qed.

Lemma remove_agent_helper_shape (st : State) (agent_id : string) :
  let st' := snd (remove_agent_helper st agent_id) in
  (agency st' = agency st \/
   agency st' = set_agents (ddel agent_id (agents (agency st))) (agency st)) /\
  length (heap st') = length (heap st) /\
  forall x, field (heap st' !!! x) = field (heap st !!! x).
Proof.
  unfold remove_agent_helper.
  destruct (dget agent_id _) as [r|]; [|by split; [left|]].
  destruct (remove_from_parent st agent_id r) as [st1|e] eqn:H1; [|by split; [left|]].
  destruct (remove_from_parent_shape _ _ _ _ H1) as (Hag1 & Hlen1 & Hf1).
  pose proof (orphan_children_shape (dkeys (children (heap st1 !!! r))) st1) as Ho.
  cbv zeta in Ho. destruct Ho as (Hag2 & Hlen2 & Hf2).
  destruct (orphan_children _ st1) as [[[]|e] st2]; simpl in *.
  - split; [right; by rewrite Hag2, Hag1|]. split; [congruence|].
    intros x. by rewrite Hf2, Hf1.
  - split; [left; congruence|]. split; [congruence|].
    intros x. by rewrite Hf2, Hf1.
Qed.

End RemoveFacts.

(** The loop sets [parent_id] only on the agents registered under the ids
    it walks through. *)
Lemma orphan_children_parent_id (cs : list string) (st : State) (x : ref) :
  (forall c, c ∈ cs -> dget c (agents (agency st)) <> Some x) ->
  parent_id (heap (snd (orphan_children cs st)) !!! x) = parent_id (heap st !!! x).
Proof.
  revert st. induction cs as [|c cs IH]; intros [h g] Hx; simpl in *; [done|].
  destruct (dget c (agents g)) as [cr|] eqn:Hcr; simpl; [|done].
  rewrite (dset_same _ _ _ Hcr), set_agents_same.
  rewrite IH; simpl.
  - rewrite list_lookup_total_alter. case_decide as Hd; [|done].
    destruct Hd as [-> _]. exfalso. apply (Hx c); [apply elem_of_cons; by left|done].
  - intros c' Hc'. apply Hx, elem_of_cons. by right.
Qed.

(** What [remove_agent_helper] does to the links: on an unknown id nothing;
    on an agent whose links are consistent every other agent that was its
    child has [parent_id = None] afterwards and is still in
    [agency.agents], the parent's [children] no longer hold its id, its own
    entry is gone, every other entry is as before, and
    [len(agency.agents)] has gone down by exactly one. *)
Lemma remove_agent_helper_links (st : State) (agent_id : string) :
  (dget agent_id (agents (agency st)) = None ->
   remove_agent_helper st agent_id =
     (Ok ("Agent with ID " +:+ agent_id +:+ " does not exist."), st)) /\
  (forall r,
     dget agent_id (agents (agency st)) = Some r ->
     links_consistent st agent_id r ->
     exists st',
       remove_agent_helper st agent_id = (Ok ("Removed agent with ID: " +:+ agent_id), st') /\
       (forall c, c ∈ dkeys (children (heap st !!! r)) -> c <> agent_id ->
          exists cr, dget c (agents (agency st)) = Some cr /\
                     parent_id (heap st' !!! cr) = None /\
                     dget c (agents (agency st')) = Some cr) /\
       (forall p, parent_id (heap st !!! r) = Some p ->
          exists pr, dget p (agents (agency st)) = Some pr /\
                     dget agent_id (children (heap st' !!! pr)) = None) /\
       dget agent_id (agents (agency st')) = None /\
       (forall k, k <> agent_id ->
          dget k (agents (agency st')) = dget k (agents (agency st))) /\
       dlen (agents (agency st')) = dlen (agents (agency st)) - 1).
Proof.
  split.
  { intros Hg. unfold remove_agent_helper. by rewrite Hg. }
  intros r Hg (Hnd & Hvalid & Hparent & Hkids).
  unfold remove_agent_helper. rewrite Hg.
  (* the block that takes the agent out of its parent's children *)
  assert (Hstep1 : exists h1,
            remove_from_parent st agent_id r = Ok (mkState h1 (agency st)) /\
            length h1 = length (heap st) /\
            (forall x, parent_id (h1 !!! x) = parent_id (heap st !!! x)) /\
            (forall c, c ∈ dkeys (children (heap st !!! r)) -> c <> agent_id ->
               c ∈ dkeys (children (h1 !!! r))) /\
            (forall c, c ∈ dkeys (children (h1 !!! r)) ->
               c ∈ dkeys (children (heap st !!! r))) /\
            (forall p, parent_id (heap st !!! r) = Some p ->
               exists pr, dget p (agents (agency st)) = Some pr /\
                          dget agent_id (children (h1 !!! pr)) = None)).
  { unfold remove_from_parent.
    destruct (parent_id (heap st !!! r)) as [p|] eqn:Hp.
    - destruct (Hparent p eq_refl) as (pr & Hpr & Hin).
      unfold agents_at. rewrite Hpr. simpl.
      unfold dmem. destruct Hin as [x Hx]. rewrite Hx.
      eexists. split; [reflexivity|].
      split; [apply length_alter|].
      split; [intros x0; by apply lookup_total_alter_field|].
      assert (Hch : forall x0, children
                 (alter (fun pa => set_children (ddel agent_id (children pa)) pa) pr
                    (heap st) !!! x0) =
               if decide (pr = x0) then ddel agent_id (children (heap st !!! x0))
               else children (heap st !!! x0)).
      { intros x0. rewrite list_lookup_total_alter.
        destruct (decide (pr = x0)) as [->|Hne].
        - rewrite decide_True; [done|]. split; [done|]. by apply (Hvalid p).
        - rewrite decide_False; [done|]. by intros [? _]. }
      split; [|split].
      + intros c Hc Hne. rewrite Hch. case_decide; [|done].
        apply dget_Some_keys. rewrite dget_ddel_ne by done. by apply dget_Some_keys.
      + intros c Hc. rewrite Hch in Hc. case_decide; [|done].
        apply dget_Some_keys in Hc as [v Hv].
        destruct (decide (agent_id = c)) as [->|Hne].
        * by rewrite dget_ddel_eq in Hv.
        * rewrite dget_ddel_ne in Hv by done. apply dget_Some_keys. eauto.
      + intros p' [= <-]. exists pr. split; [done|].
        rewrite Hch. case_decide; [|done]. apply dget_ddel_eq.
    - exists (heap st). destruct st as [h g]. simpl.
      repeat split; try done. }
  destruct Hstep1 as (h1 & -> & Hlen1 & Hpar1 & Hkeep1 & Hsub1 & Hgone1).
  (* the loop over the children *)
  destruct (orphan_children_spec (dkeys (children (h1 !!! r))) (mkState h1 (agency st)))
    as (h2 & Hrun & Hlen2 & Hch2 & Hmono2 & Horph2).
  { intros c Hc. simpl. apply Hkids. by apply Hsub1. }
  simpl in *. rewrite Hrun.
  eexists. split; [reflexivity|]. simpl.
  split; [|split; [|split; [|split]]].
  - intros c Hc Hne. destruct (Hkids c Hc) as [cr Hcr].
    exists cr. split; [done|]. split.
    + apply (Horph2 c cr); [by apply Hkeep1|done|].
      rewrite Hlen1. by apply (Hvalid c).
    + rewrite dget_ddel_ne by done. done.
  - intros p Hp. destruct (Hgone1 p Hp) as (pr & Hpr & Hnone).
    exists pr. split; [done|]. by rewrite Hch2.
  - destruct (agency st); simpl. apply dget_ddel_eq.
  - intros k Hk. destruct (agency st); simpl. by rewrite dget_ddel_ne.
  - destruct (agency st) as [ag ? ? ? ? ? ? ? ? ?]; simpl in *. unfold dlen.
    pose proof (length_ddel agent_id ag Hnd (ex_intro _ r Hg)). lia.
Qed.

(** A removal that succeeds went through the block under
    [# remove from parent] and the loop over the children. *)
Lemma remove_agent_helper_inv (st st' : State) (agent_id msg : string) (r : ref) :
  dget agent_id (agents (agency st)) = Some r ->
  remove_agent_helper st agent_id = (Ok msg, st') ->
  exists st1,
    remove_from_parent st agent_id r = Ok st1 /\
    heap st' = heap (snd (orphan_children (dkeys (children (heap st1 !!! r))) st1)).
Proof.
  intros Hg. unfold remove_agent_helper. rewrite Hg.
  destruct (remove_from_parent st agent_id r) as [st1|e]; [|done].
  exists st1. split; [done|].
  destruct (orphan_children _ st1) as [[u|e] st2]; [|done].
  by injection H as _ <-.
Qed.

(** The block under [# remove from parent] changes the [children] of the
    parent only, by deleting the id. *)
Lemma remove_from_parent_children (st st1 : State) (agent_id : string) (r x : ref) :
  (forall k y, dget k (agents (agency st)) = Some y -> (y < length (heap st))%nat) ->
  remove_from_parent st agent_id r = Ok st1 ->
  children (heap st1 !!! x) =
    if decide (parent_of st r = Some x)
    then ddel agent_id (children (heap st !!! x))
    else children (heap st !!! x).
Proof.
  intros Hvalid. unfold remove_from_parent, parent_of.
  destruct (parent_id (heap st !!! r)) as [p|].
  - unfold agents_at. destruct (dget p _) as [pr|] eqn:Hpr; simpl; [|done].
    destruct (dmem agent_id _); [|done].
    intros [= <-]. simpl. rewrite list_lookup_total_alter.
    destruct (decide (pr = x)) as [->|Hne].
    + rewrite !decide_True; [done|done|]. split; [done|]. by apply (Hvalid p).
    + rewrite !decide_False; [done|congruence|]. by intros [? _].
  - intros [= <-]. by rewrite decide_False.
Qed.

(** X2. [remove_agent_helper] on an id that is not in [agency.agents] reports
    that the agent does not exist and changes nothing. On an agent whose
    links are consistent it succeeds: every other agent that was its child
    has [parent_id = None] afterwards and is still in [agency.agents]; if
    it had a [parent_id], the parent's [children] no longer hold its id;
    its own entry is gone, every other entry is as before, and
    [len(agency.agents)] has gone down by exactly one. Nothing else
    changes: no object is allocated or freed, every object keeps all its
    fields other than [parent_id] and [children], only the parent's
    [children] change (by the one deletion), and only the agents
    registered under the removed agent's child ids can lose their
    [parent_id]. *)
Theorem remove_agent_helper_spec (st : State) (agent_id : string) :
  (dget agent_id (agents (agency st)) = None ->
   remove_agent_helper st agent_id =
     (Ok ("Agent with ID " +:+ agent_id +:+ " does not exist."), st)) /\
  (forall r,
     dget agent_id (agents (agency st)) = Some r ->
     links_consistent st agent_id r ->
     exists st',
       remove_agent_helper st agent_id = (Ok ("Removed agent with ID: " +:+ agent_id), st') /\
       (forall c, c ∈ dkeys (children (heap st !!! r)) -> c <> agent_id ->
          exists cr, dget c (agents (agency st)) = Some cr /\
                     parent_id (heap st' !!! cr) = None /\
                     dget c (agents (agency st')) = Some cr) /\
       (forall p, parent_id (heap st !!! r) = Some p ->
          exists pr, dget p (agents (agency st)) = Some pr /\
                     dget agent_id (children (heap st' !!! pr)) = None) /\
       dget agent_id (agents (agency st')) = None /\
       (forall k, k <> agent_id ->
          dget k (agents (agency st')) = dget k (agents (agency st))) /\
       dlen (agents (agency st')) = dlen (agents (agency st)) - 1 /\
       length (heap st') = length (heap st) /\
       (forall x, same_but_links (heap st !!! x) (heap st' !!! x)) /\
       (forall x,
          children (heap st' !!! x) =
            if decide (parent_of st r = Some x)
            then ddel agent_id (children (heap st !!! x))
            else children (heap st !!! x)) /\
       (forall x,
          (forall c, c ∈ dkeys (children (heap st !!! r)) ->
             dget c (agents (agency st)) <> Some x) ->
          parent_id (heap st' !!! x) = parent_id (heap st !!! x))).
Proof.
  split; [apply remove_agent_helper_links|].
  intros r Hg Hlinks.
  destruct (proj2 (remove_agent_helper_links st agent_id) r Hg Hlinks)
    as (st' & Hrun & Hkids & Hpar & Hgone & Hothers & Hlen).
  exists st'. do 6 (split; [done|]).
  assert (Hshape : forall {B} (field : Agent -> B),
            (forall p a, field (set_parent_id p a) = field a) ->
            (forall c a, field (set_children c a) = field a) ->
            length (heap st') = length (heap st) /\
            forall x, field (heap st' !!! x) = field (heap st !!! x)).
  { intros B field Hp Hc.
    pose proof (remove_agent_helper_shape field Hp Hc st agent_id) as Hs.
    cbv zeta in Hs. rewrite Hrun in Hs. simpl in Hs. apply Hs. }
  split; [by apply (Hshape _ name)|].
  split.
  { intros x. unfold same_but_links.
    repeat split; by apply Hshape. }
  destruct (remove_agent_helper_inv st st' agent_id _ r Hg Hrun) as (st1 & Hrem & Hheap).
  destruct Hlinks as (Hnd & Hvalid & Hparent & Hchildren).
  assert (Hch1 : forall x, children (heap st1 !!! x) =
                   if decide (parent_of st r = Some x)
                   then ddel agent_id (children (heap st !!! x))
                   else children (heap st !!! x)).
  { intros x. by apply remove_from_parent_children. }
  destruct (remove_from_parent_shape parent_id (fun _ _ => eq_refl) st st1 agent_id r Hrem)
    as (Hag1 & _ & Hpid1).
  split.
  - intros x. rewrite Hheap, <- Hch1.
    apply (orphan_children_shape children). done.
  - intros x Hx. rewrite Hheap, <- Hpid1.
    apply orphan_children_parent_id.
    intros c Hc. rewrite Hag1. apply Hx.
    rewrite Hch1 in Hc. case_decide; [|done].
    apply dget_Some_keys in Hc as [v Hv].
    destruct (decide (agent_id = c)) as [->|Hne].
    + by rewrite dget_ddel_eq in Hv.
    + rewrite dget_ddel_ne in Hv by done. apply dget_Some_keys. eauto.
Qed.

Lemma remove_agent_helper_spec_witness :
  exists st',
    remove_agent_helper team_agency "1" = (Ok "Removed agent with ID: 1", st') /\
    parent_id (heap st' !!! 3%nat) = None /\
    dget "3" (agents (agency st')) = Some 3%nat /\
    dget "1" (children (heap st' !!! 0%nat)) = None /\
    dlen (agents (agency st')) = 3.
Proof.
  destruct (proj2 (remove_agent_helper_spec team_agency "1") 1%nat eq_refl)
    as (st' & Hrun & Hkids & Hpar & _ & _ & Hlen & _).
  { assert (Hag : agents (agency team_agency) =
                  [("0", 0%nat); ("1", 1%nat); ("2", 2%nat); ("3", 3%nat)]) by reflexivity.
    split; [|split; [|split]].
    - rewrite Hag. unfold dkeys. simpl. nodup_strings.
    - intros k x Hk. apply dget_Some_elem in Hk. rewrite Hag in Hk.
      rewrite !elem_of_cons, elem_of_nil in Hk.
      destruct Hk as [[= -> ->]|[[= -> ->]|[[= -> ->]|[[= -> ->]|[]]]]];
        vm_compute; lia.
    - intros p Hp. vm_compute in Hp. injection Hp as <-.
      exists 0%nat. split; [reflexivity|]. by exists 1%nat.
    - intros c Hc. change (c ∈ ["3"]) in Hc. apply list_elem_of_singleton in Hc as ->.
      by exists 3%nat. }
  exists st'. split; [exact Hrun|].
  destruct (Hkids "3") as (cr & Hcr & Hnone & Hstill);
    [change ("3" ∈ ["3"]); by apply list_elem_of_singleton|discriminate|].
  injection Hcr as <-.
  destruct (Hpar "0" eq_refl) as (pr & Hpr & Hgone). injection Hpr as <-.
  split; [exact Hnone|]. split; [exact Hstill|]. split; [exact Hgone|exact Hlen].
Defined.

(** C8 (the code departs from the claim). In a new agency the main agent
    ["0"] creates the agent ["1"] with [create_new_agent_helper], which
    lists ["1"] among the children of ["0"] but leaves its [parent_id]
    unset. [remove_agent_helper] on ["1"] then deletes the entry of ["1"]
    and leaves ["1"] among the children of ["0"]; after that
    [remove_agent_helper] on ["0"], which is still registered, raises
    [KeyError] in the loop over its children and deletes nothing. When
    ["1"] is created by the endpoint [create_agent], which sets
    [parent_id], the same two removals do what the claim says. *)
Theorem remove_agent_helper_after_tool_create :
  let st1 := agency_with_worker in
  let st2 := snd (remove_agent_helper st1 "1") in
  let sv1 := snd (server_create_agent fresh_agency "worker" "You do the work." None) in
  let sv2 := snd (remove_agent_helper sv1 "1") in
  let sv3 := snd (remove_agent_helper sv2 "0") in
  (dget "1" (agents (agency st1)) = Some 1%nat /\
   dget "1" (children (heap st1 !!! 0%nat)) = Some 1%nat /\
   parent_id (heap st1 !!! 1%nat) = None) /\
  (remove_agent_helper st1 "1" = (Ok "Removed agent with ID: 1", st2) /\
   dget "1" (agents (agency st2)) = None /\
   dget "1" (children (heap st2 !!! 0%nat)) = Some 1%nat) /\
  (dget "0" (agents (agency st2)) = Some 0%nat /\
   remove_agent_helper st2 "0" = (Raise (KeyError "1"), st2) /\
   dlen (agents (agency st2)) = 1) /\
  (dget "1" (children (heap sv1 !!! 0%nat)) = Some 1%nat /\
   parent_id (heap sv1 !!! 1%nat) = Some "0" /\
   remove_agent_helper sv1 "1" = (Ok "Removed agent with ID: 1", sv2) /\
   dget "1" (children (heap sv2 !!! 0%nat)) = None /\
   remove_agent_helper sv2 "0" = (Ok "Removed agent with ID: 0", sv3) /\
   dlen (agents (agency sv3)) = 0).
Proof.
  cbv zeta.
  split; [split; [|split]; vm_compute; reflexivity|].
  split; [split; [|split]; vm_compute; reflexivity|].
  split; [split; [|split]; vm_compute; reflexivity|].
  split; [vm_compute; reflexivity|].
  split; [vm_compute; reflexivity|].
  split; [vm_compute; reflexivity|].
  split; [vm_compute; reflexivity|].
  split; vm_compute; reflexivity.
Qed.

(** ** A meeting without participants *)

(** X1. A host without children gets the refusal text, and nothing changes. *)
Lemma call_meeting_without_children (backend : Backend) (st : State) (host_id : string)
    (host : ref) (ctx_prompt : option string) (objective : string) (max_turns : Z) :
  dget host_id (agents (agency st)) = Some host ->
  children (heap st !!! host) = [] ->
  call_meeting backend st host_id ctx_prompt objective max_turns =
    Ok ("No agents available to meet.", st).
Proof.
  intros Hhost Hch. unfold call_meeting, agents_at. rewrite Hhost. simpl.
  by rewrite Hch.
Qed.

Lemma call_meeting_without_children_witness :
  call_meeting failing_backend fresh_agency "0" None "Agree on a plan." 2 =
    Ok ("No agents available to meet.", fresh_agency).
Proof.
  exact (call_meeting_without_children failing_backend fresh_agency "0" 0%nat None
           "Agree on a plan." 2 eq_refl eq_refl).
Defined.

(** ** Loading a saved agency *)

Lemma alter_middle {A} (f : A -> A) (l1 l2 : list A) (x : A) :
  alter f (length l1) (l1 ++ x :: l2) = l1 ++ f x :: l2.
Proof.
  replace (length l1) with (length l1 + 0)%nat at 1 by lia.
  by rewrite alter_app_r.
Qed.

Lemma dget_app_absent {V} (k : string) (d1 d2 : list (string * V)) :
  dget k d1 = None -> dget k (d1 ++ d2) = dget k d2.
Proof.
  induction d1 as [|[k0 v0] d1 IH]; simpl; [done|].
  by case_eqb k k0.
Qed.

(** In the dictionary of the ids numbered from [start], an id maps to its
    position. *)
Lemma dget_combine_seq (ids1 ids2 : list string) (k : string) (start : nat) :
  NoDup (ids1 ++ k :: ids2) ->
  dget k (combine (ids1 ++ k :: ids2) (seq start (length (ids1 ++ k :: ids2)))) =
  Some (start + length ids1)%nat.
Proof.
  revert start. induction ids1 as [|k1 ids1 IH]; intros start Hnd; simpl.
  - rewrite String.eqb_refl. f_equal. lia.
  - apply NoDup_cons in Hnd as [Hk1 Hnd].
    case_eqb k k1.
    + exfalso. apply Hk1. apply elem_of_app. right. apply elem_of_cons. by left.
    + rewrite IH by done. f_equal. lia.
Qed.

Lemma dkeys_combine_seq (ids : list string) (start : nat) :
  dkeys (combine ids (seq start (length ids))) = ids.
Proof.
  revert start. induction ids as [|k ids IH]; intros start; simpl; [done|].
  f_equal. apply IH.
Qed.

(** Step 1 on records whose ids are new and distinct: each record is
    allocated in turn and registered under its id. *)
Lemma load_fold_spec (agency_id : string) (tools : list string)
    (recs : list AgentState.t) (ld0 : Loading) :
  NoDup (map AgentState.id recs) ->
  (forall rec, rec ∈ recs -> dget (AgentState.id rec) (l_agents ld0) = None) ->
  let ld := fold_left (load_one agency_id tools) recs ld0 in
  l_heap ld = l_heap ld0 ++ map (fun rec => Agent_load_state rec tools) recs /\
  l_agents ld =
    l_agents ld0 ++
      combine (map AgentState.id recs) (seq (length (l_heap ld0)) (length recs)) /\
  (l_main ld0 = dget agency_id (l_agents ld0) -> l_main ld = dget agency_id (l_agents ld)).
Proof.
  revert ld0. induction recs as [|rec recs IH]; intros ld0 Hnd Hnew; cbv zeta.
  - simpl. by rewrite !app_nil_r.
  - cbn [fold_left map length seq combine]. apply NoDup_cons in Hnd as [Hrec Hnd].
    set (ld1 := load_one agency_id tools ld0 rec).
    assert (Hh1 : l_heap ld1 = l_heap ld0 ++ [Agent_load_state rec tools]).
    { unfold ld1, load_one, alloc. by destruct (String.eqb _ agency_id). }
    assert (Ha1 : l_agents ld1 =
                  l_agents ld0 ++ [(AgentState.id rec, length (l_heap ld0))]).
    { unfold ld1, load_one, alloc.
      rewrite dset_absent by (apply Hnew, elem_of_cons; by left).
      by destruct (String.eqb _ agency_id). }
    assert (Hm1 : l_main ld0 = dget agency_id (l_agents ld0) ->
                  l_main ld1 = dget agency_id (l_agents ld1)).
    { intros Hm. unfold ld1, load_one, alloc.
      case_eqb (AgentState.id rec) agency_id; simpl.
      - by rewrite dget_dset_eq.
      - by rewrite dget_dset_ne. }
    destruct (IH ld1 Hnd) as (Hh & Ha & Hm).
    { intros rec' Hrec'. rewrite Ha1.
      rewrite dget_app_absent by (apply Hnew, elem_of_cons; by right).
      simpl.
      destruct (String.eqb_spec (AgentState.id rec') (AgentState.id rec)) as [Heq|Hne];
        [|done].
      exfalso. apply Hrec. rewrite <- Heq. apply list_elem_of_In, in_map.
      by apply list_elem_of_In. }
    split; [|split].
    + by rewrite Hh, Hh1, <- app_assoc.
    + rewrite Ha, Ha1, Hh1, <- app_assoc, length_app. simpl.
      by replace (length (l_heap ld0) + 1)%nat with (S (length (l_heap ld0))) by lia.
    + intros H0. apply Hm, Hm1, H0.
Qed.

(** The printed lines do not influence the links, and are appended. *)
Lemma link_children_out (ag : dict ref) (aid : string) (cs : list string)
    (ch : dict ref) (out : list string) :
  link_children ag aid cs ch out =
  (fst (link_children ag aid cs ch []), out ++ snd (link_children ag aid cs ch [])).
Proof.
  revert ch out. induction cs as [|c cs IH]; intros ch out; simpl.
  - by rewrite app_nil_r.
  - destruct (dget c ag) as [cr|]; [apply IH|].
    rewrite IH, (IH ch [child_warning c aid]). simpl. by rewrite <- app_assoc.
Qed.

(** Step 2 on the store that step 1 built: record by record, the agent gets
    its links. *)
Lemma rebuild_spec (tools : list string) (recs : list AgentState.t) :
  NoDup (map AgentState.id recs) ->
  let ag := combine (map AgentState.id recs) (seq 0 (length recs)) in
  forall (done todo : list AgentState.t) (out : list string),
    recs = done ++ todo ->
    rebuild ag todo
      (map (restored_agent ag tools) done ++
       map (fun rec => Agent_load_state rec tools) todo) out =
    Ok (map (restored_agent ag tools) recs, out ++ restore_warnings ag todo).
Proof.
  intros Hnd ag done todo. revert done.
  induction todo as [|rec todo IH]; intros done out Hrecs.
  - simpl. rewrite !app_nil_r. rewrite app_nil_r in Hrecs. by rewrite <- Hrecs.
  - cbn [rebuild map].
    assert (Hg : dget (AgentState.id rec) ag = Some (length done)).
    { unfold ag. rewrite <- (length_map AgentState.id recs).
      rewrite Hrecs in Hnd |- *. rewrite map_app in Hnd |- *. cbn [map] in Hnd |- *.
      rewrite dget_combine_seq by done. by rewrite length_map. }
    rewrite Hg.
    set (l1 := map (restored_agent ag tools) done).
    assert (Hl1 : length l1 = length done) by (unfold l1; by rewrite length_map).
    rewrite <- Hl1. rewrite alter_middle.
    rewrite (list_lookup_total_middle l1 _ _ (length l1)) by done.
    assert (Hsame : set_parent_id (AgentState.parent_id rec) (Agent_load_state rec tools)
                    = Agent_load_state rec tools) by reflexivity.
    rewrite Hsame.
    change (id (Agent_load_state rec tools)) with (AgentState.id rec).
    change (children (Agent_load_state rec tools)) with (@nil (string * nat)).
    rewrite link_children_out.
    rewrite alter_middle.
    change (set_children
              (fst (link_children ag (AgentState.id rec) (AgentState.child_ids rec) [] []))
              (Agent_load_state rec tools))
      with (restored_agent ag tools rec).
    assert (Hrecs' : recs = (done ++ [rec]) ++ todo) by (by rewrite <- app_assoc).
    pose proof (IH (done ++ [rec])
                  (out ++ snd (link_children ag (AgentState.id rec)
                                 (AgentState.child_ids rec) [] [])) Hrecs') as IH'.
    rewrite map_app, <- app_assoc in IH'. cbn [map app] in IH'. fold l1 in IH'.
    rewrite IH'.
    unfold restore_warnings. cbn [map concat]. by rewrite <- app_assoc.
Qed.

(** [Agency(state=...)] on a snapshot with distinct ids: it succeeds
    exactly when [agency_id] names a record, and then the store holds one
    restored agent per record, in order, registered under its id. *)
Lemma restore_spec (state : AgencyState.t) (tools : list string)
    (ws : option string) (uuid_ws : string) :
  let recs := AgencyState.agents state in
  let ag := combine (map AgentState.id recs) (seq 0 (length recs)) in
  NoDup (map AgentState.id recs) ->
  match dget (AgencyState.agency_id state) ag with
  | None =>
      Agency_init_from_state state tools ws uuid_ws =
      Raise (ValueError "Main agent ID not found in loaded state")
  | Some m =>
      exists st,
        Agency_init_from_state state tools ws uuid_ws = Ok (st, restore_warnings ag recs) /\
        heap st = map (restored_agent ag tools) recs /\
        agents (agency st) = ag /\
        main_agent (agency st) = m /\
        current_id (agency st) = AgencyState.current_id state /\
        max_depth (agency st) = AgencyState.max_depth state /\
        max_breadth (agency st) = AgencyState.max_breadth state /\
        max_agents (agency st) = AgencyState.max_agents state
  end.
Proof.
  intros recs ag Hnd. unfold Agency_init_from_state. fold recs.
  destruct (load_fold_spec (AgencyState.agency_id state) tools recs
              (mkLoading [] [] None EmptyString) Hnd) as (Hh & Ha & Hm); [done|].
  simpl in Hh, Ha, Hm. fold ag in Ha. specialize (Hm eq_refl).
  rewrite Hm, Ha.
  destruct (dget (AgencyState.agency_id state) ag) as [m|]; [|done].
  rewrite Hh.
  pose proof (rebuild_spec tools recs Hnd [] recs [] eq_refl) as Hre.
  cbv zeta in Hre. fold ag in Hre. simpl in Hre. rewrite Hre. simpl.
  eexists. split; [reflexivity|]. by repeat split.
Qed.

Section LinkChildren.
Variable ag : list (string * nat).
Variable aid : string.

Lemma link_children_present (cs : list string) (ch : list (string * nat))
    (c : string) (cr : nat) :
  c ∈ cs -> dget c ag = Some cr ->
  dget c (fst (link_children ag aid cs ch [])) = Some cr.
Proof.
  revert ch. induction cs as [|c0 cs IH]; intros ch Hin Hg.
  - by apply elem_of_nil in Hin.
  - simpl. destruct (decide (c ∈ cs)) as [Hcs|Hcs].
    + destruct (dget c0 ag); [by apply IH|].
      rewrite link_children_out. by apply IH.
    + apply elem_of_cons in Hin as [<-|?]; [|done].
      rewrite Hg. clear IH.
      assert (Hkeep : forall cs' ch', c ∉ cs' ->
                dget c (fst (link_children ag aid cs' ch' [])) = dget c ch').
      { induction cs' as [|c1 cs' IH']; intros ch' Hn; [done|].
        rewrite not_elem_of_cons in Hn. destruct Hn as [Hn1 Hn2]. simpl.
        destruct (dget c1 ag).
        - rewrite IH' by done. by rewrite dget_dset_ne.
        - rewrite link_children_out. by apply IH'. }
      rewrite Hkeep by done. apply dget_dset_eq.
Qed.

Lemma link_children_absent (cs : list string) (ch : list (string * nat)) (c : string) :
  c ∉ cs \/ dget c ag = None ->
  dget c (fst (link_children ag aid cs ch [])) = dget c ch.
Proof.
  revert ch. induction cs as [|c0 cs IH]; intros ch Hc; [done|]. simpl.
  assert (Hc' : c ∉ cs \/ dget c ag = None).
  { destruct Hc as [Hc|Hc]; [left|by right].
    rewrite not_elem_of_cons in Hc. by destruct Hc. }
  destruct (dget c0 ag) as [cr0|] eqn:Hg0.
  - rewrite IH by done. apply dget_dset_ne.
    intros ->. destruct Hc as [Hc|Hc]; [|congruence].
    apply Hc, elem_of_cons. by left.
  - rewrite link_children_out. by apply IH.
Qed.

Lemma link_children_warnings (cs : list string) (ch : list (string * nat)) :
  snd (link_children ag aid cs ch []) =
  map (fun c => child_warning c aid) (List.filter (fun c => negb (dmem c ag)) cs).
Proof.
  revert ch. induction cs as [|c0 cs IH]; intros ch; [done|]. simpl.
  unfold dmem. destruct (dget c0 ag); simpl; [apply IH|].
  rewrite link_children_out. simpl. by rewrite IH.
Qed.

Lemma link_children_keys (cs : list string) (ch : list (string * nat)) :
  NoDup cs ->
  (forall c, c ∈ cs -> is_Some (dget c ag)) ->
  (forall c, c ∈ cs -> dget c ch = None) ->
  dkeys (fst (link_children ag aid cs ch [])) = dkeys ch ++ cs.
Proof.
  revert ch. induction cs as [|c0 cs IH]; intros ch Hnd Hag Hch; simpl.
  - by rewrite app_nil_r.
  - apply NoDup_cons in Hnd as [Hc0 Hnd].
    destruct (Hag c0) as [cr0 ->]; [apply elem_of_cons; by left|].
    rewrite IH; [| done | |].
    + rewrite dkeys_dset_absent by (apply Hch, elem_of_cons; by left).
      by rewrite <- app_assoc.
    + intros c Hc. apply Hag, elem_of_cons. by right.
    + intros c Hc. rewrite dget_dset_ne; [apply Hch, elem_of_cons; by right|].
      intros ->. done.
Qed.

(** The links made for one agent: exactly the child ids that are
    registered, each to the agent registered under it. *)
Lemma link_children_registered (cs : list string) :
  (forall c, c ∈ dkeys (fst (link_children ag aid cs [] [])) <->
             c ∈ cs /\ c ∈ dkeys ag) /\
  (forall c cr, dget c (fst (link_children ag aid cs [] [])) = Some cr ->
                dget c ag = Some cr).
Proof.
  split.
  - intros c. rewrite <- !dget_Some_keys. split.
    + intros [cr Hcr].
      destruct (decide (c ∈ cs)) as [Hc|Hc].
      * split; [done|]. destruct (dget c ag) as [x|] eqn:Hx; [by eexists|].
        rewrite link_children_absent in Hcr by (by right). done.
      * rewrite link_children_absent in Hcr by (by left). done.
    + intros [Hc [x Hx]]. exists x. by apply link_children_present.
  - intros c cr Hcr.
    destruct (decide (c ∈ cs)) as [Hc|Hc].
    + destruct (dget c ag) as [x|] eqn:Hx.
      * by rewrite (link_children_present _ _ c x Hc Hx) in Hcr.
      * rewrite link_children_absent in Hcr by (by right). done.
    + rewrite link_children_absent in Hcr by (by left). done.
Qed.

End LinkChildren.

(** Where a record's agent ends up. *)
Lemma restore_lookup (tools : list string) (recs : list AgentState.t)
    (rec : AgentState.t) :
  let ag := combine (map AgentState.id recs) (seq 0 (length recs)) in
  NoDup (map AgentState.id recs) -> rec ∈ recs ->
  exists i,
    dget (AgentState.id rec) ag = Some i /\
    (i < length recs)%nat /\
    map (restored_agent ag tools) recs !!! i = restored_agent ag tools rec.
Proof.
  intros ag Hnd Hin. apply list_elem_of_split in Hin as (done & todo & Hrecs).
  exists (length done). subst ag. rewrite Hrecs in Hnd |- *.
  rewrite <- (length_map AgentState.id (done ++ rec :: todo)).
  rewrite map_app in Hnd |- *. cbn [map] in Hnd |- *.
  rewrite dget_combine_seq by done.
  split; [by rewrite length_map|]. split.
  { rewrite length_app, length_map. simpl. lia. }
  rewrite map_app. cbn [map].
  apply list_lookup_total_middle. by rewrite length_map.
Qed.

(** ** Snapshots that name missing agents *)

(** C9, counterexample. Loading [dangling_snapshot] completes and drops
    the child id that names no record, with one printed line; the
    [parent_id] that names no record is kept as it is, with no line printed
    for it, and the depth of that agent can then not be computed. Loading
    [headless_snapshot], which also names a missing child, does not
    complete at all. *)
Lemma dangling_parent_id_is_kept :
  (exists st,
     Agency_init_from_state dangling_snapshot all_tools None "workspace_0" =
       Ok (st, ["Warning: Child agent ID 7 not found for parent 0"]) /\
     children (heap st !!! 0%nat) = [] /\
     parent_id (heap st !!! 0%nat) = Some "9" /\
     dget "9" (agents (agency st)) = None /\
     curr_depth 1000 st 0%nat = Raise (KeyError "9")) /\
  Agency_init_from_state headless_snapshot all_tools None "workspace_0" =
    Raise (ValueError "Main agent ID not found in loaded state").
Proof.
  split; [eexists; repeat split|]; vm_compute; reflexivity.
Qed.

(** C9, as amended. For a snapshot whose records have distinct ids and
    whose [agency_id] names one of them, loading completes. The agents are
    registered under the records' ids, in order. For each record, the
    agent's [children] hold exactly the [child_ids] that name a record,
    each linked to the agent registered under that id, so that a child id
    naming no record is dropped, and one line is printed for every dropped
    child id; [parent_id] is copied from the record as it is, also when it
    names no record. *)
Theorem restore_drops_missing_children (state : AgencyState.t) (tools : list string)
    (ws : option string) (uuid_ws : string)
    (Hids : NoDup (map AgentState.id (AgencyState.agents state)))
    (Hmain : AgencyState.agency_id state ∈ map AgentState.id (AgencyState.agents state)) :
  exists st out,
    Agency_init_from_state state tools ws uuid_ws = Ok (st, out) /\
    dkeys (agents (agency st)) = map AgentState.id (AgencyState.agents state) /\
    (forall rec, rec ∈ AgencyState.agents state ->
       exists r,
         dget (AgentState.id rec) (agents (agency st)) = Some r /\
         id (heap st !!! r) = AgentState.id rec /\
         parent_id (heap st !!! r) = AgentState.parent_id rec /\
         (forall c, c ∈ dkeys (children (heap st !!! r)) <->
                    c ∈ AgentState.child_ids rec /\
                    c ∈ map AgentState.id (AgencyState.agents state)) /\
         (forall c cr, dget c (children (heap st !!! r)) = Some cr ->
                       dget c (agents (agency st)) = Some cr)) /\
    out = concat
            (map (fun rec =>
                    map (fun c => child_warning c (AgentState.id rec))
                      (List.filter (fun c => negb (dmem c (agents (agency st))))
                         (AgentState.child_ids rec)))
               (AgencyState.agents state)).
Proof.
  pose proof (restore_spec state tools ws uuid_ws Hids) as Hspec.
  cbv zeta in Hspec.
  set (recs := AgencyState.agents state) in *.
  set (ag := combine (map AgentState.id recs) (seq 0 (length recs))) in *.
  assert (Hkeys : dkeys ag = map AgentState.id recs).
  { unfold ag. rewrite <- (length_map AgentState.id recs). apply dkeys_combine_seq. }
  destruct (dget (AgencyState.agency_id state) ag) as [m|] eqn:Hm.
  2:{ exfalso. apply dget_None_keys in Hm. apply Hm. by rewrite Hkeys. }
  destruct Hspec as (st & Hrun & Hheap & Hag & _).
  exists st, (restore_warnings ag recs). split; [done|].
  rewrite Hag, Hheap. split; [done|]. split.
  - intros rec Hrec.
    destruct (restore_lookup tools recs rec Hids Hrec) as (i & Hi & Hlt & Hat).
    fold ag in Hi, Hat. exists i. rewrite Hat. split; [done|].
    split; [done|]. split; [done|].
    unfold restored_agent. cbn [children set_children].
    rewrite <- Hkeys. apply link_children_registered.
  - unfold restore_warnings. f_equal. apply map_ext. intros rec.
    apply link_children_warnings.
Qed.

Lemma restore_drops_missing_children_witness :
  exists st out,
    Agency_init_from_state dangling_snapshot all_tools None "workspace_0" = Ok (st, out) /\
    dkeys (agents (agency st)) = ["0"].
Proof.
  destruct (restore_drops_missing_children dangling_snapshot all_tools None "workspace_0")
    as (st & out & Hrun & Hkeys & _).
  - apply NoDup_singleton.
  - apply list_elem_of_singleton. reflexivity.
  - exists st, out. by split.
Defined.

(** ** Saving and loading again *)

Lemma mapR_map_Ok {A B} (f : A -> PyResult B) (g : A -> B) (l : list A) :
  (forall x, x ∈ l -> f x = Ok (g x)) -> mapR f l = Ok (map g l).
Proof.
  induction l as [|x l IH]; intros Hf; simpl; [done|].
  rewrite (Hf x) by (apply elem_of_cons; by left). simpl.
  rewrite IH; [done|]. intros y Hy. apply Hf, elem_of_cons. by right.
Qed.

Lemma concat_all_nil {A} (ls : list (list A)) :
  (forall l, l ∈ ls -> l = []) -> concat ls = [].
Proof.
  induction ls as [|l ls IH]; intros Hall; simpl; [done|].
  rewrite (Hall l) by (apply elem_of_cons; by left). simpl.
  apply IH. intros l' Hl'. apply Hall, elem_of_cons. by right.
Qed.

Lemma filter_none {A} (p : A -> bool) (l : list A) :
  (forall x, x ∈ l -> p x = false) -> List.filter p l = [].
Proof.
  induction l as [|x l IH]; intros Hp; simpl; [done|].
  rewrite (Hp x) by (apply elem_of_cons; by left).
  apply IH. intros y Hy. apply Hp, elem_of_cons. by right.
Qed.

(** C5, counterexample. After the main agent of [team_agency] has been
    removed, the tree of the three remaining agents is saved without
    trouble, but loading the snapshot raises: [agency_id] still names the
    removed main agent. *)
Lemma round_trip_fails_without_main_agent :
  remove_agent_helper team_agency "0" = (Ok "Removed agent with ID: 0", team_without_main) /\
  dkeys (agents (agency team_without_main)) = ["1"; "2"; "3"] /\
  exists snap,
    Agency_save_state team_without_main = Ok snap /\
    map AgentState.id (AgencyState.agents snap) = ["1"; "2"; "3"] /\
    AgencyState.agency_id snap = "0" /\
    Agency_init_from_state snap all_tools None "workspace_0" =
      Raise (ValueError "Main agent ID not found in loaded state").
Proof.
  split; [vm_compute; reflexivity|]. split; [vm_compute; reflexivity|].
  eexists. split; [vm_compute; reflexivity|].
  split; [vm_compute; reflexivity|]. split; vm_compute; reflexivity.
Qed.

(** C5, as amended. For a tree with no meeting in flight in which the
    agents are stored under their own ids, the main agent is among them,
    every [accessible_tools] is a dictionary and every child id names an
    agent of the tree, saving succeeds, loading the snapshot succeeds and
    prints nothing, and the loaded tree has the same agent ids in the same
    order and, agent by agent, the same [parent_id], the same child ids in
    the same order, linked to the loaded agents of those ids, the same
    [accessible_tools] and the same [message_history]; the counters are the
    same too. *)
Theorem save_then_load_keeps_the_tree (st : State) (tools : list string)
    (ws : option string) (uuid_ws : string)
    (Hok : tree_saveable st) :
  exists snap st',
    Agency_save_state st = Ok snap /\
    Agency_init_from_state snap tools ws uuid_ws = Ok (st', []) /\
    dkeys (agents (agency st')) = dkeys (agents (agency st)) /\
    (forall k r,
       dget k (agents (agency st)) = Some r ->
       exists r',
         dget k (agents (agency st')) = Some r' /\
         id (heap st' !!! r') = k /\
         parent_id (heap st' !!! r') = parent_id (heap st !!! r) /\
         dkeys (children (heap st' !!! r')) = dkeys (children (heap st !!! r)) /\
         (forall c cr, dget c (children (heap st' !!! r')) = Some cr ->
                       dget c (agents (agency st')) = Some cr) /\
         accessible_tools (heap st' !!! r') = accessible_tools (heap st !!! r) /\
         message_history (heap st' !!! r') = message_history (heap st !!! r)) /\
    current_id (agency st') = current_id (agency st) /\
    max_depth (agency st') = max_depth (agency st) /\
    max_breadth (agency st') = max_breadth (agency st) /\
    max_agents (agency st') = max_agents (agency st).
Proof.
  destruct Hok as (Hnd & Hkeyed & Hmain & Hagents).
  set (recs := map (fun r => agent_record (heap st !!! r)) (dvalues (agents (agency st)))).
  (* saving *)
  assert (Hsaved : mapR (fun r => Agent_save_state (heap st !!! r))
                     (dvalues (agents (agency st))) = Ok recs).
  { apply mapR_map_Ok. intros r Hr. apply elem_of_dvalues in Hr as [k Hk].
    destruct (Hagents k r Hk) as ([d Hd] & _).
    unfold Agent_save_state, agent_record. by rewrite Hd. }
  assert (Hids : map AgentState.id recs = dkeys (agents (agency st))).
  { unfold recs, dvalues, dkeys. rewrite !map_map.
    apply map_ext_in. intros [k r] Hin. simpl.
    apply list_elem_of_In in Hin. by destruct (Hkeyed k r Hin). }
  unfold Agency_save_state. rewrite Hsaved. simpl.
  eexists. 
  (* loading *)
  match goal with
  | |- exists st', Ok ?snap = Ok _ /\ _ =>
      pose proof (restore_spec snap tools ws uuid_ws) as Hspec
  end.
  cbv zeta in Hspec. cbn [AgencyState.agents AgencyState.agency_id] in Hspec.
  rewrite Hids in Hspec. specialize (Hspec Hnd).
  set (ag := combine (dkeys (agents (agency st))) (seq 0 (length recs))) in *.
  assert (Hkeys : dkeys ag = dkeys (agents (agency st))).
  { unfold ag. rewrite <- Hids, <- (length_map AgentState.id recs).
    apply dkeys_combine_seq. }
  destruct (dget (id (heap st !!! main_agent (agency st))) ag) as [m|] eqn:Hm.
  2:{ exfalso. apply dget_None_keys in Hm. apply Hm. by rewrite Hkeys. }
  destruct Hspec as (st' & Hrun & Hheap & Hag & _ & Hcur & Hdepth & Hbreadth & Hmax).
  assert (Hquiet : restore_warnings ag recs = []).
  { unfold restore_warnings. apply concat_all_nil. intros l Hl.
    apply list_elem_of_In, in_map_iff in Hl as (rec & <- & Hrec).
    rewrite link_children_warnings.
    rewrite filter_none; [done|]. intros c Hc.
    unfold recs in Hrec. apply in_map_iff in Hrec as (r & <- & Hr).
    apply list_elem_of_In, elem_of_dvalues in Hr as [k Hk].
    destruct (Hagents k r Hk) as (_ & _ & Hin).
    cbn [agent_record AgentState.child_ids] in Hc.
    apply Bool.negb_false_iff, dmem_keys. rewrite Hkeys. by apply Hin. }
  rewrite Hquiet in Hrun.
  exists st'. split; [reflexivity|]. split; [exact Hrun|].
  rewrite Hag, Hheap. split; [exact Hkeys|].
  split; [|by repeat split].
  intros k r Hg. apply dget_Some_elem in Hg as Hin.
  destruct (Hkeyed k r Hin) as [Hlt Hid].
  destruct (Hagents k r Hin) as ([d Hd] & Hndc & Hcin).
  assert (Hrec : agent_record (heap st !!! r) ∈ recs).
  { unfold recs. apply list_elem_of_In.
    apply (in_map (fun r => agent_record (heap st !!! r))).
    unfold dvalues. apply in_map_iff. exists (k, r).
    split; [done|]. by apply list_elem_of_In. }
  assert (Hnd' : NoDup (map AgentState.id recs)) by (by rewrite Hids).
  destruct (restore_lookup tools recs _ Hnd' Hrec) as (i & Hi & _ & Hat).
  rewrite Hids in Hi, Hat. fold ag in Hi, Hat.
  cbn [agent_record AgentState.id] in Hi. rewrite Hid in Hi.
  exists i. rewrite Hat. split; [exact Hi|].
  unfold restored_agent.
  cbn [id parent_id children accessible_tools message_history set_children
       Agent_load_state set_parent_id set_message_history Agent_init agent_record
       AgentState.id AgentState.parent_id AgentState.child_ids
       AgentState.accessible_tools AgentState.message_history].
  split; [exact Hid|]. split; [done|]. split.
  { rewrite link_children_keys; [done|done| |done].
    intros c Hc. apply dget_Some_keys. rewrite Hkeys. by apply Hcin. }
  split; [apply link_children_registered|].
  split; [by rewrite Hd|done].
Qed.

Lemma save_then_load_keeps_the_tree_witness :
  exists snap st',
    Agency_save_state team_agency = Ok snap /\
    Agency_init_from_state snap all_tools None "workspace_0" = Ok (st', []) /\
    dkeys (agents (agency st')) = ["0"; "1"; "2"; "3"].
Proof.
  destruct (save_then_load_keeps_the_tree team_agency all_tools None "workspace_0")
    as (snap & st' & Hsave & Hload & Hkeys & _).
  { assert (Hag : agents (agency team_agency) =
                  [("0", 0%nat); ("1", 1%nat); ("2", 2%nat); ("3", 3%nat)]) by reflexivity.
    assert (Hc0 : children (heap team_agency !!! 0%nat) = [("1", 1%nat); ("2", 2%nat)])
      by reflexivity.
    assert (Hc1 : children (heap team_agency !!! 1%nat) = [("3", 3%nat)]) by reflexivity.
    assert (Hc2 : children (heap team_agency !!! 2%nat) = []) by reflexivity.
    assert (Hc3 : children (heap team_agency !!! 3%nat) = []) by reflexivity.
    split; [|split; [|split]].
    - rewrite Hag. unfold dkeys. simpl. nodup_strings.
    - intros k r Hin. rewrite Hag in Hin. rewrite !elem_of_cons, elem_of_nil in Hin.
      destruct Hin as [[= -> ->]|[[= -> ->]|[[= -> ->]|[[= -> ->]|[]]]]];
        split; solve [reflexivity | vm_compute; lia].
    - rewrite Hag. change ("0" ∈ ["0"; "1"; "2"; "3"]). apply elem_of_cons. by left.
    - intros k r Hin. rewrite Hag in Hin |- *.
      rewrite !elem_of_cons, elem_of_nil in Hin.
      destruct Hin as [[= -> ->]|[[= -> ->]|[[= -> ->]|[[= -> ->]|[]]]]];
        (split; [eexists; reflexivity|]);
        rewrite ?Hc0, ?Hc1, ?Hc2, ?Hc3; unfold dkeys; simpl;
        (split; [nodup_strings|]);
        intros c Hc; rewrite ?elem_of_cons, ?elem_of_nil in *; intuition. }
  exists snap, st'. split; [exact Hsave|]. split; [exact Hload|exact Hkeys].
Defined.

(** * Further properties *)

Lemma to_int_not_nil (n : Z) :
  Z.to_int n <> Decimal.Pos Decimal.Nil /\ Z.to_int n <> Decimal.Neg Decimal.Nil.
Proof.
  split; intros H; pose proof (f_equal Z.of_int H) as H0;
    rewrite DecimalZ.of_to in H0; simpl in H0; subst n; discriminate.
Qed.

Lemma str_inj (n m : Z) : PyStr.str n = PyStr.str m -> n = m.
Proof.
  unfold PyStr.str. intros H.
  apply (f_equal NilZero.int_of_string) in H.
  destruct (to_int_not_nil n), (to_int_not_nil m).
  rewrite !NilZero.isi in H by done.
  injection H as H. by apply DecimalZ.to_int_inj.
Qed.

Lemma str_nonempty (n : Z) : PyStr.str n <> "".
Proof.
  unfold PyStr.str. intros H.
  apply (f_equal NilZero.int_of_string) in H.
  destruct (to_int_not_nil n).
  rewrite NilZero.isi in H by done. simpl in H. discriminate.
Qed.

(** ** What the two ways of creating an agent build *)

Section CreateFacts.
Context {B : Type} (field : Agent -> B).
Hypothesis field_children : forall c a, field (set_children c a) = field a.

Lemma create_new_agent_helper_field (st : State) (nm sp pid : string) (x : ref) :
  (forall p a, field (set_parent p a) = field a) ->
  field (heap (snd (create_new_agent_helper st nm sp pid)) !!! x) =
  field ((heap st ++ [helper_agent st nm sp]) !!! x).
Proof.
  intros Hp. unfold create_new_agent_helper, next_id, alloc, helper_agent.
  cbn [snd fst heap agency agents set_agents set_current_id default_provider current_id].
  destruct (dget pid _); [|done].
  rewrite lookup_total_alter_field by (intros; apply field_children).
  by rewrite lookup_total_alter_field by (intros; apply Hp).
Qed.

Lemma server_create_agent_field (st : State) (nm sp : string) (req : option string)
    (servers : list string) (x : ref) :
  (forall p a, field (set_parent_id p a) = field a) ->
  default_mcp_servers (agency st) = Some servers ->
  field (heap (snd (server_create_agent st nm sp req)) !!! x) =
  field ((heap st ++ [endpoint_agent st nm sp servers]) !!! x).
Proof.
  intros Hp Hs. unfold server_create_agent, next_id, alloc, endpoint_agent.
  cbn [snd fst heap agency agents set_agents set_current_id default_provider current_id
       default_mcp_servers].
  rewrite Hs. cbn [snd heap].
  destruct (dget _ _); [|done].
  rewrite lookup_total_alter_field by (intros; apply field_children).
  by rewrite lookup_total_alter_field by (intros; apply Hp).
Qed.

End CreateFacts.

Lemma create_new_agent_helper_agency (st : State) (nm sp pid : string) :
  agency (snd (create_new_agent_helper st nm sp pid)) =
  set_agents (dset (PyStr.str (current_id (agency st))) (length (heap st))
                (agents (agency st)))
    (set_current_id (current_id (agency st) + 1) (agency st)).
Proof. reflexivity. Qed.

Lemma create_new_agent_helper_length (st : State) (nm sp pid : string) :
  length (heap (snd (create_new_agent_helper st nm sp pid))) = S (length (heap st)).
Proof.
  unfold create_new_agent_helper, next_id, alloc.
  cbn [snd fst heap agency agents set_agents set_current_id default_provider current_id].
  destruct (dget pid _); rewrite ?length_alter, length_app; simpl; lia.
Qed.

Lemma server_create_agent_agency (st : State) (nm sp : string) (req : option string)
    (servers : list string) :
  default_mcp_servers (agency st) = Some servers ->
  agency (snd (server_create_agent st nm sp req)) =
  set_agents (dset (PyStr.str (current_id (agency st))) (length (heap st))
                (agents (agency st)))
    (set_current_id (current_id (agency st) + 1) (agency st)).
Proof.
  intros Hs. unfold server_create_agent, next_id, alloc.
  cbn [snd fst heap agency agents set_agents set_current_id default_provider current_id
       default_mcp_servers].
  by rewrite Hs.
Qed.

Lemma server_create_agent_length (st : State) (nm sp : string) (req : option string)
    (servers : list string) :
  default_mcp_servers (agency st) = Some servers ->
  length (heap (snd (server_create_agent st nm sp req))) = S (length (heap st)).
Proof.
  intros Hs. unfold server_create_agent, next_id, alloc.
  cbn [snd fst heap agency agents set_agents set_current_id default_provider current_id
       default_mcp_servers].
  rewrite Hs. cbn [snd heap].
  destruct (dget _ _); rewrite ?length_alter, length_app; simpl; lia.
Qed.

(** Without [default_mcp_servers] the endpoint only uses up an id. *)
Lemma server_create_agent_no_servers (st : State) (nm sp : string) (req : option string) :
  default_mcp_servers (agency st) = None ->
  server_create_agent st nm sp req =
    (Raise (AttributeError "default_mcp_servers"),
     mkState (heap st) (set_current_id (current_id (agency st) + 1) (agency st))).
Proof.
  intros Hs. unfold server_create_agent, next_id.
  cbn [snd fst heap agency agents set_agents set_current_id default_provider current_id
       default_mcp_servers].
  by rewrite Hs.
Qed.

(** ** The registry of agents *)

Lemma ids_below_counter_fresh (st : State) :
  ids_below_counter st ->
  dget (PyStr.str (current_id (agency st))) (agents (agency st)) = None.
Proof.
  intros Hb. apply dget_None_keys. intros Hin.
  destruct (Hb _ Hin) as (n & Hn & Heq). apply str_inj in Heq. lia.
Qed.

(** Registering a new object under the next id. *)
Lemma registry_ok_register (st st' : State) :
  registry_ok st ->
  agency st' =
    set_agents (dset (PyStr.str (current_id (agency st))) (length (heap st))
                  (agents (agency st)))
      (set_current_id (current_id (agency st) + 1) (agency st)) ->
  length (heap st') = S (length (heap st)) ->
  (forall x, (x < length (heap st))%nat -> id (heap st' !!! x) = id (heap st !!! x)) ->
  id (heap st' !!! length (heap st)) = PyStr.str (current_id (agency st)) ->
  registry_ok st'.
Proof.
  intros (Hnd & Hkeyed & Hbelow) Hag Hlen Hids Hnew.
  pose proof (ids_below_counter_fresh st Hbelow) as Hfresh.
  unfold registry_ok, agents_keyed_by_id, ids_below_counter.
  rewrite Hag. cbn [agents set_agents set_current_id current_id].
  rewrite dkeys_dset_absent, dset_absent by done.
  split; [|split].
  - apply NoDup_app. split; [done|]. split; [|apply NoDup_singleton].
    intros k Hk Hk'. apply list_elem_of_singleton in Hk' as ->.
    by apply dget_None_keys in Hfresh.
  - intros k r Hin. apply elem_of_app in Hin as [Hin|Hin].
    + destruct (Hkeyed k r Hin) as [Hlt Hid]. split; [lia|].
      by rewrite Hids.
    + apply list_elem_of_singleton in Hin. injection Hin as -> ->.
      split; [lia|done].
  - intros k Hk. apply elem_of_app in Hk as [Hk|Hk].
    + destruct (Hbelow k Hk) as (n & Hn & ->). exists n. split; [lia|done].
    + apply list_elem_of_singleton in Hk as ->. eexists. split; [|done]. lia.
Qed.

Lemma registry_ok_create (st : State) (nm sp pid : string) :
  registry_ok st -> registry_ok (snd (create_new_agent_helper st nm sp pid)).
Proof.
  intros Hok. apply (registry_ok_register st); [done| | | |].
  - apply create_new_agent_helper_agency.
  - apply create_new_agent_helper_length.
  - intros x Hx. rewrite (create_new_agent_helper_field id) by done.
    by rewrite lookup_total_app_l.
  - rewrite (create_new_agent_helper_field id) by done.
    by rewrite lookup_total_snoc.
Qed.

Lemma registry_ok_counter (st : State) (n : Z) :
  current_id (agency st) <= n ->
  registry_ok st ->
  registry_ok (mkState (heap st) (set_current_id n (agency st))).
Proof.
  intros Hn (Hnd & Hkeyed & Hbelow). split; [done|]. split; [done|].
  intros k Hk. destruct (Hbelow k Hk) as (m & Hm & ->).
  exists m. split; [simpl; lia|done].
Qed.

Lemma registry_ok_server_create (st : State) (nm sp : string) (req : option string) :
  registry_ok st -> registry_ok (snd (server_create_agent st nm sp req)).
Proof.
  intros Hok. destruct (default_mcp_servers (agency st)) as [servers|] eqn:Hs.
  - apply (registry_ok_register st); [done| | | |].
    + by eapply server_create_agent_agency.
    + by eapply server_create_agent_length.
    + intros x Hx. rewrite (server_create_agent_field id (fun _ _ => eq_refl) _ _ _ _ servers) by done.
      by rewrite lookup_total_app_l.
    + rewrite (server_create_agent_field id (fun _ _ => eq_refl) _ _ _ _ servers) by done.
      by rewrite lookup_total_snoc.
  - rewrite server_create_agent_no_servers by done. simpl.
    apply registry_ok_counter; [lia|done].
Qed.

Lemma NoDup_ddel {V} (k : string) (d : list (string * V)) :
  NoDup (dkeys d) -> NoDup (dkeys (ddel k d)).
Proof.
  induction d as [|[k0 v0] d IH]; simpl; [done|].
  intros Hnd. apply NoDup_cons in Hnd as [Hk0 Hnd].
  destruct (String.eqb k k0); simpl; [by apply IH|].
  apply NoDup_cons. split; [|by apply IH].
  intros Hin. apply Hk0.
  apply dget_Some_keys in Hin as [v Hv]. apply dget_Some_keys.
  destruct (decide (k = k0)) as [->|Hne].
  - by rewrite dget_ddel_eq in Hv.
  - rewrite dget_ddel_ne in Hv by done. eauto.
Qed.

Lemma registry_ok_remove (st : State) (agent_id : string) :
  registry_ok st -> registry_ok (snd (remove_agent_helper st agent_id)).
Proof.
  intros (Hnd & Hkeyed & Hbelow).
  destruct (remove_agent_helper_shape id (fun _ _ => eq_refl) (fun _ _ => eq_refl)
              st agent_id) as (Hag & Hlen & Hid).
  unfold registry_ok, agents_keyed_by_id, ids_below_counter.
  rewrite Hlen. destruct Hag as [-> | ->].
  - split; [done|]. split; [|done].
    intros k r Hin. destruct (Hkeyed k r Hin). by rewrite Hid.
  - cbn [agents set_agents current_id].
    split; [|split].
    + by apply NoDup_ddel.
    + intros k r Hin. apply elem_of_ddel in Hin as [Hin _].
      destruct (Hkeyed k r Hin). by rewrite Hid.
    + intros k Hk. apply Hbelow.
      apply dget_Some_keys in Hk as [v Hv]. apply dget_Some_keys.
      destruct (decide (agent_id = k)) as [->|Hne].
      * by rewrite dget_ddel_eq in Hv.
      * rewrite dget_ddel_ne in Hv by done. eauto.
Qed.

Lemma registry_ok_fresh (provider ws sp : string) :
  registry_ok (Agency_init_fresh provider ws sp).
Proof.
  split; [|split].
  - apply NoDup_singleton.
  - intros k r Hin. apply list_elem_of_singleton in Hin. injection Hin as -> ->.
    split; [simpl; lia|done].
  - intros k Hk. apply list_elem_of_singleton in Hk as ->.
    exists 0. split; [simpl; lia|done].
Qed.

Lemma NoDup_dset {V} (k : string) (v : V) (d : list (string * V)) :
  NoDup (dkeys d) -> NoDup (dkeys (dset k v d)).
Proof.
  intros Hnd. destruct (dget k d) as [x|] eqn:Hg.
  - rewrite dkeys_dset_present by eauto. done.
  - rewrite dkeys_dset_absent by done.
    apply NoDup_app. split; [done|]. split; [|apply NoDup_singleton].
    intros k' Hk' Hin. apply list_elem_of_singleton in Hin as ->.
    by apply dget_None_keys in Hg.
Qed.

Lemma call_meeting_cases (backend : Backend) (st : State) (host_id : string)
    (ctx_prompt : option string) (objective : string) (max_turns : Z)
    (summary : string) (st' : State) :
  call_meeting backend st host_id ctx_prompt objective max_turns = Ok (summary, st') ->
  exists host,
    dget host_id (agents (agency st)) = Some host /\
    ((children (heap st !!! host) = [] /\ st' = st /\
      summary = "No agents available to meet.") \/
     (children (heap st !!! host) <> [] /\
      let s := meeting_setup st host_id host (dvalues (children (heap st !!! host)))
                 (default "Meeting called" (nonempty ctx_prompt)) objective in
      (summary, st') = meeting_finish s (meeting_rounds backend host_id max_turns s))).
Proof.
  unfold call_meeting, agents_at.
  destruct (dget host_id _) as [host|]; cbn [bindR]; [|done].
  intros H. exists host. split; [done|].
  destruct (dvalues (children (heap st !!! host))) as [|c cs'] eqn:Hcs.
  - left. injection H as <- <-. split; [|done].
    by destruct (children (heap st !!! host)).
  - right. split; [by destruct (children (heap st !!! host))|].
    cbv zeta. congruence.
Qed.

Lemma meeting_finish_length (backend : Backend) (st : State) (host_id : string)
    (host : ref) (cs : list ref) (prompt objective : string) (max_turns : Z) :
  let s := meeting_setup st host_id host cs prompt objective in
  let m := meeting_rounds backend host_id max_turns s in
  length (heap (snd (meeting_finish s m))) = S (length (heap st)).
Proof.
  intros s m. unfold meeting_finish. cbn [snd heap].
  rewrite length_append_to_all, length_restore_tools.
  destruct (meeting_rounds_same backend host_id max_turns s) as [Hl _].
  fold m in Hl. rewrite Hl.
  by destruct (meeting_setup_parts st host_id host cs prompt objective)
    as (_ & _ & _ & _ & _ & Hlen & _).
Qed.

Lemma meeting_finish_agency (st : State) (host_id : string)
    (host : ref) (cs : list ref) (prompt objective : string) (m : Meeting) :
  let s := meeting_setup st host_id host cs prompt objective in
  agency (snd (meeting_finish s m)) =
  set_agents (ddel (host_id +:+ "_temp")
                (dset (host_id +:+ "_temp") (length (heap st)) (agents (agency st))))
    (agency st).
Proof.
  intros s.
  destruct (meeting_setup_parts st host_id host cs prompt objective)
    as (Htid & _ & _ & _ & Hag & _).
  fold s in Htid, Hag. unfold meeting_finish. cbn [snd agency].
  rewrite Htid, Hag. unfold dmem. rewrite dget_dset_eq.
  assert (Hrest : forall d, set_agents d (agency (s_state s)) = set_agents d (agency st)).
  { intros d. subst s. unfold meeting_setup, alloc.
    destruct (stash_tools _ _). simpl. by destruct (agency st). }
  apply Hrest.
Qed.

Lemma registry_ok_meeting (backend : Backend) (st : State) (host_id : string)
    (ctx_prompt : option string) (objective : string) (max_turns : Z)
    (summary : string) (st' : State) :
  call_meeting backend st host_id ctx_prompt objective max_turns = Ok (summary, st') ->
  registry_ok st -> registry_ok st'.
Proof.
  intros Hcall (Hnd & Hkeyed & Hbelow).
  apply call_meeting_cases in Hcall as (host & Hhost & [(_ & -> & _)|[_ Hfin]]);
    [done|].
  cbv zeta in Hfin.
  set (cs := dvalues (children (heap st !!! host))) in *.
  set (prompt := default "Meeting called" (nonempty ctx_prompt)) in *.
  pose proof (meeting_finish_length backend st host_id host cs prompt objective max_turns)
    as Hlen.
  pose proof (meeting_finish_agency st host_id host cs prompt objective
                (meeting_rounds backend host_id max_turns
                   (meeting_setup st host_id host cs prompt objective))) as Hag.
  pose proof (fun r => meeting_keeps_ids backend st host_id host cs prompt objective
                         max_turns r) as Hids.
  cbv zeta in Hlen, Hag, Hids. rewrite <- Hfin in Hlen, Hag, Hids. simpl in Hlen, Hag, Hids.
  unfold registry_ok, agents_keyed_by_id, ids_below_counter.
  rewrite Hag, Hlen. cbn [agents set_agents current_id].
  assert (Hsub : forall k r, (k, r) ∈ ddel (host_id +:+ "_temp")
                   (dset (host_id +:+ "_temp") (length (heap st)) (agents (agency st))) ->
                 (k, r) ∈ agents (agency st)).
  { intros k r Hin. apply elem_of_ddel in Hin as [Hin Hne].
    by apply elem_of_dset in Hin as [[? _]|Hin]. }
  split; [|split].
  - by apply NoDup_ddel, NoDup_dset.
  - intros k r Hin. destruct (Hkeyed k r (Hsub k r Hin)) as [Hlt Hid].
    split; [lia|]. by rewrite Hids.
  - intros k Hk. apply Hbelow.
    apply dget_Some_keys in Hk as [v Hv]. apply dget_Some_elem, Hsub in Hv.
    apply list_elem_of_In. apply in_map_iff. exists (k, v).
    split; [done|]. by apply list_elem_of_In.
Qed.

(** X3. In every state that an agency reaches from a new one by creating
    agents (with the tool's helper or the endpoint), removing agents and
    holding meetings, [agency.agents] has no id twice, binds every id to an
    allocated agent that carries this id, holds only decimal numbers below
    [current_id] as ids, and does not hold the id that [next_id] hands out
    next. *)
Theorem reachable_registry (st : State) (Hreach : reachable st) :
  NoDup (dkeys (agents (agency st))) /\
  (forall k r, (k, r) ∈ agents (agency st) ->
     (r < length (heap st))%nat /\ id (heap st !!! r) = k) /\
  (forall k, k ∈ dkeys (agents (agency st)) ->
     exists n, n < current_id (agency st) /\ k = PyStr.str n) /\
  dget (PyStr.str (current_id (agency st))) (agents (agency st)) = None.
Proof.
  assert (Hok : registry_ok st).
  { induction Hreach.
    - apply registry_ok_fresh.
    - by apply registry_ok_create.
    - by apply registry_ok_server_create.
    - by apply registry_ok_remove.
    - by eapply registry_ok_meeting. }
  destruct Hok as (Hnd & Hkeyed & Hbelow).
  split; [done|]. split; [done|]. split; [done|].
  by apply ids_below_counter_fresh.
Qed.

Lemma reachable_registry_witness :
  dget (PyStr.str (current_id (agency agency_with_worker)))
    (agents (agency agency_with_worker)) = None.
Proof.
  exact (proj2 (proj2 (proj2
    (reachable_registry agency_with_worker
       (reachable_create fresh_agency "worker" "You do the work." "0"
          (reachable_fresh _ _ _)))))).
Defined.

(** ** More on dictionaries and the store *)

Lemma dget_app_present {V} (k : string) (v : V) (d1 d2 : list (string * V)) :
  dget k d1 = Some v -> dget k (d1 ++ d2) = Some v.
Proof.
  induction d1 as [|[k0 v0] d1 IH]; simpl; [done|].
  by destruct (String.eqb k k0).
Qed.

Lemma ddel_app_absent {V} (k : string) (v : V) (d : list (string * V)) :
  dget k d = None -> ddel k (d ++ [(k, v)]) = d.
Proof.
  induction d as [|[k0 v0] d IH]; simpl.
  - by rewrite String.eqb_refl.
  - case_eqb k k0. simpl. intros Hg. by rewrite IH.
Qed.

Lemma ddel_dset_absent {V} (k : string) (v : V) (d : list (string * V)) :
  dget k d = None -> ddel k (dset k v d) = d.
Proof. intros Hg. rewrite dset_absent by done. by apply ddel_app_absent. Qed.

Lemma dlen_dset_absent {V} (k : string) (v : V) (d : list (string * V)) :
  dget k d = None -> dlen (dset k v d) = dlen d + 1.
Proof.
  intros Hg. rewrite dset_absent by done. unfold dlen. rewrite length_app. simpl. lia.
Qed.

Lemma dlen_dset_le {V} (k : string) (v : V) (d : list (string * V)) :
  dlen (dset k v d) <= dlen d + 1.
Proof.
  unfold dlen. induction d as [|[k0 v0] d IH]; simpl; [lia|].
  destruct (String.eqb k k0); simpl length; lia.
Qed.

Lemma lookup_total_snoc_at (h : list Agent) (a : Agent) (n : nat) :
  length h = n -> (h ++ [a]) !!! n = a.
Proof. intros <-. apply lookup_total_snoc. Qed.

Lemma set_children_same (a : Agent) : set_children (children a) a = a.
Proof. by destruct a. Qed.

(** ** The state after a creation under a registered parent *)

Lemma create_new_agent_helper_linked (st : State) (nm sp pid : string) (p : ref) :
  let new_id := PyStr.str (current_id (agency st)) in
  let r := length (heap st) in
  dget new_id (agents (agency st)) = None ->
  dget pid (agents (agency st)) = Some p ->
  (p < length (heap st))%nat ->
  create_new_agent_helper st nm sp pid =
    ("Created agent: " +:+ nm +:+ " with ID: " +:+ new_id,
     mkState
       (alter (fun pa => set_children (dset new_id r (children pa)) pa) p (heap st) ++
        [set_parent (Some pid) (helper_agent st nm sp)])
       (set_agents (agents (agency st) ++ [(new_id, r)])
          (set_current_id (current_id (agency st) + 1) (agency st)))).
Proof.
  intros new_id r Hfresh Hparent Hp.
  assert (Hne : new_id <> pid) by congruence.
  unfold create_new_agent_helper, next_id, alloc.
  cbn [snd fst heap agency agents set_agents set_current_id default_provider current_id].
  fold new_id r. rewrite dget_dset_ne, Hparent by done.
  rewrite dset_absent by done.
  f_equal. f_equal.
  rewrite (alter_middle _ (heap st) []).
  by rewrite alter_app_l.
Qed.

Lemma server_create_agent_linked (st : State) (nm sp : string) (req : option string)
    (servers : list string) (p : ref) :
  let new_id := PyStr.str (current_id (agency st)) in
  let r := length (heap st) in
  let pid := default (id (heap st !!! main_agent (agency st))) (nonempty req) in
  default_mcp_servers (agency st) = Some servers ->
  dget new_id (agents (agency st)) = None ->
  dget pid (agents (agency st)) = Some p ->
  (p < length (heap st))%nat ->
  server_create_agent st nm sp req =
    (Ok new_id,
     mkState
       (alter (fun pa => set_children (dset new_id r (children pa)) pa) p (heap st) ++
        [set_parent_id (Some pid) (endpoint_agent st nm sp servers)])
       (set_agents (agents (agency st) ++ [(new_id, r)])
          (set_current_id (current_id (agency st) + 1) (agency st)))).
Proof.
  intros new_id r pid Hs Hfresh Hparent Hp.
  assert (Hne : new_id <> pid) by congruence.
  unfold server_create_agent, next_id, alloc.
  cbn [snd fst heap agency agents set_agents set_current_id default_provider current_id
       default_mcp_servers].
  rewrite Hs. fold new_id r pid. rewrite dget_dset_ne, Hparent by done.
  rewrite dset_absent by done.
  f_equal. f_equal.
  rewrite (alter_middle _ (heap st) []).
  by rewrite alter_app_l.
Qed.

(** ** Depth *)

(** The depth of an agent does not change when agents are added and
    [children] are changed. *)
Lemma curr_depth_mono (fuel : nat) (st st' : State) :
  (forall k x, dget k (agents (agency st)) = Some x -> (x < length (heap st))%nat) ->
  (forall k x, dget k (agents (agency st)) = Some x ->
     dget k (agents (agency st')) = Some x) ->
  (forall x, (x < length (heap st))%nat ->
     parent_id (heap st' !!! x) = parent_id (heap st !!! x)) ->
  forall r d, (r < length (heap st))%nat ->
    curr_depth fuel st r = Ok d -> curr_depth fuel st' r = Ok d.
Proof.
  intros Hvalid Hag Hpar. induction fuel as [|fuel IH]; intros r d Hr; simpl; [done|].
  rewrite Hpar by done. destruct (parent_id (heap st !!! r)) as [p|]; [|done].
  unfold agents_at. destruct (dget p (agents (agency st))) as [pr|] eqn:Hp; simpl; [|done].
  rewrite (Hag _ _ Hp). simpl.
  destruct (curr_depth fuel st pr) as [d'|] eqn:Hd; simpl; [|done].
  intros [= <-]. by rewrite (IH pr d' (Hvalid _ _ Hp) Hd).
Qed.

(** X4. The endpoint [create_agent], on an agency that has
    [default_mcp_servers] and whose next id is free, called with a parent
    (the main agent when the request names none) that is registered at
    depth [d]: it answers with the new id, registers the new agent, sets
    its [parent_id] to the parent's id, lists it among the parent's
    children, leaves the parent's depth as it was and puts the new agent
    at depth [d + 1]. *)
Theorem server_create_agent_depth (fuel : nat) (st : State) (nm sp : string)
    (req : option string) (servers : list string) (p : ref) (d : Z)
    (Hservers : default_mcp_servers (agency st) = Some servers)
    (Hvalid : forall k x, dget k (agents (agency st)) = Some x -> (x < length (heap st))%nat)
    (Hfresh : dget (PyStr.str (current_id (agency st))) (agents (agency st)) = None)
    (Hparent : dget (default (id (heap st !!! main_agent (agency st))) (nonempty req))
                 (agents (agency st)) = Some p)
    (Hdepth : curr_depth fuel st p = Ok d) :
  let new_id := PyStr.str (current_id (agency st)) in
  let pid := default (id (heap st !!! main_agent (agency st))) (nonempty req) in
  let st' := snd (server_create_agent st nm sp req) in
  fst (server_create_agent st nm sp req) = Ok new_id /\
  dget new_id (agents (agency st')) = Some (length (heap st)) /\
  parent_id (heap st' !!! length (heap st)) = Some pid /\
  dget new_id (children (heap st' !!! p)) = Some (length (heap st)) /\
  curr_depth fuel st' p = Ok d /\
  curr_depth (S fuel) st' (length (heap st)) = Ok (d + 1).
Proof.
  intros new_id pid st'. subst st'.
  pose proof (Hvalid _ _ Hparent) as Hp.
  rewrite (server_create_agent_linked st nm sp req servers p) by done.
  fold new_id pid. cbn [fst snd heap agency agents set_agents].
  assert (Hpar : dget pid (agents (agency st) ++ [(new_id, length (heap st))]) = Some p)
    by (by apply dget_app_present).
  assert (Hnew : parent_id
            ((alter (fun pa => set_children (dset new_id (length (heap st)) (children pa)) pa)
                p (heap st) ++
              [set_parent_id (Some pid) (endpoint_agent st nm sp servers)])
             !!! length (heap st)) = Some pid).
  { rewrite lookup_total_snoc_at by apply length_alter. done. }
  assert (Hdp : curr_depth fuel
            (mkState
               (alter (fun pa => set_children (dset new_id (length (heap st)) (children pa)) pa)
                  p (heap st) ++
                [set_parent_id (Some pid) (endpoint_agent st nm sp servers)])
               (set_agents (agents (agency st) ++ [(new_id, length (heap st))])
                  (set_current_id (current_id (agency st) + 1) (agency st)))) p = Ok d).
  { apply (curr_depth_mono fuel st); try done.
    - intros k x Hk. by apply dget_app_present.
    - intros x Hx. cbn [heap].
      rewrite lookup_total_app_l by (by rewrite length_alter).
      by apply lookup_total_alter_field. }
  split; [done|]. split.
  { rewrite dget_app_absent by done. simpl. by rewrite String.eqb_refl. }
  split; [done|]. split.
  { rewrite lookup_total_app_l by (by rewrite length_alter).
    rewrite list_lookup_total_alter_eq by done. simpl. apply dget_dset_eq. }
  split; [done|].
  by apply (curr_depth_parent fuel _ _ p pid d).
Qed.

Lemma server_create_agent_depth_witness :
  curr_depth 2 (snd (server_create_agent fresh_agency "worker" "You do the work." None))
    1%nat = Ok 1.
Proof.
  refine (proj2 (proj2 (proj2 (proj2 (proj2
    (server_create_agent_depth 1 fresh_agency "worker" "You do the work." None
       ["mcp_server_playwright"; "mcp_server_python"] 0%nat 0 eq_refl _ eq_refl eq_refl
       eq_refl)))))).
  intros k x Hk. simpl in Hk. destruct (String.eqb k "0"); [|done].
  injection Hk as <-. simpl. lia.
Defined.

(** ** Creating an agent and removing it again *)

(** X5. An agent created through the endpoint [create_agent] under a
    registered parent and removed again with [remove_agent_helper] leaves
    [agency.agents] and every agent object that was there before exactly
    as they were; only [current_id] has moved on by one. *)
Theorem server_create_then_remove (st : State) (nm sp : string) (req : option string)
    (servers : list string) (p : ref)
    (Hservers : default_mcp_servers (agency st) = Some servers)
    (Hfresh : dget (PyStr.str (current_id (agency st))) (agents (agency st)) = None)
    (Hparent : dget (default (id (heap st !!! main_agent (agency st))) (nonempty req))
                 (agents (agency st)) = Some p)
    (Hp : (p < length (heap st))%nat)
    (Hnochild : dget (PyStr.str (current_id (agency st))) (children (heap st !!! p)) = None) :
  let new_id := PyStr.str (current_id (agency st)) in
  let st1 := snd (server_create_agent st nm sp req) in
  exists st2,
    remove_agent_helper st1 new_id = (Ok ("Removed agent with ID: " +:+ new_id), st2) /\
    agents (agency st2) = agents (agency st) /\
    (forall x, (x < length (heap st))%nat -> heap st2 !!! x = heap st !!! x) /\
    current_id (agency st2) = current_id (agency st) + 1.
Proof.
  intros new_id st1. subst st1.
  rewrite (server_create_agent_linked st nm sp req servers p) by done.
  fold new_id. cbn [snd].
  set (pid := default (id (heap st !!! main_agent (agency st))) (nonempty req)) in *.
  set (r := length (heap st)).
  set (fch := fun pa => set_children (dset new_id r (children pa)) pa).
  set (na := set_parent_id (Some pid) (endpoint_agent st nm sp servers)).
  set (g1 := set_agents (agents (agency st) ++ [(new_id, r)])
               (set_current_id (current_id (agency st) + 1) (agency st))).
  assert (Hlen : length (alter fch p (heap st)) = r) by apply length_alter.
  assert (Hatr : (alter fch p (heap st) ++ [na]) !!! r = na)
    by (by apply lookup_total_snoc_at).
  assert (Hatp : (alter fch p (heap st) ++ [na]) !!! p = fch (heap st !!! p)).
  { rewrite lookup_total_app_l by (rewrite Hlen; done).
    by rewrite list_lookup_total_alter_eq. }
  unfold remove_agent_helper. cbn [agency heap].
  assert (Hgnew : dget new_id (agents g1) = Some r).
  { unfold g1. cbn [agents set_agents]. rewrite dget_app_absent by done.
    simpl. by rewrite String.eqb_refl. }
  rewrite Hgnew.
  assert (Hrp : remove_from_parent (mkState (alter fch p (heap st) ++ [na]) g1) new_id r =
                Ok (mkState
                      (alter (fun pa => set_children (ddel new_id (children pa)) pa) p
                         (alter fch p (heap st) ++ [na])) g1)).
  { unfold remove_from_parent, agents_at. cbn [heap agency]. rewrite Hatr.
    cbn [na parent_id set_parent_id].
    unfold g1 at 1. cbn [agents set_agents].
    rewrite (dget_app_present _ _ _ _ Hparent). cbn [bindR].
    rewrite Hatp. unfold dmem, fch. cbn [children set_children].
    by rewrite dget_dset_eq. }
  rewrite Hrp. cbn [heap].
  set (h2 := alter (fun pa => set_children (ddel new_id (children pa)) pa) p
               (alter fch p (heap st) ++ [na])).
  assert (Hh2r : h2 !!! r = na).
  { unfold h2. rewrite list_lookup_total_alter_ne by (unfold r; lia). done. }
  rewrite Hh2r. cbn [na children set_parent_id endpoint_agent Agent_init dkeys map
                     orphan_children].
  eexists. split; [reflexivity|]. cbn [agency heap agents set_agents current_id].
  split.
  { unfold g1. cbn [agents set_agents]. by apply ddel_app_absent. }
  split; [|done].
  intros x Hx. unfold h2. rewrite list_lookup_total_alter.
  case_decide as Hd.
  - destruct Hd as [-> _]. rewrite Hatp. unfold fch. cbn [children set_children].
    rewrite ddel_dset_absent by done.
    destruct (heap st !!! x); reflexivity.
  - rewrite lookup_total_app_l by (rewrite Hlen; done).
    rewrite list_lookup_total_alter_ne; [done|].
    intros ->. apply Hd. split; [done|]. rewrite length_app, Hlen. simpl. unfold r. lia.
Qed.

Lemma server_create_then_remove_witness :
  exists st2,
    remove_agent_helper
      (snd (server_create_agent fresh_agency "worker" "You do the work." None)) "1"
      = (Ok "Removed agent with ID: 1", st2) /\
    agents (agency st2) = [("0", 0%nat)].
Proof.
  destruct (server_create_then_remove fresh_agency "worker" "You do the work." None
              ["mcp_server_playwright"; "mcp_server_python"] 0%nat
              eq_refl eq_refl eq_refl ltac:(simpl; lia) eq_refl)
    as (st2 & Hrun & Hag & _).
  exists st2. split; [exact Hrun|exact Hag].
Defined.

(** The loop over the children raises when it meets an id that is not in
    [agency.agents]. *)
Lemma orphan_children_missing (cs : list string) (st : State) (c : string) :
  c ∈ cs -> dget c (agents (agency st)) = None ->
  exists k, fst (orphan_children cs st) = Raise (KeyError k).
Proof.
  revert st. induction cs as [|c0 cs IH]; intros [h g] Hin Hc; simpl in *.
  - by apply elem_of_nil in Hin.
  - destruct (dget c0 (agents g)) as [cr|] eqn:Hcr; simpl; [|by eexists].
    rewrite (dset_same _ _ _ Hcr), set_agents_same.
    apply IH; [|done].
    apply elem_of_cons in Hin as [->|?]; [congruence|done].
Qed.

(** X6. An agent created with [create_new_agent_helper] under a
    registered parent and removed again with [remove_agent_helper] is gone
    from [agency.agents] but stays among its creator's [children], so the
    creator's breadth stays one higher than before; when the creator has no
    [parent_id], removing the creator afterwards raises [KeyError]. *)
Theorem tool_create_then_remove (st : State) (nm sp pid : string) (p : ref)
    (Hfresh : dget (PyStr.str (current_id (agency st))) (agents (agency st)) = None)
    (Hparent : dget pid (agents (agency st)) = Some p)
    (Hp : (p < length (heap st))%nat)
    (Hnochild : dget (PyStr.str (current_id (agency st))) (children (heap st !!! p)) = None) :
  let new_id := PyStr.str (current_id (agency st)) in
  let st1 := snd (create_new_agent_helper st nm sp pid) in
  exists st2,
    remove_agent_helper st1 new_id = (Ok ("Removed agent with ID: " +:+ new_id), st2) /\
    agents (agency st2) = agents (agency st) /\
    dget new_id (agents (agency st2)) = None /\
    dget new_id (children (heap st2 !!! p)) = Some (length (heap st)) /\
    curr_breadth st2 p = curr_breadth st p + 1 /\
    (parent_id (heap st !!! p) = None ->
     exists k, fst (remove_agent_helper st2 pid) = Raise (KeyError k)).
Proof.
  intros new_id st1. subst st1.
  rewrite (create_new_agent_helper_linked st nm sp pid p) by done.
  fold new_id. cbn [snd].
  set (r := length (heap st)).
  set (fch := fun pa => set_children (dset new_id r (children pa)) pa).
  set (na := set_parent (Some pid) (helper_agent st nm sp)).
  set (g1 := set_agents (agents (agency st) ++ [(new_id, r)])
               (set_current_id (current_id (agency st) + 1) (agency st))).
  assert (Hlen : length (alter fch p (heap st)) = r) by apply length_alter.
  assert (Hatr : (alter fch p (heap st) ++ [na]) !!! r = na)
    by (by apply lookup_total_snoc_at).
  assert (Hatp : (alter fch p (heap st) ++ [na]) !!! p = fch (heap st !!! p)).
  { rewrite lookup_total_app_l by (rewrite Hlen; done).
    by rewrite list_lookup_total_alter_eq. }
  unfold remove_agent_helper at 1. cbn [agency heap].
  assert (Hgnew : dget new_id (agents g1) = Some r).
  { unfold g1. cbn [agents set_agents]. rewrite dget_app_absent by done.
    simpl. by rewrite String.eqb_refl. }
  rewrite Hgnew. unfold remove_from_parent. cbn [heap]. rewrite Hatr.
  assert (Hpn : parent_id na = None) by done.
  assert (Hcn : children na = []) by done.
  rewrite Hpn. cbn [heap]. rewrite Hatr, Hcn. cbn [dkeys map orphan_children].
  eexists. split; [reflexivity|]. cbn [agency heap agents set_agents].
  assert (Hag : ddel new_id (agents g1) = agents (agency st)).
  { unfold g1. cbn [agents set_agents]. by apply ddel_app_absent. }
  rewrite Hag. split; [done|]. split; [done|].
  assert (Hch : children ((alter fch p (heap st) ++ [na]) !!! p) =
                dset new_id r (children (heap st !!! p))) by (by rewrite Hatp).
  split; [rewrite Hch; apply dget_dset_eq|]. split.
  { unfold curr_breadth. cbn [heap]. rewrite Hch. by apply dlen_dset_absent. }
  intros Hroot. unfold remove_agent_helper. cbn [agency heap agents set_agents].
  rewrite Hparent. unfold remove_from_parent. cbn [heap].
  assert (Hpp : parent_id ((alter fch p (heap st) ++ [na]) !!! p) = None)
    by (by rewrite Hatp).
  rewrite Hpp.
  match goal with
  | |- context [orphan_children ?cs ?s] =>
      destruct (orphan_children_missing cs s new_id) as [k Hk]
  end.
  { cbn [heap]. rewrite Hch. apply dget_Some_keys. rewrite dget_dset_eq. eauto. }
  { done. }
  exists k. destruct (orphan_children _ _) as [[u|e] s2]; simpl in *; [done|].
  by injection Hk as ->.
Qed.

Lemma tool_create_then_remove_witness :
  exists st2,
    remove_agent_helper agency_with_worker "1" = (Ok "Removed agent with ID: 1", st2) /\
    curr_breadth st2 0%nat = 1 /\
    exists k, fst (remove_agent_helper st2 "0") = Raise (KeyError k).
Proof.
  destruct (tool_create_then_remove fresh_agency "worker" "You do the work." "0" 0%nat
              eq_refl eq_refl ltac:(simpl; lia) eq_refl)
    as (st2 & Hrun & _ & _ & _ & Hb & Hk).
  exists st2. split; [exact Hrun|]. split; [exact Hb|]. exact (Hk eq_refl).
Defined.

(** ** The endpoint on a loaded agency *)

(** X7. On an agency built from a saved state, which never gets the
    attribute [default_mcp_servers], the endpoint [create_agent] raises
    [AttributeError]: no agent is created, [agency.agents] is as before,
    and the id taken from [next_id] is used up. *)
Theorem server_create_agent_after_load (state : AgencyState.t) (tools : list string)
    (ws : option string) (uuid_ws : string) (st : State) (out : list string)
    (nm sp : string) (req : option string)
    (Hload : Agency_init_from_state state tools ws uuid_ws = Ok (st, out)) :
  server_create_agent st nm sp req =
    (Raise (AttributeError "default_mcp_servers"),
     mkState (heap st) (set_current_id (current_id (agency st) + 1) (agency st))) /\
  agents (agency (snd (server_create_agent st nm sp req))) = agents (agency st).
Proof.
  assert (Hs : default_mcp_servers (agency st) = None).
  { unfold Agency_init_from_state in Hload.
    destruct (l_main _); [|done].
    destruct (rebuild _ _ _ _) as [[h o]|]; simpl in Hload; [|done].
    by injection Hload as <- <-. }
  by rewrite server_create_agent_no_servers.
Qed.

Lemma server_create_agent_after_load_witness :
  fst (server_create_agent team_agency "worker" "You do the work." None) =
    Raise (AttributeError "default_mcp_servers").
Proof.
  assert (Hload : Agency_init_from_state team_snapshot all_tools None "workspace_0"
                  = Ok (team_agency, [])) by (vm_compute; reflexivity).
  destruct (server_create_agent_after_load team_snapshot all_tools None "workspace_0"
              team_agency [] "worker" "You do the work." None Hload) as [Hrun _].
  by rewrite Hrun.
Defined.

(** ** Agents made by [create_new_agent_helper] and the gates *)

Lemma create_new_agent_helper_registered (st : State) (nm sp pid : string) :
  let st' := snd (create_new_agent_helper st nm sp pid) in
  dget (PyStr.str (current_id (agency st))) (agents (agency st')) = Some (length (heap st)) /\
  accessible_tools (heap st' !!! length (heap st)) = ToolsList.
Proof.
  intros st'. subst st'. rewrite create_new_agent_helper_agency.
  split; [apply dget_dset_eq|].
  rewrite (create_new_agent_helper_field accessible_tools) by done.
  by rewrite lookup_total_snoc.
Qed.

(** X8. For the agent that [create_new_agent_helper] has just made, in
    any agency, every [prepare_*] function raises [AttributeError]: its
    [accessible_tools] is the list [[]], which has no [get]. *)
Theorem tool_created_agent_fails_every_gate (st : State) (nm sp pid : string)
    (fuel : nat) (tool_def : ToolDefinition) :
  let st' := snd (create_new_agent_helper st nm sp pid) in
  let new_id := PyStr.str (current_id (agency st)) in
  prepare_create_new_agent_tool (S fuel) st' new_id tool_def = Raise (AttributeError "get") /\
  prepare_message_agent_tool st' new_id tool_def = Raise (AttributeError "get") /\
  prepare_call_meeting_tool st' new_id tool_def = Raise (AttributeError "get") /\
  prepare_get_file_content_tool st' new_id tool_def = Raise (AttributeError "get").
Proof.
  intros st' new_id.
  destruct (create_new_agent_helper_registered st nm sp pid) as [Hg Ht].
  destruct (create_new_agent_helper_parent_id st nm sp pid) as (_ & _ & Hd).
  fold st' new_id in Hg, Ht, Hd.
  unfold prepare_create_new_agent_tool, prepare_message_agent_tool,
    prepare_call_meeting_tool, prepare_get_file_content_tool, agents_at.
  rewrite Hg. cbn [bindR]. rewrite Hd, Ht. done.
Qed.

(** ** The gate and the creation that follows it *)

(** X9. When [prepare_create_new_agent_tool] offers the tool to a
    registered agent and the agent then calls [create_new_agent], the
    agent had fewer than [max_breadth] children before the call and has at
    most [max_breadth] after it. *)
Theorem gate_then_create_keeps_breadth (fuel : nat) (st : State)
    (agent_id nm sp : string) (tool_def offered : ToolDefinition) (r : ref)
    (Hagent : dget agent_id (agents (agency st)) = Some r)
    (Hr : (r < length (heap st))%nat)
    (Hgate : prepare_create_new_agent_tool fuel st agent_id tool_def = Ok (Some offered)) :
  let st' := snd (create_new_agent st agent_id nm sp) in
  curr_breadth st r < max_breadth (agency st) /\
  curr_breadth st' r <= max_breadth (agency st') /\
  max_breadth (agency st') = max_breadth (agency st).
Proof.
  intros st'.
  assert (Hb : curr_breadth st r < max_breadth (agency st)).
  { unfold prepare_create_new_agent_tool, agents_at in Hgate. rewrite Hagent in Hgate.
    cbn [bindR] in Hgate.
    destruct (curr_depth fuel st r) as [d|]; cbn [bindR] in Hgate; [|done].
    destruct (accessible _ _) as [ok|]; cbn [bindR] in Hgate; [|done].
    destruct (negb ok); [done|].
    destruct (d >=? max_depth (agency st)); [done|].
    destruct (curr_breadth st r >=? max_breadth (agency st)) eqn:Hc; [done|]. lia. }
  split; [done|]. split; [|done].
  subst st'. unfold create_new_agent, create_new_agent_helper, next_id, alloc, curr_breadth.
  cbn [snd fst heap agency agents set_agents set_current_id default_provider current_id
       max_breadth].
  set (new_id := PyStr.str (current_id (agency st))).
  set (na := Agent_init nm new_id _ sp all_tools ToolsList []).
  unfold curr_breadth in Hb.
  destruct (decide (new_id = agent_id)) as [Heq|Hne].
  - rewrite <- Heq, dget_dset_eq.
    rewrite list_lookup_total_alter_ne by lia.
    rewrite list_lookup_total_alter_ne by lia.
    rewrite lookup_total_app_l by done. lia.
  - rewrite dget_dset_ne, Hagent by done.
    rewrite list_lookup_total_alter_eq
      by (rewrite length_alter, length_app; simpl; lia).
    cbn [children set_children].
    rewrite list_lookup_total_alter_ne by lia.
    rewrite lookup_total_app_l by done.
    pose proof (dlen_dset_le new_id (length (heap st)) (children (heap st !!! r))). lia.
Qed.

Lemma gate_then_create_keeps_breadth_witness :
  curr_breadth (snd (create_new_agent agency_with_two_workers "0" "critic" "You review."))
    0%nat <= 3.
Proof.
  refine (proj1 (proj2 (gate_then_create_keeps_breadth 1000 agency_with_two_workers "0"
            "critic" "You review." create_tool_def create_tool_def 0%nat eq_refl _ _))).
  - simpl. lia.
  - vm_compute. reflexivity.
Defined.

(** ** An agent that is its own parent *)

(** X10. The endpoint [create_agent] accepts the id that it is about to
    hand out as the parent id: the new agent becomes its own parent and its
    own child, and from then on [curr_depth] of this agent, and with it the
    gate [prepare_create_new_agent_tool], ends in [RecursionError]
    whatever the recursion limit is. *)
Theorem server_create_agent_own_parent (st : State) (nm sp : string)
    (servers : list string)
    (Hservers : default_mcp_servers (agency st) = Some servers) :
  let new_id := PyStr.str (current_id (agency st)) in
  let st' := snd (server_create_agent st nm sp (Some new_id)) in
  fst (server_create_agent st nm sp (Some new_id)) = Ok new_id /\
  dget new_id (agents (agency st')) = Some (length (heap st)) /\
  parent_id (heap st' !!! length (heap st)) = Some new_id /\
  dget new_id (children (heap st' !!! length (heap st))) = Some (length (heap st)) /\
  (forall fuel, curr_depth fuel st' (length (heap st)) = Raise RecursionError) /\
  (forall fuel tool_def,
     prepare_create_new_agent_tool fuel st' new_id tool_def = Raise RecursionError).
Proof.
  intros new_id st'.
  assert (Hne : nonempty (Some new_id) = Some new_id).
  { pose proof (str_nonempty (current_id (agency st))) as Hn. fold new_id in Hn.
    by destruct new_id. }
  assert (Hrun : server_create_agent st nm sp (Some new_id) =
            (Ok new_id,
             mkState
               (alter (fun pa => set_children
                                   (dset new_id (length (heap st)) (children pa)) pa)
                  (length (heap st))
                  (alter (set_parent_id (Some new_id)) (length (heap st))
                     (heap st ++ [endpoint_agent st nm sp servers])))
               (set_agents (dset new_id (length (heap st)) (agents (agency st)))
                  (set_current_id (current_id (agency st) + 1) (agency st))))).
  { unfold server_create_agent, next_id, alloc.
    cbn [snd fst heap agency agents set_agents set_current_id default_provider current_id
         default_mcp_servers].
    rewrite Hservers, Hne. cbn [default]. fold new_id. by rewrite dget_dset_eq. }
  subst st'. rewrite Hrun. cbn [fst snd heap agency agents set_agents].
  rewrite list_alter_alter_eq, (alter_middle _ (heap st) []), lookup_total_snoc.
  cbn [compose parent_id children set_children set_parent_id endpoint_agent Agent_init].
  split; [done|]. split; [apply dget_dset_eq|]. split; [done|].
  split; [apply dget_dset_eq|].
  assert (Hd : forall fuel,
            curr_depth fuel
              (mkState
                 (heap st ++
                  [set_children (dset new_id (length (heap st)) [])
                     (set_parent_id (Some new_id) (endpoint_agent st nm sp servers))])
                 (set_agents (dset new_id (length (heap st)) (agents (agency st)))
                    (set_current_id (current_id (agency st) + 1) (agency st))))
              (length (heap st)) = Raise RecursionError).
  { induction fuel as [|fuel IH]; [done|].
    cbn [curr_depth heap]. rewrite lookup_total_snoc.
    cbn [parent_id set_children set_parent_id].
    unfold agents_at. cbn [agency agents set_agents]. rewrite dget_dset_eq.
    cbn [bindR]. by rewrite IH. }
  split; [exact Hd|].
  intros fuel tool_def. unfold prepare_create_new_agent_tool, agents_at.
  cbn [agency agents set_agents]. rewrite dget_dset_eq. cbn [bindR].
  by rewrite Hd.
Qed.

Lemma server_create_agent_own_parent_witness :
  curr_depth 1000
    (snd (server_create_agent fresh_agency "worker" "You do the work." (Some "1")))
    1%nat = Raise RecursionError.
Proof.
  exact (proj1 (proj2 (proj2 (proj2 (proj2
           (server_create_agent_own_parent fresh_agency "worker" "You do the work."
              ["mcp_server_playwright"; "mcp_server_python"] eq_refl))))) 1000%nat).
Defined.

(** ** Saving after a creation by the tool *)

Lemma mapR_raise {A B} (f : A -> PyResult B) (l : list A) (x : A) (e : exn) :
  x ∈ l -> f x = Raise e ->
  (forall y e', f y = Raise e' -> e' = e) ->
  mapR f l = Raise e.
Proof.
  intros Hin Hx Hall. induction l as [|y l IH]; [by apply elem_of_nil in Hin|].
  simpl. destruct (f y) as [b|e'] eqn:Hy; simpl.
  - apply elem_of_cons in Hin as [->|Hin]; [congruence|].
    by rewrite IH.
  - f_equal. by apply (Hall y).
Qed.

(** X11. Once [create_new_agent_helper] has made an agent,
    [Agency.save_state] raises the validation error of [AgentState]: the
    new agent's [accessible_tools] is a list where the record wants a
    dictionary. *)
Theorem save_state_fails_after_tool_create (st : State) (nm sp pid : string) :
  Agency_save_state (snd (create_new_agent_helper st nm sp pid)) =
    Raise (ValidationError "accessible_tools").
Proof.
  destruct (create_new_agent_helper_registered st nm sp pid) as [Hg Ht].
  cbv zeta in Hg, Ht.
  unfold Agency_save_state.
  rewrite (mapR_raise _ _ (length (heap st)) (ValidationError "accessible_tools")); [done| | |].
  - apply dget_Some_elem in Hg. unfold dvalues.
    apply list_elem_of_In, in_map_iff. exists (PyStr.str (current_id (agency st)), length (heap st)).
    split; [done|]. by apply list_elem_of_In.
  - unfold Agent_save_state. by rewrite Ht.
  - intros y e'. unfold Agent_save_state.
    destruct (accessible_tools (heap _ !!! y)); [done|]. congruence.
Qed.

(** ** Meetings: the budget of turns *)

Section BudgetFacts.
Variable backend : Backend.
Variables temp_host_id host_id : string.
Variable participants : list ref.

Local Abbreviation turn_of := (take_turn backend temp_host_id host_id participants).
Local Abbreviation round_of := (run_round backend temp_host_id host_id participants).
Local Abbreviation rounds_of := (run_rounds backend temp_host_id host_id participants).

Lemma take_turn_break (agent : ref) (m : Meeting) :
  snd (turn_of agent m) = true -> all_done participants (fst (turn_of agent m)) = true.
Proof.
  unfold take_turn. destruct (backend _ _ _); simpl; [done|discriminate].
Qed.

(** A round either gives every participant its turn or ends with everybody
    done. *)
Lemma run_round_full_or_done (ps : list ref) (m : Meeting) :
  turn (round_of ps m) = turn m + Z.of_nat (length ps) \/
  all_done participants (round_of ps m) = true.
Proof.
  revert m. induction ps as [|p ps IH]; intros m.
  - left. simpl. lia.
  - rewrite run_round_cons.
    destruct (take_turn_effect backend temp_host_id host_id participants p m)
      as (Ht & _).
    pose proof (take_turn_break p m) as Hb.
    destruct (turn_of p m) as [m' brk]. simpl in Ht, Hb.
    destruct brk; [right; by apply Hb|].
    destruct (IH m') as [Hfull|Hdone]; [left|by right].
    rewrite Hfull, Ht. simpl length. lia.
Qed.

Lemma run_rounds_done (max_rounds : Z) (n : nat) (m : Meeting) :
  all_done participants m = true -> rounds_of max_rounds n m = m.
Proof. intros Hd. destruct n; [done|]. rewrite run_rounds_S. by rewrite Hd. Qed.

(** The rounds stop as soon as [turn] has reached [max_rounds], which is
    tested after a round only. *)
Lemma run_rounds_budget (max_rounds : Z) (n : nat) (m : Meeting) :
  turn m < max_rounds ->
  let mf := rounds_of max_rounds n m in
  turn mf < max_rounds + Z.of_nat (length participants) /\
  (rounds mf = rounds m \/
   exists j : nat,
     rounds mf = (rounds m + 1 + j)%nat /\
     Z.of_nat j * Z.of_nat (length participants) + turn m < max_rounds).
Proof.
  revert m. induction n as [|n IH]; intros m Hm; cbv zeta.
  - simpl. split; [lia|by left].
  - rewrite run_rounds_S. destruct (all_done participants m); [split; [lia|by left]|].
    set (mb := mkMeeting (m_heap m) (agents_done m) (discussion_log m) (turn m)
                 (S (rounds m))).
    cbv zeta.
    destruct (run_round_effect backend temp_host_id host_id participants participants mb)
      as (added & _ & Ht1 & Hlen1 & Hr1 & _).
    pose proof (run_round_full_or_done participants mb) as Hfd.
    simpl in Ht1, Hr1, Hfd.
    destruct (turn (round_of participants mb) >=? max_rounds) eqn:Hge.
    + split; [lia|]. right. exists 0%nat. rewrite Hr1. split; lia.
    + destruct Hfd as [Hfull|Hdone].
      * destruct (IH (round_of participants mb)) as [Hb Hr]; [lia|].
        split; [done|]. right. destruct Hr as [Hr|(j & Hr & Hj)].
        -- exists 0%nat. rewrite Hr, Hr1. split; lia.
        -- exists (S j). rewrite Hr, Hr1. split; [lia|].
           rewrite Hfull in Hj. lia.
      * rewrite run_rounds_done by done.
        split; [lia|]. right. exists 0%nat. rewrite Hr1. split; lia.
Qed.

End BudgetFacts.

(** X12. The rounds of a meeting with [n] participants (the temporary host
    and the children) take at most [max(0, max_turns) * n] turns and fewer
    than [15 + n], in at most [max(0, max_turns)] rounds; the log holds the
    entry of the set-up and one entry for each turn; with
    [max_turns <= 0] no turn is taken. *)
Theorem meeting_turn_budget (backend : Backend) (st : State) (host_id : string)
    (host : ref) (cs : list ref) (prompt objective : string) (max_turns : Z) :
  let s := meeting_setup st host_id host cs prompt objective in
  let mf := meeting_rounds backend host_id max_turns s in
  let n := Z.of_nat (S (length cs)) in
  0 <= turn mf /\
  turn mf <= Z.max 0 max_turns * n /\
  turn mf < 15 + n /\
  Z.of_nat (rounds mf) <= Z.max 0 max_turns /\
  length (discussion_log mf) = S (Z.to_nat (turn mf)) /\
  (max_turns <= 0 -> turn mf = 0 /\ discussion_log mf = s_discussion_log s).
Proof.
  intros s mf n.
  destruct (meeting_setup_parts st host_id host cs prompt objective)
    as (_ & _ & _ & Hps & _ & _ & Hlog & _).
  fold s in Hps, Hlog.
  assert (Hn : Z.of_nat (length (s_participants s)) = n) by (by rewrite Hps).
  subst mf. unfold meeting_rounds. rewrite Hn.
  set (max_rounds := Z.min (max_turns * n) 15).
  set (m0 := mkMeeting (heap (s_state s)) [] (s_discussion_log s) 0 0).
  destruct (run_rounds_effect backend (s_temp_host_id s) host_id (s_participants s)
              max_rounds (Z.to_nat max_rounds) m0)
    as (added & Hl & Ht & Hr & Hlen & _).
  cbv zeta in Hl, Ht, Hr, Hlen. simpl in Hl, Ht, Hr, Hlen.
  assert (Hnpos : 0 < n) by (unfold n; lia).
  destruct (decide (0 < max_rounds)) as [Hpos|Hneg].
  - destruct (run_rounds_budget backend (s_temp_host_id s) host_id (s_participants s)
                max_rounds (Z.to_nat max_rounds) m0) as [Hb Hj]; [simpl; lia|].
    cbv zeta in Hb, Hj. simpl in Hb, Hj. rewrite Hn in Hb, Hj.
    assert (Hmt : 0 < max_turns) by (unfold max_rounds in Hpos; nia).
    assert (Hrounds : Z.of_nat (rounds (run_rounds backend (s_temp_host_id s) host_id
                                          (s_participants s) max_rounds
                                          (Z.to_nat max_rounds) m0)) <= max_turns).
    { destruct Hj as [->|(j & -> & Hj)]; [lia|].
      assert (Z.of_nat j * n < max_turns * n) by (unfold max_rounds in Hj; lia).
      assert (Z.of_nat j < max_turns) by nia. lia. }
    split; [lia|]. split.
    { assert (Hle : Z.of_nat (length added) <=
                    Z.of_nat (rounds (run_rounds backend (s_temp_host_id s) host_id
                                        (s_participants s) max_rounds
                                        (Z.to_nat max_rounds) m0)) * n).
      { rewrite <- Hn. rewrite Nat.sub_0_r in Hlen. nia. }
      rewrite Ht. replace (Z.max 0 max_turns) with max_turns by lia. nia. }
    assert (Hcap : max_rounds <= 15) by (unfold max_rounds; lia).
    split; [lia|]. split; [lia|].
    split; [rewrite Hl, Hlog, Ht; simpl; lia|]. lia.
  - replace (Z.to_nat max_rounds) with 0%nat by lia. simpl.
    assert (Hmt : max_turns <= 0) by (unfold max_rounds in Hneg; nia).
    split; [lia|]. split; [nia|]. split; [lia|]. split; [lia|].
    split; [by rewrite Hlog|]. done.
Qed.

(** ** Meetings: the agents that do not take part *)

Lemma broadcast_other (ps : list ref) (sid c : string) (h : list Agent) (r : ref) :
  r ∉ ps -> broadcast ps sid c h !!! r = h !!! r.
Proof.
  unfold broadcast. revert h. induction ps as [|p ps IH]; intros h Hr; simpl; [done|].
  rewrite not_elem_of_cons in Hr. destruct Hr as [Hr1 Hr2].
  rewrite IH by done. destruct (String.eqb _ sid); [done|].
  by rewrite list_lookup_total_alter_ne.
Qed.

Lemma append_to_all_other (rs : list ref) (msg : ModelMessage) (h : list Agent) (r : ref) :
  r ∉ rs -> append_to_all rs msg h !!! r = h !!! r.
Proof.
  unfold append_to_all. revert h. induction rs as [|x rs IH]; intros h Hr; simpl; [done|].
  rewrite not_elem_of_cons in Hr. destruct Hr as [Hr1 Hr2].
  rewrite IH by done. by rewrite list_lookup_total_alter_ne.
Qed.

Lemma stash_tools_other (cs : list ref) (h : list Agent) (r : ref) :
  r ∉ cs -> snd (stash_tools cs h) !!! r = h !!! r.
Proof.
  unfold stash_tools.
  change h with (snd (@nil (string * tools_value), h)) at 2.
  generalize (@nil (string * tools_value), h). clear h.
  induction cs as [|c cs IH]; intros [orig h] Hr; simpl; [done|].
  rewrite not_elem_of_cons in Hr. destruct Hr as [Hr1 Hr2].
  rewrite IH by done. simpl. by rewrite list_lookup_total_alter_ne.
Qed.

Lemma meeting_setup_other (st : State) (host_id : string) (host : ref)
    (cs : list ref) (prompt objective : string) (r : ref) :
  (r < length (heap st))%nat -> r ∉ cs ->
  heap (s_state (meeting_setup st host_id host cs prompt objective)) !!! r = heap st !!! r.
Proof.
  intros Hr Hcs. unfold meeting_setup, alloc.
  match goal with
  | |- context [stash_tools cs ?h] =>
      pose proof (stash_tools_other cs h r Hcs) as Hs;
      destruct (stash_tools cs h) as [orig h3]
  end.
  simpl in *.
  rewrite list_lookup_total_alter_ne by lia.
  rewrite !append_to_all_other by done.
  rewrite list_lookup_total_alter_ne by lia.
  rewrite Hs.
  rewrite !list_lookup_total_alter_ne by lia.
  by rewrite lookup_total_app_l.
Qed.

Section OtherAgents.
Variable backend : Backend.
Variables temp_host_id host_id : string.
Variable participants : list ref.

Lemma take_turn_other (agent : ref) (m : Meeting) (r : ref) :
  r <> agent -> r ∉ participants ->
  m_heap (fst (take_turn backend temp_host_id host_id participants agent m)) !!! r =
  m_heap m !!! r.
Proof.
  intros Hne Hr. unfold take_turn. destruct (backend _ _ _); simpl; [|done].
  rewrite broadcast_other by done. by rewrite list_lookup_total_alter_ne.
Qed.

Lemma run_round_other (ps : list ref) (m : Meeting) (r : ref) :
  r ∉ ps -> r ∉ participants ->
  m_heap (run_round backend temp_host_id host_id participants ps m) !!! r = m_heap m !!! r.
Proof.
  revert m. induction ps as [|p ps IH]; intros m Hps Hr; [done|].
  rewrite not_elem_of_cons in Hps. destruct Hps as [Hp Hps].
  rewrite run_round_cons.
  pose proof (take_turn_other p m r Hp Hr) as Ht.
  destruct (take_turn backend temp_host_id host_id participants p m) as [m' brk].
  simpl in Ht. destruct brk; [done|]. by rewrite IH.
Qed.

Lemma run_rounds_other (max_rounds : Z) (n : nat) (m : Meeting) (r : ref) :
  r ∉ participants ->
  m_heap (run_rounds backend temp_host_id host_id participants max_rounds n m) !!! r =
  m_heap m !!! r.
Proof.
  intros Hr. revert m. induction n as [|n IH]; intros m; [done|].
  rewrite run_rounds_S. destruct (all_done participants m); [done|]. cbv zeta.
  destruct (_ >=? max_rounds); [|rewrite IH]; by rewrite run_round_other.
Qed.

(** The rounds only ever append to a history. *)
Lemma run_round_history (ps : list ref) (m : Meeting) (o : ref) :
  exists mid,
    message_history (m_heap (run_round backend temp_host_id host_id participants ps m) !!! o)
    = message_history (m_heap m !!! o) ++ mid.
Proof.
  revert m. induction ps as [|p ps IH]; intros m.
  - exists []. by rewrite app_nil_r.
  - rewrite run_round_cons.
    destruct (take_turn_histories backend temp_host_id host_id participants p m)
      as (text & _ & Hh).
    destruct (Hh o) as (own & k & Ho).
    destruct (take_turn backend temp_host_id host_id participants p m) as [m' brk].
    simpl in Ho. destruct brk; [by eexists|].
    destruct (IH m') as [mid Hmid]. rewrite Hmid, Ho, <- app_assoc. by eexists.
Qed.

Lemma run_rounds_history (max_rounds : Z) (n : nat) (m : Meeting) (o : ref) :
  exists mid,
    message_history
      (m_heap (run_rounds backend temp_host_id host_id participants max_rounds n m) !!! o)
    = message_history (m_heap m !!! o) ++ mid.
Proof.
  revert m. induction n as [|n IH]; intros m.
  - exists []. by rewrite app_nil_r.
  - rewrite run_rounds_S. destruct (all_done participants m).
    { exists []. by rewrite app_nil_r. }
    cbv zeta.
    set (mb := mkMeeting (m_heap m) (agents_done m) (discussion_log m) (turn m)
                 (S (rounds m))).
    destruct (run_round_history participants mb o) as [mid1 H1]. simpl in H1.
    destruct (_ >=? max_rounds); [by eexists|].
    destruct (IH (run_round backend temp_host_id host_id participants participants mb))
      as [mid2 H2].
    rewrite H2, H1, <- app_assoc. by eexists.
Qed.

End OtherAgents.

Lemma append_to_all_history (rs : list ref) (msg : ModelMessage) (h : list Agent) (r : ref) :
  NoDup rs -> r ∈ rs -> (r < length h)%nat ->
  message_history (append_to_all rs msg h !!! r) = message_history (h !!! r) ++ [msg].
Proof.
  unfold append_to_all. revert h.
  induction rs as [|x rs IH]; intros h Hnd Hin Hlt; [by apply elem_of_nil in Hin|].
  apply NoDup_cons in Hnd as [Hx Hnd]. simpl.
  apply elem_of_cons in Hin as [->|Hin].
  - fold (append_to_all rs msg (alter (extend_history [msg]) x h)).
    rewrite append_to_all_other by done.
    by rewrite list_lookup_total_alter_eq.
  - rewrite IH by (by rewrite ?length_alter).
    rewrite list_lookup_total_alter_ne; [done|]. by intros ->.
Qed.

Lemma NoDup_map_inv {A B} (f : A -> B) (l : list A) : NoDup (map f l) -> NoDup l.
Proof.
  induction l as [|x l IH]; simpl; intros Hnd; [apply NoDup_nil_2|].
  apply NoDup_cons in Hnd as [Hx Hnd]. apply NoDup_cons. split; [|by apply IH].
  intros Hin. apply Hx. apply list_elem_of_In, in_map. by apply list_elem_of_In.
Qed.

(** The children of a host whose [children] are stored under their own ids:
    distinct, allocated objects. *)
Lemma children_refs (st : State) (host : ref) :
  children_keyed_by_id st host ->
  let cs := dvalues (children (heap st !!! host)) in
  NoDup cs /\ forall c, c ∈ cs -> (c < length (heap st))%nat.
Proof.
  intros [Hnd Hkeyed] cs. split.
  - apply (NoDup_map_inv (fun r => id (heap st !!! r))).
    replace (map (fun r => id (heap st !!! r)) cs) with (dkeys (children (heap st !!! host)));
      [done|].
    unfold cs, dvalues, dkeys. rewrite map_map. apply map_ext_in.
    intros [k r] Hin. apply list_elem_of_In in Hin. simpl.
    by destruct (Hkeyed k r Hin).
  - intros c Hc. apply elem_of_dvalues in Hc as [k Hk]. by destruct (Hkeyed k c Hk).
Qed.

(** With a host that has children, [call_meeting] holds the meeting. *)
Lemma call_meeting_held (backend : Backend) (st : State) (host_id : string) (host : ref)
    (ctx_prompt : option string) (objective : string) (max_turns : Z) :
  dget host_id (agents (agency st)) = Some host ->
  children (heap st !!! host) <> [] ->
  call_meeting backend st host_id ctx_prompt objective max_turns =
  let s := meeting_setup st host_id host (dvalues (children (heap st !!! host)))
             (default "Meeting called" (nonempty ctx_prompt)) objective in
  Ok (meeting_finish s (meeting_rounds backend host_id max_turns s)).
Proof.
  intros Hhost Hch. unfold call_meeting, agents_at. rewrite Hhost. cbn [bindR].
  destruct (children (heap st !!! host)) as [|[k c] ch]; [done|]. reflexivity.
Qed.

(** X13. A meeting called by a registered host that has children, in an
    agency where the temporary id [host_id + "_temp"] is free, returns and
    leaves the agency record (the registry of agents, the counter, the
    limits) and every agent object that is not one of the host's children
    exactly as they were: the host itself too. *)
Theorem meeting_leaves_other_agents_alone
    (backend : Backend) (st : State) (host_id : string) (host : ref)
    (ctx_prompt : option string) (objective : string) (max_turns : Z)
    (Hhost : dget host_id (agents (agency st)) = Some host)
    (Hchildren : children (heap st !!! host) <> [])
    (Htemp : dget (host_id +:+ "_temp") (agents (agency st)) = None) :
  let cs := dvalues (children (heap st !!! host)) in
  exists summary st',
    call_meeting backend st host_id ctx_prompt objective max_turns = Ok (summary, st') /\
    agency st' = agency st /\
    forall r, (r < length (heap st))%nat -> r ∉ cs -> heap st' !!! r = heap st !!! r.
Proof.
  intros cs.
  set (prompt := default "Meeting called" (nonempty ctx_prompt)).
  set (s := meeting_setup st host_id host cs prompt objective).
  set (m := meeting_rounds backend host_id max_turns s).
  exists (fst (meeting_finish s m)), (snd (meeting_finish s m)). split.
  { rewrite (call_meeting_held backend st host_id host) by done.
    cbv zeta. by rewrite <- surjective_pairing. }
  split.
  { unfold s. rewrite meeting_finish_agency.
    rewrite ddel_dset_absent by done. apply set_agents_same. }
  intros r Hr Hcs.
  destruct (meeting_setup_parts st host_id host cs prompt objective)
    as (_ & _ & Hsc & Hps & _).
  fold s in Hsc, Hps.
  unfold meeting_finish. cbn [snd heap]. rewrite Hsc.
  rewrite append_to_all_other, restore_tools_other by done.
  unfold m, meeting_rounds. rewrite run_rounds_other.
  - cbn [m_heap]. by apply meeting_setup_other.
  - rewrite Hps. rewrite not_elem_of_cons. split; [lia|done].
Qed.

Lemma meeting_leaves_other_agents_alone_witness :
  exists summary st',
    call_meeting scripted_backend team_agency "0" None "Agree on a plan." 2
      = Ok (summary, st') /\
    agency st' = agency team_agency /\
    heap st' !!! 0%nat = heap team_agency !!! 0%nat /\
    heap st' !!! 3%nat = heap team_agency !!! 3%nat.
Proof.
  destruct (meeting_leaves_other_agents_alone scripted_backend team_agency "0" 0%nat None
              "Agree on a plan." 2 eq_refl ltac:(discriminate) eq_refl)
    as (summary & st' & Hcall & Hag & Hframe).
  exists summary, st'. split; [exact Hcall|]. split; [exact Hag|].
  assert (Hcs : dvalues (children (heap team_agency !!! 0%nat)) = [1%nat; 2%nat])
    by reflexivity.
  rewrite Hcs in Hframe.
  split; apply Hframe; try (vm_compute; lia);
    rewrite !not_elem_of_cons; repeat split; try lia; apply not_elem_of_nil.
Defined.

Lemma meeting_setup_child_history (st : State) (host_id : string) (host : ref)
    (cs : list ref) (prompt objective : string) (c : ref) :
  NoDup cs -> c ∈ cs -> (forall x, x ∈ cs -> (x < length (heap st))%nat) ->
  message_history (heap (s_state (meeting_setup st host_id host cs prompt objective)) !!! c)
  = message_history (heap st !!! c) ++
      [UserPromptMsg ("Meeting initialized with objective: " +:+ objective);
       UserPromptMsg child_instructions].
Proof.
  intros Hnd Hc Hvalid. pose proof (Hvalid c Hc) as Hlt.
  unfold meeting_setup, alloc.
  match goal with
  | |- context [stash_tools cs ?h] =>
      pose proof (stash_tools_field message_history (fun _ _ => eq_refl) cs h c) as Hs;
      pose proof (length_stash_tools cs h) as Hlen;
      destruct (stash_tools cs h) as [orig h3]
  end.
  simpl in Hs, Hlen. rewrite !length_alter, length_app in Hlen. simpl in Hlen.
  cbn [s_state heap].
  rewrite list_lookup_total_alter_ne by lia.
  rewrite append_to_all_history;
    [|done|done|rewrite length_append_to_all, length_alter; lia].
  rewrite append_to_all_history; [|done|done|rewrite length_alter; lia].
  rewrite list_lookup_total_alter_ne by lia.
  rewrite Hs.
  rewrite !list_lookup_total_alter_ne by lia.
  rewrite lookup_total_app_l by done.
  by rewrite <- app_assoc.
Qed.

(** X14. A meeting called by a registered host whose children are stored
    under their own ids returns, and it only appends to the history of
    each child: first the message that gives the objective, then the
    instructions for children, then what the rounds add, and last the
    message that the meeting has ended. *)
Theorem meeting_appends_to_child_histories
    (backend : Backend) (st : State) (host_id : string) (host : ref)
    (ctx_prompt : option string) (objective : string) (max_turns : Z)
    (Hhost : dget host_id (agents (agency st)) = Some host)
    (Hchildren : children (heap st !!! host) <> [])
    (Hkeyed : children_keyed_by_id st host) :
  let cs := dvalues (children (heap st !!! host)) in
  exists summary st',
    call_meeting backend st host_id ctx_prompt objective max_turns = Ok (summary, st') /\
    forall c, c ∈ cs ->
      exists during,
        message_history (heap st' !!! c) =
        message_history (heap st !!! c) ++
          [UserPromptMsg ("Meeting initialized with objective: " +:+ objective);
           UserPromptMsg child_instructions] ++
          during ++ [UserPromptMsg meeting_end_message].
Proof.
  intros cs.
  destruct (children_refs st host Hkeyed) as [Hnd Hvalid]. fold cs in Hnd, Hvalid.
  set (prompt := default "Meeting called" (nonempty ctx_prompt)).
  set (s := meeting_setup st host_id host cs prompt objective).
  set (m := meeting_rounds backend host_id max_turns s).
  exists (fst (meeting_finish s m)), (snd (meeting_finish s m)). split.
  { rewrite (call_meeting_held backend st host_id host) by done.
    cbv zeta. by rewrite <- surjective_pairing. }
  intros c Hc.
  destruct (meeting_setup_parts st host_id host cs prompt objective)
    as (_ & _ & Hsc & _ & _ & Hlens & _).
  fold s in Hsc, Hlens.
  destruct (meeting_rounds_same backend host_id max_turns s) as [Hlenm _].
  fold m in Hlenm.
  destruct (run_rounds_history backend (s_temp_host_id s) host_id (s_participants s)
              (Z.min (max_turns * Z.of_nat (length (s_participants s))) 15)
              (Z.to_nat (Z.min (max_turns * Z.of_nat (length (s_participants s))) 15))
              (mkMeeting (heap (s_state s)) [] (s_discussion_log s) 0 0) c)
    as [during Hduring].
  fold (meeting_rounds backend host_id max_turns s) in Hduring. fold m in Hduring.
  cbn [m_heap] in Hduring.
  exists during.
  unfold meeting_finish. cbn [snd heap]. rewrite Hsc.
  rewrite append_to_all_history;
    [|done|done|rewrite length_restore_tools, Hlenm, Hlens; pose proof (Hvalid c Hc); lia].
  rewrite (restore_tools_field message_history) by done.
  rewrite Hduring. unfold s.
  rewrite meeting_setup_child_history by done.
  by rewrite <- !app_assoc.
Qed.

Lemma meeting_appends_to_child_histories_witness :
  exists summary st',
    call_meeting scripted_backend team_agency "0" None "Agree on a plan." 2
      = Ok (summary, st') /\
    exists during,
      message_history (heap st' !!! 1%nat) =
      message_history (heap team_agency !!! 1%nat) ++
        [UserPromptMsg "Meeting initialized with objective: Agree on a plan.";
         UserPromptMsg child_instructions] ++
        during ++ [UserPromptMsg meeting_end_message].
Proof.
  destruct (meeting_appends_to_child_histories scripted_backend team_agency "0" 0%nat None
              "Agree on a plan." 2 eq_refl ltac:(discriminate))
    as (summary & st' & Hcall & Hhist).
  { assert (Hch : children (heap team_agency !!! 0%nat) = [("1", 1%nat); ("2", 2%nat)])
      by reflexivity.
    split; rewrite Hch.
    - apply NoDup_cons. split; [|apply NoDup_singleton].
      rewrite list_elem_of_singleton. discriminate.
    - intros k c Hin. rewrite !elem_of_cons, elem_of_nil in Hin.
      destruct Hin as [[= -> ->]|[[= -> ->]|[]]]; split;
        solve [reflexivity | vm_compute; lia]. }
  exists summary, st'. split; [exact Hcall|].
  apply Hhist. change (1%nat ∈ [1%nat; 2%nat]). apply elem_of_cons. by left.
Defined.

(** ** Meetings and the gates *)

Lemma join_head (sep p : string) (l : list string) :
  exists tail, PyStr.join sep (p :: l) = p +:+ tail.
Proof.
  destruct l as [|q l]; simpl.
  - exists "". induction p as [|a p IH]; [done|].
    change (String a p = String a (p +:+ "")). by f_equal.
  - by eexists.
Qed.

(** X15. When [prepare_call_meeting_tool] offers the tool to an agent, the
    agent is registered and [call_meeting] called by it holds a meeting:
    it returns a summary that begins with the entry of the set-up, which
    carries the temporary host's name and the id [host_id + "_temp"]. *)
Theorem offered_meeting_is_held (backend : Backend) (st : State) (host_id : string)
    (tool_def offered : ToolDefinition) (ctx_prompt : option string)
    (objective : string) (max_turns : Z)
    (Hgate : prepare_call_meeting_tool st host_id tool_def = Ok (Some offered)) :
  offered = tool_def /\
  exists host rest st',
    dget host_id (agents (agency st)) = Some host /\
    call_meeting backend st host_id ctx_prompt objective max_turns =
      Ok ("Meeting complete. Summary:" +:+ PyStr.nl +:+ PyStr.nl +:+
          summary_line
            (mkLogEntry (name (heap st !!! host) +:+ " [Active Host]")
               (host_id +:+ "_temp")
               ("Meeting initialized with objective: " +:+ objective)) +:+
          rest,
          st').
Proof.
  unfold prepare_call_meeting_tool, agents_at in Hgate.
  destruct (dget host_id (agents (agency st))) as [host|] eqn:Hhost;
    cbn [bindR] in Hgate; [|done].
  destruct (accessible _ _) as [ok|]; cbn [bindR] in Hgate; [|done].
  destruct (negb ok); [done|].
  destruct (children (heap st !!! host)) as [|kc ch] eqn:Hch; [done|].
  injection Hgate as <-. split; [done|].
  assert (Hne : children (heap st !!! host) <> []) by (by rewrite Hch).
  set (s := meeting_setup st host_id host (dvalues (children (heap st !!! host)))
              (default "Meeting called" (nonempty ctx_prompt)) objective).
  destruct (meeting_setup_parts st host_id host (dvalues (children (heap st !!! host)))
              (default "Meeting called" (nonempty ctx_prompt)) objective)
    as (_ & _ & _ & _ & _ & _ & Hlog & _).
  fold s in Hlog.
  destruct (run_rounds_effect backend (s_temp_host_id s) host_id (s_participants s)
              (Z.min (max_turns * Z.of_nat (length (s_participants s))) 15)
              (Z.to_nat (Z.min (max_turns * Z.of_nat (length (s_participants s))) 15))
              (mkMeeting (heap (s_state s)) [] (s_discussion_log s) 0 0))
    as (added & Hl & _).
  fold (meeting_rounds backend host_id max_turns s) in Hl. cbn [discussion_log] in Hl.
  rewrite Hlog in Hl. cbn [app] in Hl.
  destruct (join_head PyStr.nl
              (summary_line
                 (mkLogEntry (name (heap st !!! host) +:+ " [Active Host]")
                    (host_id +:+ "_temp")
                    ("Meeting initialized with objective: " +:+ objective)))
              (map summary_line added)) as [rest Hrest].
  exists host, rest, (snd (meeting_finish s (meeting_rounds backend host_id max_turns s))).
  split; [done|].
  rewrite (call_meeting_held backend st host_id host) by done.
  cbv zeta. fold s. unfold meeting_finish. cbn [snd].
  rewrite Hl. cbn [map]. by rewrite Hrest.
Qed.

Lemma offered_meeting_is_held_witness :
  exists host rest st',
    dget "0" (agents (agency team_agency)) = Some host /\
    call_meeting scripted_backend team_agency "0" None "Agree on a plan." 2 =
      Ok ("Meeting complete. Summary:" +:+ PyStr.nl +:+ PyStr.nl +:+
          summary_line
            (mkLogEntry (name (heap team_agency !!! host) +:+ " [Active Host]")
               "0_temp" "Meeting initialized with objective: Agree on a plan.") +:+
          rest,
          st').
Proof.
  exact (proj2 (offered_meeting_is_held scripted_backend team_agency "0"
                  (mkToolDefinition "call_meeting" "") (mkToolDefinition "call_meeting" "")
                  None "Agree on a plan." 2 eq_refl)).
Defined.






Lemma mapR_lookup_seq {B} (F : Agent -> PyResult B) (G : Agent -> B)
    (l1 l2 : list Agent) :
  (forall a, a ∈ l2 -> F a = Ok (G a)) ->
  mapR (fun r => F ((l1 ++ l2) !!! r)) (seq (length l1) (length l2)) = Ok (map G l2).
Proof.
  revert l1. induction l2 as [|x l2 IH]; intros l1 HF; [done|].
  cbn [length seq mapR map].
  rewrite (list_lookup_total_middle l1 l2 x (length l1)) by done.
  rewrite (HF x) by (apply elem_of_cons; by left). cbn [bindR].
  specialize (IH (l1 ++ [x])). rewrite <- app_assoc, length_app in IH.
  cbn [app length] in IH. rewrite Nat.add_1_r in IH.
  rewrite IH; [done|]. intros a Ha. apply HF, elem_of_cons. by right.
Qed.

Lemma dvalues_combine_seq (ids : list string) (start : nat) :
  dvalues (combine ids (seq start (length ids))) = seq start (length ids).
Proof.
  revert start. induction ids as [|k ids IH]; intros start; simpl; [done|].
  f_equal. apply IH.
Qed.

Lemma filter_all {A} (p : A -> bool) (l : list A) :
  (forall x, x ∈ l -> p x = true) -> List.filter p l = l.
Proof.
  induction l as [|x l IH]; intros Hp; simpl; [done|].
  rewrite (Hp x) by (apply elem_of_cons; by left).
  f_equal. apply IH. intros y Hy. apply Hp, elem_of_cons. by right.
Qed.

Lemma Agency_init_from_state_workspace (state : AgencyState.t) (tools : list string)
    (ws : option string) (uuid_ws : string) (st : State) (out : list string) (w : string) :
  Agency_init_from_state state tools ws uuid_ws = Ok (st, out) ->
  AgencyState.workspace_id state = Some w -> w <> "" ->
  workspace_id (agency st) = w.
Proof.
  intros Hrun Hw Hne. unfold Agency_init_from_state in Hrun. rewrite Hw in Hrun.
  destruct (l_main _); [|done].
  destruct (rebuild _ _ _ _) as [[h o]|]; simpl in Hrun; [|done].
  injection Hrun as <- <-. simpl. by destruct w.
Qed.

(** X17. For a snapshot as [Agency.save_state] writes it (distinct ids,
    [agency_id] and every child id name a record, no child listed twice,
    known tool names, a workspace id), loading succeeds without a warning
    and saving the loaded agency gives the same snapshot back. *)
Theorem load_then_save_is_identity (state : AgencyState.t) (known : list string)
    (ws : option string) (uuid_ws : string)
    (Hclean : clean_snapshot known state) :
  exists st,
    Agency_init_from_state state known ws uuid_ws = Ok (st, []) /\
    Agency_save_state st = Ok state.
Proof.
  destruct Hclean as (Hnd & Hmain & (w & Hw & Hwne) & Hrecs).
  pose proof (restore_spec state known ws uuid_ws Hnd) as Hspec. cbv zeta in Hspec.
  set (recs := AgencyState.agents state) in *.
  set (ag := combine (map AgentState.id recs) (seq 0 (length recs))) in *.
  assert (Hkeys : dkeys ag = map AgentState.id recs).
  { unfold ag. rewrite <- (length_map AgentState.id recs). apply dkeys_combine_seq. }
  destruct (dget (AgencyState.agency_id state) ag) as [m|] eqn:Hm.
  2:{ exfalso. apply dget_None_keys in Hm. apply Hm. by rewrite Hkeys. }
  destruct Hspec as (st & Hrun & Hheap & Hag & Hmainr & Hcur & Hdepth & Hbreadth & Hmax).
  assert (Hquiet : restore_warnings ag recs = []).
  { unfold restore_warnings. apply concat_all_nil. intros l Hl.
    apply list_elem_of_In, in_map_iff in Hl as (rec & <- & Hrec).
    rewrite link_children_warnings. rewrite filter_none; [done|]. intros c Hc.
    apply list_elem_of_In in Hrec. destruct (Hrecs rec Hrec) as (_ & Hin & _).
    apply Bool.negb_false_iff, dmem_keys. rewrite Hkeys. by apply Hin. }
  rewrite Hquiet in Hrun.
  exists st. split; [exact Hrun|].
  pose proof (Agency_init_from_state_workspace _ _ _ _ _ _ w Hrun Hw Hwne) as Hws.
  (* the records *)
  assert (Hsave : forall a, a ∈ map (restored_agent ag known) recs ->
            Agent_save_state a = Ok (agent_record a)).
  { intros a Ha. apply list_elem_of_In, in_map_iff in Ha as (rec & <- & _). done. }
  assert (Hback : map agent_record (map (restored_agent ag known) recs) = recs).
  { rewrite map_map. rewrite <- (map_id recs) at 2. apply map_ext_in.
    intros rec Hrec. apply list_elem_of_In in Hrec.
    destruct (Hrecs rec Hrec) as (Hndc & Hcin & Htools).
    unfold agent_record, restored_agent.
    cbn [id name system_prompt provider tools accessible_tools message_history parent_id
         children mcp_server_ids set_children Agent_load_state set_parent_id
         set_message_history Agent_init].
    rewrite link_children_keys; [|done| |done].
    2:{ intros c Hc. apply dget_Some_keys. rewrite Hkeys. by apply Hcin. }
    rewrite filter_all.
    2:{ intros n Hn. apply existsb_exists. exists n.
        split; [apply list_elem_of_In; by apply Htools|apply String.eqb_refl]. }
    by destruct rec. }
  assert (Hmid : id (heap st !!! main_agent (agency st)) = AgencyState.agency_id state).
  { apply list_elem_of_In, in_map_iff in Hmain as (rec & Hid & Hrec).
    apply list_elem_of_In in Hrec.
    destruct (restore_lookup known recs rec Hnd Hrec) as (i & Hi & _ & Hat).
    fold ag in Hi, Hat. rewrite Hid, Hm in Hi. injection Hi as <-.
    by rewrite Hmainr, Hheap, Hat. }
  assert (Hvals : dvalues ag = seq 0 (length (map (restored_agent ag known) recs))).
  { rewrite length_map. unfold ag. rewrite <- (length_map AgentState.id recs).
    apply dvalues_combine_seq. }
  pose proof (mapR_lookup_seq Agent_save_state agent_record [] _ Hsave) as Hall.
  cbn [app length] in Hall. rewrite Hback in Hall.
  unfold Agency_save_state. rewrite Hmid, Hag, Hvals, Hheap, Hall.
  cbn [bindR]. rewrite Hcur, Hdepth, Hbreadth, Hmax, Hws, <- Hw.
  unfold recs. by destruct state.
Qed.

Lemma load_then_save_is_identity_witness :
  exists st,
    Agency_init_from_state team_snapshot all_tools None "workspace_0" = Ok (st, []) /\
    Agency_save_state st = Ok team_snapshot.
Proof.
  apply load_then_save_is_identity.
  assert (Hids : map AgentState.id (AgencyState.agents team_snapshot) = ["0"; "1"; "2"; "3"])
    by reflexivity.
  split; [|split; [|split]].
  - rewrite Hids. nodup_strings.
  - rewrite Hids. apply elem_of_cons. by left.
  - exists "demo_workspace". split; [reflexivity|discriminate].
  - intros rec Hrec. rewrite Hids.
    change (AgencyState.agents team_snapshot)
      with [ saved_agent "0" "main_agent" None ["1"; "2"];
             saved_agent "1" "planner" (Some "0") ["3"];
             saved_agent "2" "writer" (Some "0") [];
             saved_agent "3" "researcher" (Some "1") [] ] in Hrec.
    rewrite !elem_of_cons, elem_of_nil in Hrec.
    destruct Hrec as [->|[->|[->|[->|[]]]]];
      cbn [saved_agent AgentState.child_ids AgentState.tool_names];
      (split; [nodup_strings|]);
      (split; [intros c Hc; rewrite ?elem_of_cons, ?elem_of_nil in *; intuition|]);
      intros n Hn; exact Hn.
Defined.

(** ** The phrases that end a participant's part *)

Lemma upper_app (a b : string) : PyStr.upper (a +:+ b) = PyStr.upper a +:+ PyStr.upper b.
Proof.
  induction a as [|c a IH]; [done|].
  change (String (PyStr.upper_ascii c) (PyStr.upper (a +:+ b)) =
          String (PyStr.upper_ascii c) (PyStr.upper a +:+ PyStr.upper b)).
  by f_equal.
Qed.

Lemma prefix_app (n b : string) : String.prefix n (n +:+ b) = true.
Proof.
  induction n as [|c n IH]; simpl; [by destruct b|].
  destruct (Ascii.ascii_dec c c); [done|congruence].
Qed.

Lemma contains_app (n a b : string) : PyStr.contains n (a +:+ n +:+ b) = true.
Proof.
  induction a as [|c a IH].
  - change (PyStr.contains n (n +:+ b) = true).
    destruct (n +:+ b) eqn:Heq; unfold PyStr.contains; fold PyStr.contains;
      rewrite <- Heq, prefix_app; done.
  - change (PyStr.contains n (String c (a +:+ n +:+ b)) = true).
    unfold PyStr.contains; fold PyStr.contains. rewrite IH. apply orb_true_r.
Qed.

Lemma is_ready_phrase (pre phrase post : string) :
  PyStr.upper phrase = "READY_TO_END_MEETING" \/ PyStr.upper phrase = "READY_TO_MOVE_ON" ->
  is_ready (pre +:+ phrase +:+ post) = true.
Proof.
  intros Hp. unfold is_ready. rewrite !upper_app.
  destruct Hp as [-> | ->]; rewrite contains_app; [done|apply orb_true_r].
Qed.

(** X18. Whoever speaks, host or child, an answer that holds
    [READY_TO_END_MEETING] or [READY_TO_MOVE_ON] anywhere, in any mix of
    upper and lower case, puts the speaker into [agents_done]; the answer
    is logged as it is. *)
Theorem ready_phrase_marks_speaker_done (backend : Backend)
    (temp_host_id host_id : string) (participants : list ref) (agent : ref)
    (m : Meeting) (data : string) (ms : list ModelMessage) (pre phrase post : string)
    (Hrun : backend (turn m + 1) (m_heap m !!! agent) YOUR_TURN_PHRASE = RunOk data ms)
    (Hreply : PyStr.strip data = pre +:+ phrase +:+ post)
    (Hphrase : PyStr.upper phrase = "READY_TO_END_MEETING" \/
               PyStr.upper phrase = "READY_TO_MOVE_ON") :
  let m' := fst (take_turn backend temp_host_id host_id participants agent m) in
  id (m_heap m !!! agent) ∈ agents_done m' /\
  discussion_log m' =
    discussion_log m ++
      [mkLogEntry (name (m_heap m !!! agent))
         (logging_agent_id temp_host_id host_id (m_heap m !!! agent))
         (pre +:+ phrase +:+ post)].
Proof.
  intros m'. subst m'. rewrite (take_turn_ok _ _ _ _ _ _ _ _ Hrun). cbn [fst agents_done discussion_log].
  rewrite Hreply, is_ready_phrase by done.
  split; [apply elem_of_set_add; by left|done].
Qed.

Lemma ready_phrase_marks_speaker_done_witness :
  id (m_heap workers_meeting_start !!! 4%nat) ∈
    agents_done
      (fst (take_turn (fun _ _ _ => RunOk "  I am Ready_To_Move_On now. " [])
              "0_temp" "0" [4%nat; 1%nat; 2%nat; 3%nat] 4%nat workers_meeting_start)).
Proof.
  refine (proj1 (ready_phrase_marks_speaker_done (fun _ _ _ => RunOk "  I am Ready_To_Move_On now. " [])
            "0_temp" "0" [4%nat; 1%nat; 2%nat; 3%nat] 4%nat workers_meeting_start
            "  I am Ready_To_Move_On now. " [] "I am " "Ready_To_Move_On" " now."
            eq_refl eq_refl _)).
  right. reflexivity.
Defined.

(** ** The server manager *)

(** X19. [create_mcp_server] never replaces a server: every server that
    was registered is still registered under its id, with its running flag
    as it was, and at most one server is added; when the id, given or made
    up from the number of servers, is taken, nothing changes at all. *)
Theorem create_mcp_server_keeps_servers (m : MCPServerManager) (server_id : option string) :
  let sid := match server_id with
             | None => "mcp_server_" +:+ PyStr.str (dlen (servers m))
             | Some s => s
             end in
  let m' := snd (create_mcp_server m server_id) in
  (forall k v, get_server m k = Some v -> get_server m' k = Some v) /\
  (forall k, is_Some (get_server m k) -> is_running m' k = is_running m k) /\
  (is_Some (get_server m sid) ->
   create_mcp_server m server_id = ("Server with ID " +:+ sid +:+ " already exists", m)) /\
  (get_server m sid = None ->
   fst (create_mcp_server m server_id) = "Created MCP server with ID: " +:+ sid /\
   get_server m' sid = Some (PlaywrightMCPServer (dlen (servers m))) /\
   is_running m' sid = false /\
   dlen (servers m') = dlen (servers m) + 1).
Proof.
  intros sid m'. subst m'. unfold create_mcp_server. fold sid.
  unfold dmem, get_server, is_running.
  destruct (dget sid (servers m)) as [x|] eqn:Hs; cbn [fst snd].
  - split; [done|]. split; [done|]. split; [done|]. done.
  - cbn [add_server servers running_servers].
    split; [|split; [|split]].
    + intros k v Hk. rewrite dget_dset_ne; [done|]. congruence.
    + intros k [v Hk]. rewrite dget_dset_ne; [done|]. congruence.
    + by intros [? ?].
    + intros _. split; [done|]. rewrite !dget_dset_eq.
      split; [done|]. split; [done|]. by apply dlen_dset_absent.
Qed.

Lemma elem_of_filter_snd (k : string) (d : list (string * bool)) :
  NoDup (dkeys d) ->
  k ∈ map fst (List.filter snd d) <-> dget k d = Some true.
Proof.
  induction d as [|[k0 b0] d IH]; intros Hnd; simpl.
  - split; [intros H; by apply elem_of_nil in H|done].
  - apply NoDup_cons in Hnd as [Hk0 Hnd]. specialize (IH Hnd).
    assert (Hnot : k = k0 -> k ∉ map fst (List.filter snd d)).
    { intros -> Hin. apply Hk0. apply list_elem_of_In, in_map_iff in Hin as ([k1 b1] & <- & Hin).
      apply filter_In in Hin as [Hin _]. apply list_elem_of_In, in_map_iff.
      by exists (k1, b1). }
    case_eqb k k0.
    + destruct b0; simpl.
      * split; [done|]. intros _. apply elem_of_cons. by left.
      * split; [intros Hin; by apply Hnot in Hin|done].
    + destruct b0; simpl; [|done].
      rewrite elem_of_cons. rewrite IH. split; [by intros [?|?]|by right].
Qed.

(** X20. [get_running_servers] lists exactly the servers for which
    [is_running] answers true, each once and in the order in which the
    servers were added. *)
Theorem get_running_servers_spec (m : MCPServerManager)
    (Hkeys : NoDup (dkeys (running_servers m))) :
  (forall server_id, server_id ∈ get_running_servers m <-> is_running m server_id = true) /\
  NoDup (get_running_servers m) /\
  get_running_servers m =
    List.filter (is_running m) (dkeys (running_servers m)).
Proof.
  assert (Hiff : forall k, k ∈ get_running_servers m <-> is_running m k = true).
  { intros k. unfold get_running_servers, is_running.
    rewrite elem_of_filter_snd by done.
    destruct (dget k (running_servers m)) as [[]|]; simpl; split; congruence. }
  split; [exact Hiff|].
  assert (Heq : get_running_servers m =
                List.filter (is_running m) (dkeys (running_servers m))).
  { unfold get_running_servers, is_running.
    assert (Hgen : forall d, NoDup (dkeys d) ->
              forall d0, (forall k v, (k, v) ∈ d -> dget k d0 = Some v) ->
              map fst (List.filter snd d) =
              List.filter (fun k => default false (dget k d0)) (dkeys d)).
    { clear. induction d as [|[k b] d IH]; intros Hnd d0 Hd0; simpl; [done|].
      apply NoDup_cons in Hnd as [_ Hnd].
      rewrite (Hd0 k b) by (apply elem_of_cons; by left). simpl.
      rewrite <- (IH Hnd d0) by (intros; apply Hd0, elem_of_cons; by right).
      by destruct b. }
    apply Hgen; [done|]. intros k v Hin. by apply elem_dget_NoDup. }
  split; [|exact Heq].
  rewrite Heq. apply NoDup_ListNoDup, List.NoDup_filter, NoDup_ListNoDup. done.
Qed.

Lemma get_running_servers_spec_witness :
  get_running_servers (setup_mcp_servers MCPServerManager_init) =
  List.filter (is_running (setup_mcp_servers MCPServerManager_init))
    (dkeys (running_servers (setup_mcp_servers MCPServerManager_init))).
Proof.
  refine (proj2 (proj2 (get_running_servers_spec (setup_mcp_servers MCPServerManager_init) _))).
  change (NoDup ["mcp_server_playwright"; "mcp_server_python"]). nodup_strings.
Defined.

Lemma existsb_eqb_elem (x : string) (l : list string) :
  existsb (String.eqb x) l = true <-> x ∈ l.
Proof.
  rewrite existsb_exists. split.
  - intros (y & Hy & Heq). apply String.eqb_eq in Heq as <-. by apply list_elem_of_In.
  - intros Hin. exists x. split; [by apply list_elem_of_In|apply String.eqb_refl].
Qed.

Lemma list_remove_snoc (x : string) (l : list string) :
  x ∉ l -> list_remove x (l ++ [x]) = l.
Proof.
  induction l as [|y l IH]; intros Hx; simpl.
  - by rewrite String.eqb_refl.
  - rewrite not_elem_of_cons in Hx. destruct Hx as [Hne Hx].
    case_eqb x y. by rewrite IH.
Qed.

(** X21. [add_mcp_server] appends an id that the agent does not have yet,
    also when the id names no server and the call answers [False]; it never
    makes a duplicate; and [remove_mcp_server] of the id just added gives
    the list back as it was. An id that the agent has already is refused
    and the list stays. *)
Theorem add_then_remove_mcp_server (m : MCPServerManager) (ids : list string)
    (server_id : string) (Hids : NoDup ids) :
  let added := add_mcp_server m ids server_id in
  NoDup (snd added) /\
  (server_id ∈ ids -> added = (false, ids)) /\
  (server_id ∉ ids ->
   snd added = ids ++ [server_id] /\
   fst added = match get_server m server_id with Some _ => true | None => false end /\
   remove_mcp_server (snd added) server_id = (true, ids)).
Proof.
  intros added. subst added. unfold add_mcp_server.
  destruct (existsb (String.eqb server_id) ids) eqn:He.
  - apply existsb_eqb_elem in He. split; [done|]. split; [done|]. done.
  - assert (Hnin : server_id ∉ ids).
    { intros Hin. apply existsb_eqb_elem in Hin. congruence. }
    assert (Hnd : NoDup (ids ++ [server_id])).
    { apply NoDup_app. split; [done|]. split; [|apply NoDup_singleton].
      intros x Hx Hx'. apply list_elem_of_singleton in Hx' as ->. done. }
    assert (Hrm : remove_mcp_server (ids ++ [server_id]) server_id = (true, ids)).
    { unfold remove_mcp_server.
      assert (Hin : existsb (String.eqb server_id) (ids ++ [server_id]) = true).
      { apply existsb_eqb_elem, elem_of_app. right. by apply list_elem_of_singleton. }
      rewrite Hin. by rewrite list_remove_snoc. }
    destruct (get_server m server_id); cbn [fst snd];
      (split; [done|]); (split; [done|]); done.
Qed.

Lemma add_then_remove_mcp_server_witness :
  add_mcp_server (setup_mcp_servers MCPServerManager_init) [] "no_such_server" =
    (false, ["no_such_server"]) /\
  remove_mcp_server ["no_such_server"] "no_such_server" = (true, []).
Proof.
  destruct (add_then_remove_mcp_server (setup_mcp_servers MCPServerManager_init) []
              "no_such_server" NoDup_nil_2) as (_ & _ & Hadd).
  destruct (Hadd (not_elem_of_nil _)) as (Hs & Hf & Hr).
  split; [|exact Hr].
  rewrite (surjective_pairing (add_mcp_server _ _ _)), Hs, Hf. reflexivity.
Defined.

(** ** The terminal manager *)

(** X22. A terminal created under a new id and deleted again leaves the
    table of terminals as it was; creating under an id that is taken
    changes nothing and starts no process. *)
Theorem create_then_delete_terminal (uuid_hex : string) (p : Popen)
    (tm : TerminalManager) (terminal_id : option string) :
  let tid := match terminal_id with
             | None => "terminal_" +:+ uuid_hex
             | Some t => t
             end in
  (dget tid (terminals tm) = None ->
   let created := create_terminal uuid_hex (Ok p) tm terminal_id in
   fst created = Ok ("Created terminal with ID: " +:+ tid) /\
   dget tid (terminals (snd created)) =
     Some (mkTerminalProcess (tm_workspace_path tm) tid (Some p) true) /\
   delete_terminal (Ok tt) (snd created) tid =
     ("Terminal " +:+ tid +:+ " deleted successfully", tm)) /\
  (is_Some (dget tid (terminals tm)) ->
   forall spawned,
     create_terminal uuid_hex spawned tm terminal_id =
       (Ok ("Terminal with ID " +:+ tid +:+ " already exists"), tm)).
Proof.
  intros tid. split.
  - intros Hnew created. subst created. unfold create_terminal. fold tid.
    unfold dmem. rewrite Hnew. cbn [TerminalProcess_start TerminalProcess_init active fst snd
                                    tp_workspace_path tp_terminal_id terminals].
    split; [done|]. split; [apply dget_dset_eq|].
    unfold delete_terminal. cbn [terminals tm_workspace_path]. rewrite dget_dset_eq.
    cbn [TerminalProcess_stop active process]. rewrite ddel_dset_absent by done.
    by destruct tm.
  - intros [t Ht] spawned. unfold create_terminal. fold tid. unfold dmem. by rewrite Ht.
Qed.

Lemma create_then_delete_terminal_witness :
  delete_terminal (Ok tt)
    (snd (create_terminal "1a2b3c4d" (Ok (popen "/srv/ws")) (TerminalManager_init "/srv/ws")
            None))
    "terminal_1a2b3c4d"
  = ("Terminal terminal_1a2b3c4d deleted successfully", TerminalManager_init "/srv/ws").
Proof.
  exact (proj2 (proj2 (proj1 (create_then_delete_terminal "1a2b3c4d" (popen "/srv/ws")
                                (TerminalManager_init "/srv/ws") None) eq_refl))).
Defined.

Lemma terminals_ok_create (uuid_hex : string) (spawned : PyResult Popen)
    (tm : TerminalManager) (terminal_id : option string) :
  terminals_ok tm -> terminals_ok (snd (create_terminal uuid_hex spawned tm terminal_id)).
Proof.
  intros [Hnd Hall]. unfold create_terminal.
  set (tid := match terminal_id with None => _ | Some t => t end).
  destruct (dmem tid (terminals tm)); [done|].
  cbn [TerminalProcess_start TerminalProcess_init active].
  destruct spawned as [p|e]; [|done]. cbn [snd]. split; cbn [terminals].
  - by apply NoDup_dset.
  - intros k t Hin. apply elem_of_dset in Hin as [[-> ->]|Hin]; [|by apply Hall].
    split; [done|]. split; [by eexists|done].
Qed.

Lemma terminals_ok_delete (terminated : PyResult unit) (tm : TerminalManager)
    (terminal_id : string) :
  terminals_ok tm -> terminals_ok (snd (delete_terminal terminated tm terminal_id)).
Proof.
  intros [Hnd Hall]. unfold delete_terminal.
  destruct (dget terminal_id (terminals tm)) as [t|] eqn:Ht; [|done].
  assert (Hstop : TerminalProcess_stop terminated t = (false, t) \/
                  fst (TerminalProcess_stop terminated t) = true).
  { unfold TerminalProcess_stop.
    destruct (active t), (process t), terminated; simpl; auto. }
  destruct (TerminalProcess_stop terminated t) as [success t'].
  destruct Hstop as [[= -> ->]|Hs].
  - cbn [snd]. rewrite (dset_same _ _ _ Ht). by destruct tm.
  - simpl in Hs. subst success. cbn [snd]. split; cbn [terminals].
    + by apply NoDup_ddel.
    + intros k x Hin. apply elem_of_ddel in Hin as [Hin _]. by apply Hall.
Qed.

(** X23. In every state that a terminal manager can reach, each terminal
    of the table is running, has a process and is stored under its own id,
    so that deleting a terminal of the table succeeds whenever the
    operating system lets the process end; the answer
    [Failed to delete terminal] can only come from an error of the
    operating system. *)
Theorem registered_terminals_are_active (tm : TerminalManager)
    (Hreach : tm_reachable tm) :
  NoDup (dkeys (terminals tm)) /\
  (forall tid t, dget tid (terminals tm) = Some t ->
     active t = true /\ is_Some (process t) /\ tp_terminal_id t = tid) /\
  (forall tid, is_Some (dget tid (terminals tm)) ->
     fst (delete_terminal (Ok tt) tm tid) = "Terminal " +:+ tid +:+ " deleted successfully" /\
     dget tid (terminals (snd (delete_terminal (Ok tt) tm tid))) = None).
Proof.
  assert (Hok : terminals_ok tm).
  { induction Hreach.
    - split; [apply NoDup_nil_2|]. intros tid t Hin. by apply elem_of_nil in Hin.
    - by apply terminals_ok_create.
    - by apply terminals_ok_delete.
    - split; [apply NoDup_nil_2|]. intros tid t Hin. by apply elem_of_nil in Hin. }
  destruct Hok as [Hnd Hall].
  split; [done|]. split.
  - intros tid t Ht. apply Hall. by apply dget_Some_elem.
  - intros tid [t Ht]. unfold delete_terminal. rewrite Ht.
    destruct (Hall tid t (dget_Some_elem _ _ _ Ht)) as (Ha & [p Hp] & _).
    unfold TerminalProcess_stop. rewrite Ha, Hp. cbn [fst snd terminals].
    split; [done|]. apply dget_ddel_eq.
Qed.

Lemma registered_terminals_are_active_witness :
  fst (delete_terminal (Ok tt)
         (snd (create_terminal "1a2b3c4d" (Ok (popen "/srv/ws"))
                 (TerminalManager_init "/srv/ws") (Some "build")))
         "build")
  = "Terminal build deleted successfully".
Proof.
  refine (proj1 (proj2 (proj2 (registered_terminals_are_active _
            (tm_reachable_create _ "1a2b3c4d" (Ok (popen "/srv/ws")) (Some "build")
               (tm_reachable_init "/srv/ws")))) "build" _)).
  by eexists.
Defined.

(** ** The workspace guard of the file tools *)

Lemma string_app_assoc (a b c : string) : (a +:+ b) +:+ c = a +:+ b +:+ c.
Proof.
  induction a as [|x a IH]; [done|].
  change (String x ((a +:+ b) +:+ c) = String x (a +:+ b +:+ c)). by f_equal.
Qed.

Lemma string_app_nil_r (a : string) : a +:+ "" = a.
Proof.
  induction a as [|x a IH]; [done|].
  change (String x (a +:+ "") = String x a). by f_equal.
Qed.

Lemma prefix_cancel (a b c : string) :
  String.prefix (a +:+ b) (a +:+ c) = String.prefix b c.
Proof.
  induction a as [|x a IH]; [done|].
  change (String.prefix (String x (a +:+ b)) (String x (a +:+ c)) = String.prefix b c).
  simpl. destruct (Ascii.ascii_dec x x); [done|congruence].
Qed.

Lemma prefix_nil_r (a : string) : String.prefix a (a +:+ "") = true.
Proof. apply prefix_app. Qed.

Lemma split_no_slash (c : string) : no_slash c = true -> PosixPath.split c = [c].
Proof.
  induction c as [|x c IH]; simpl; [done|].
  intros H. apply andb_true_iff in H as [Hx Hc].
  apply negb_true_iff in Hx. rewrite Hx, IH by done. done.
Qed.

Lemma split_app (a b : string) :
  no_slash a = true ->
  PosixPath.split (a +:+ "/" +:+ b) = a :: PosixPath.split b.
Proof.
  induction a as [|x a IH]; intros H.
  - done.
  - simpl in H. apply andb_true_iff in H as [Hx Ha]. apply negb_true_iff in Hx.
    change (PosixPath.split (String x (a +:+ "/" +:+ b)) = String x a :: PosixPath.split b).
    cbn [PosixPath.split]. rewrite Hx, IH by done. done.
Qed.

Lemma split_join (cs : list string) :
  cs <> [] -> Forall (fun c => no_slash c = true) cs ->
  PosixPath.split (PyStr.join "/" cs) = cs.
Proof.
  induction cs as [|c cs IH]; intros Hne Hall; [done|].
  apply Forall_cons in Hall as [Hc Hall].
  destruct cs as [|c2 cs].
  - by apply split_no_slash.
  - change (PyStr.join "/" (c :: c2 :: cs)) with (c +:+ "/" +:+ PyStr.join "/" (c2 :: cs)).
    rewrite split_app by done. f_equal. by apply IH.
Qed.

Lemma join_app (l1 l2 : list string) :
  l1 <> [] -> l2 <> [] ->
  PyStr.join "/" (l1 ++ l2) = PyStr.join "/" l1 +:+ "/" +:+ PyStr.join "/" l2.
Proof.
  induction l1 as [|c l1 IH]; intros H1 H2; [done|].
  destruct l1 as [|c1 l1].
  - destruct l2 as [|d l2]; [done|]. done.
  - change (PyStr.join "/" ((c :: c1 :: l1) ++ l2))
      with (c +:+ "/" +:+ PyStr.join "/" ((c1 :: l1) ++ l2)).
    rewrite IH by done.
    change (PyStr.join "/" (c :: c1 :: l1)) with (c +:+ "/" +:+ PyStr.join "/" (c1 :: l1)).
    by rewrite !string_app_assoc.
Qed.

Lemma plain_spec (c : string) :
  plain c = true ->
  c <> "" /\ c <> "." /\ c <> ".." /\ no_slash c = true.
Proof.
  unfold plain. rewrite !andb_true_iff, !negb_true_iff.
  intros [[[H1 H2] H3] H4].
  apply String.eqb_neq in H1, H2, H3. done.
Qed.

Lemma plain_no_slash (cs : list string) :
  Forall (fun c => plain c = true) cs -> Forall (fun c => no_slash c = true) cs.
Proof.
  intros H. eapply Forall_impl; [exact H|]. intros c Hc. by apply plain_spec in Hc as (_ & _ & _ & ?).
Qed.

(** The loop of [normpath] appends plain names. *)
Lemma normpath_plain (isroot : bool) (cs acc : list string) :
  Forall (fun c => plain c = true) cs ->
  fold_left (PosixPath.normpath_step isroot) cs acc = acc ++ cs.
Proof.
  revert acc. induction cs as [|c cs IH]; intros acc Hall; simpl.
  - by rewrite app_nil_r.
  - apply Forall_cons in Hall as [Hc Hall]. apply plain_spec in Hc as (H1 & H2 & H3 & _).
    rewrite IH by done. unfold PosixPath.normpath_step.
    apply String.eqb_neq in H1, H2, H3. rewrite H1, H2, H3. simpl.
    by rewrite <- app_assoc.
Qed.

(** ... and [..] takes the last plain name away. *)
Lemma normpath_dotdot (isroot : bool) (acc : list string) (w : string) :
  plain w = true ->
  PosixPath.normpath_step isroot (acc ++ [w]) ".." = acc.
Proof.
  intros Hw. apply plain_spec in Hw as (_ & _ & H3 & _).
  unfold PosixPath.normpath_step. simpl. rewrite last_snoc.
  apply String.eqb_neq in H3. rewrite H3.
  destruct (acc ++ [w]) eqn:Heq; [by destruct acc|]. rewrite <- Heq.
  rewrite andb_false_r. simpl. apply removelast_last.
Qed.

Lemma rooted_head (c : string) (cs : list string) :
  c <> "" -> no_slash c = true ->
  exists x t, rooted (c :: cs) = String "/" (String x t) /\ x <> "/"%char.
Proof.
  intros Hne Hns. destruct c as [|x c]; [done|].
  simpl in Hns. apply andb_true_iff in Hns as [Hx _]. apply negb_true_iff in Hx.
  apply Ascii.eqb_neq in Hx.
  destruct cs as [|c2 cs]; unfold rooted; simpl; eauto.
Qed.

(** [normpath] on an absolute path given by its components. *)
Lemma normpath_rooted (c : string) (cs : list string) :
  c <> "" -> Forall (fun c => no_slash c = true) (c :: cs) ->
  PosixPath.normpath (rooted (c :: cs)) =
  rooted (fold_left (PosixPath.normpath_step true) (c :: cs) []).
Proof.
  intros Hne Hall. pose proof Hall as Hall'. apply Forall_cons in Hall' as [Hc _].
  destruct (rooted_head c cs Hne Hc) as (x & t & Heq & Hx).
  assert (Hsplit : PosixPath.split (rooted (c :: cs)) = "" :: c :: cs).
  { unfold rooted.
    change ("/" +:+ PyStr.join "/" (c :: cs)) with ("" +:+ "/" +:+ PyStr.join "/" (c :: cs)).
    rewrite split_app by done. by rewrite split_join. }
  unfold PosixPath.normpath. rewrite Hsplit. rewrite Heq.
  assert (Hx' : Ascii.eqb x "/" = false) by (by apply Ascii.eqb_neq).
  assert (Hp2 : String.prefix "//" (String "/" (String x t)) = false).
  { change (String.prefix "//" (String "/" (String x t))) with
      (if Ascii.ascii_dec "/" "/"
       then (if Ascii.ascii_dec "/" x then String.prefix "" t else false)
       else false).
    destruct (Ascii.ascii_dec "/" x) as [<-|]; [done|].
    by destruct (Ascii.ascii_dec "/" "/"). }
  rewrite Hp2. cbn [andb].
  assert (Hp1 : String.prefix "/" (String "/" (String x t)) = true) by done.
  rewrite Hp1. unfold PosixPath.isabs. rewrite Hp1.
  cbn [fold_left]. unfold PosixPath.normpath_step at 2. cbn [String.eqb orb].
  unfold rooted. done.
Qed.

Lemma endswith_sep_no_slash (w : string) : no_slash w = true -> PosixPath.endswith_sep w = false.
Proof.
  induction w as [|x w IH]; [done|]. simpl. intros H.
  apply andb_true_iff in H as [Hx Hw]. apply negb_true_iff in Hx.
  destruct w; [done|]. by apply IH.
Qed.

Lemma endswith_sep_app (a w : string) :
  w <> "" -> PosixPath.endswith_sep (a +:+ w) = PosixPath.endswith_sep w.
Proof.
  intros Hw. induction a as [|x a IH]; [done|].
  change (PosixPath.endswith_sep (String x (a +:+ w)) = PosixPath.endswith_sep w).
  cbn [PosixPath.endswith_sep]. destruct (a +:+ w) eqn:Heq; [|done].
  destruct a; [|done]. by simpl in Heq.
Qed.

(** An absolute path of plain names splits off its last name. *)
Lemma rooted_snoc (comps : list string) (w : string) :
  exists p, rooted (comps ++ [w]) = p +:+ w /\
    forall d rest, rooted (comps ++ d :: rest) = p +:+ PyStr.join "/" (d :: rest).
Proof.
  destruct comps as [|c comps].
  - exists "/". split; [reflexivity|]. intros d rest. reflexivity.
  - exists ("/" +:+ PyStr.join "/" (c :: comps) +:+ "/"). split.
    + unfold rooted. rewrite join_app by done. by rewrite !string_app_assoc.
    + intros d rest. unfold rooted. rewrite join_app by done. by rewrite !string_app_assoc.
Qed.

Lemma rooted_not_empty (l : list string) : rooted l <> "".
Proof. done. Qed.

Lemma rooted_isabs (l : list string) : PosixPath.isabs (rooted l) = true.
Proof.
  unfold PosixPath.isabs, rooted.
  change (String.prefix "/" (String "/" (PyStr.join "/" l)) = true).
  by destruct (PyStr.join "/" l).
Qed.

(** [os.path.join] of a workspace and a relative path. *)
Lemma full_path_relative (comps : list string) (w : string) (fs : list string) (f : string) :
  plain w = true -> PosixPath.isabs (PyStr.join "/" (f :: fs)) = false ->
  full_path (rooted (comps ++ [w])) (PyStr.join "/" (f :: fs)) =
  rooted ((comps ++ [w]) ++ f :: fs).
Proof.
  intros Hw Hrel. apply plain_spec in Hw as (Hne & _ & _ & Hns).
  unfold full_path, PosixPath.join. rewrite Hrel.
  destruct (rooted_snoc comps w) as (p & Hp & _).
  assert (Hend : PosixPath.endswith_sep (rooted (comps ++ [w])) = false).
  { rewrite Hp, endswith_sep_app by done. by apply endswith_sep_no_slash. }
  rewrite Hend. cbn [String.eqb orb].
  destruct (String.eqb (rooted (comps ++ [w])) "") eqn:He; [by apply String.eqb_eq in He|].
  cbn [orb]. unfold rooted. rewrite (join_app (comps ++ [w])) by (done || by destruct comps).
  by rewrite !string_app_assoc.
Qed.

Lemma app_head_plain (comps : list string) (w : string) (rest : list string) :
  Forall (fun c => plain c = true) comps -> plain w = true ->
  exists c cs, comps ++ w :: rest = c :: cs /\ c <> "" /\ no_slash c = true.
Proof.
  intros Hc Hw. destruct comps as [|c comps].
  - exists w, rest. apply plain_spec in Hw as (? & _ & _ & ?). done.
  - apply Forall_cons in Hc as [Hc _]. exists c, (comps ++ w :: rest).
    apply plain_spec in Hc as (? & _ & _ & ?). done.
Qed.

(** Where a path below the workspace lands. *)
Lemma abspath_plain (cwd : string) (l : list string) :
  l <> [] -> Forall (fun c => plain c = true) l ->
  PosixPath.abspath cwd (rooted l) = rooted l.
Proof.
  intros Hne Hall. unfold PosixPath.abspath. rewrite rooted_isabs.
  destruct l as [|c l]; [done|].
  rewrite normpath_rooted.
  - by rewrite normpath_plain.
  - apply Forall_cons in Hall as [Hc _]. by apply plain_spec in Hc as (? & _).
  - by apply plain_no_slash.
Qed.

Lemma abspath_parent (cwd : string) (comps : list string) (w d : string) (fs : list string) :
  Forall (fun c => plain c = true) comps -> plain w = true ->
  Forall (fun c => plain c = true) (d :: fs) ->
  PosixPath.abspath cwd (rooted ((comps ++ [w]) ++ ".." :: d :: fs)) =
  rooted (comps ++ d :: fs).
Proof.
  intros Hc Hw Hfs. unfold PosixPath.abspath. rewrite rooted_isabs.
  rewrite <- app_assoc. cbn [app].
  destruct (app_head_plain comps w (".." :: d :: fs) Hc Hw) as (c & cs & Heq & Hne & Hns).
  rewrite Heq, normpath_rooted; [|done|].
  - rewrite <- Heq.
    change (comps ++ w :: ".." :: d :: fs) with (comps ++ [w] ++ [".."] ++ d :: fs).
    rewrite !app_assoc. do 2 rewrite fold_left_app.
    rewrite (normpath_plain true (comps ++ [w])).
    + cbn [fold_left app]. rewrite normpath_dotdot by done.
      change (fold_left (PosixPath.normpath_step true) fs
                (PosixPath.normpath_step true comps d))
        with (fold_left (PosixPath.normpath_step true) (d :: fs) comps).
      by rewrite normpath_plain.
    + apply Forall_app. split; [done|]. by apply Forall_singleton.
  - rewrite <- Heq. apply Forall_app. split; [by apply plain_no_slash|].
    apply Forall_cons. split; [by apply plain_spec in Hw as (_ & _ & _ & ?)|].
    apply Forall_cons. split; [done|]. by apply plain_no_slash.
Qed.

Lemma prefix_no_slash (w d r : string) :
  no_slash w = true ->
  String.prefix w (d +:+ "/" +:+ r) = String.prefix w d.
Proof.
  revert d. induction w as [|x w IH]; intros d Hw.
  - by destruct d.
  - simpl in Hw. apply andb_true_iff in Hw as [Hx Hw]. apply negb_true_iff in Hx.
    apply Ascii.eqb_neq in Hx.
    destruct d as [|y d].
    + change (String.prefix (String x w) (String "/" r) = false).
      simpl. destruct (Ascii.ascii_dec x "/"); [done|done].
    + change (String.prefix (String x w) (String y (d +:+ "/" +:+ r)) =
              String.prefix (String x w) (String y d)).
      simpl. destruct (Ascii.ascii_dec x y); [by apply IH|done].
Qed.

Lemma prefix_join_head (w d : string) (fs : list string) :
  no_slash w = true ->
  String.prefix w (PyStr.join "/" (d :: fs)) = String.prefix w d.
Proof.
  intros Hw. destruct fs as [|f fs]; [done|].
  change (PyStr.join "/" (d :: f :: fs)) with (d +:+ "/" +:+ PyStr.join "/" (f :: fs)).
  by apply prefix_no_slash.
Qed.

Lemma prefix_sep_no_slash (w d : string) :
  no_slash d = true -> String.prefix (w +:+ "/") d = false.
Proof.
  revert d. induction w as [|x w IH]; intros d Hd.
  - destruct d as [|y d]; [done|]. simpl in Hd.
    apply andb_true_iff in Hd as [Hy _]. apply negb_true_iff, Ascii.eqb_neq in Hy.
    change ((if Ascii.ascii_dec "/" y then String.prefix "" d else false) = false).
    destruct (Ascii.ascii_dec "/" y); [congruence|done].
  - destruct d as [|y d]; [done|]. simpl in Hd.
    apply andb_true_iff in Hd as [_ Hd].
    change ((if Ascii.ascii_dec x y then String.prefix (w +:+ "/") d else false) = false).
    destruct (Ascii.ascii_dec x y); [by apply IH|done].
Qed.

Lemma prefix_sep_other (w d rest : string) :
  no_slash w = true -> no_slash d = true -> d <> w ->
  String.prefix (w +:+ "/") (d +:+ "/" +:+ rest) = false.
Proof.
  revert d. induction w as [|x w IH]; intros d Hw Hd Hne.
  - destruct d as [|y d]; [done|]. simpl in Hd.
    apply andb_true_iff in Hd as [Hy _]. apply negb_true_iff, Ascii.eqb_neq in Hy.
    change ((if Ascii.ascii_dec "/" y then String.prefix "" (d +:+ "/" +:+ rest) else false) = false).
    destruct (Ascii.ascii_dec "/" y); [congruence|done].
  - simpl in Hw. apply andb_true_iff in Hw as [Hx Hw].
    apply negb_true_iff, Ascii.eqb_neq in Hx.
    destruct d as [|y d].
    + change ((if Ascii.ascii_dec x "/" then String.prefix (w +:+ "/") rest else false) = false).
      destruct (Ascii.ascii_dec x "/"); [congruence|done].
    + simpl in Hd. apply andb_true_iff in Hd as [_ Hd].
      change ((if Ascii.ascii_dec x y then String.prefix (w +:+ "/") (d +:+ "/" +:+ rest)
         else false) = false).
      destruct (Ascii.ascii_dec x y) as [->|]; [|done].
      apply IH; [done|done|congruence].
Qed.

Lemma prefix_sep_join (w d : string) (fs : list string) :
  no_slash w = true -> no_slash d = true -> d <> w ->
  String.prefix (w +:+ "/") (PyStr.join "/" (d :: fs)) = false.
Proof.
  intros Hw Hd Hne. destruct fs as [|f fs].
  - by apply prefix_sep_no_slash.
  - change (PyStr.join "/" (d :: f :: fs)) with (d +:+ "/" +:+ PyStr.join "/" (f :: fs)).
    by apply prefix_sep_other.
Qed.

Lemma no_slash_sep (a b : string) : no_slash (a +:+ "/" +:+ b) = false.
Proof.
  induction a as [|x a IH]; [done|].
  change (negb (Ascii.eqb x "/") && no_slash (a +:+ "/" +:+ b) = false)%bool.
  by rewrite IH, andb_false_r.
Qed.

Lemma join_relative (f : string) (fs : list string) :
  f <> "" -> no_slash f = true -> PosixPath.isabs (PyStr.join "/" (f :: fs)) = false.
Proof.
  intros Hne Hns. destruct f as [|x f]; [done|].
  simpl in Hns. apply andb_true_iff in Hns as [Hx _].
  apply negb_true_iff, Ascii.eqb_neq in Hx.
  assert (Hj : exists t, PyStr.join "/" (String x f :: fs) = String x t).
  { destruct fs; eexists; reflexivity. }
  destruct Hj as [t ->]. unfold PosixPath.isabs.
  change ((if Ascii.ascii_dec "/" x then String.prefix "" t else false) = false).
  destruct (Ascii.ascii_dec "/" x); [congruence|done].
Qed.

(** The guard compares the two normalised paths as strings. *)
Lemma in_workspace_parent (cwd : string) (comps : list string) (w d : string)
    (fs : list string) :
  Forall (fun c => plain c = true) comps -> plain w = true ->
  Forall (fun c => plain c = true) (d :: fs) ->
  let ws := rooted (comps ++ [w]) in
  let file_path := PyStr.join "/" (".." :: d :: fs) in
  PosixPath.abspath cwd (full_path ws file_path) = rooted (comps ++ d :: fs) /\
  in_workspace cwd ws file_path = String.prefix w d.
Proof.
  intros Hc Hw Hfs ws file_path.
  assert (Hfull : full_path ws file_path = rooted ((comps ++ [w]) ++ ".." :: d :: fs)).
  { by apply full_path_relative. }
  assert (Habs : PosixPath.abspath cwd (full_path ws file_path) = rooted (comps ++ d :: fs)).
  { rewrite Hfull. by apply abspath_parent. }
  split; [done|]. unfold in_workspace. rewrite Habs.
  unfold ws. rewrite abspath_plain.
  - destruct (rooted_snoc comps w) as (p & Hp & Hrest).
    rewrite Hp, Hrest, prefix_cancel. apply prefix_join_head.
    by apply plain_spec in Hw as (_ & _ & _ & ?).
  - by destruct comps.
  - apply Forall_app. split; [done|]. by apply Forall_singleton.
Qed.

(** X24. For a workspace whose absolute path is made of plain names, a
    relative path made of plain names passes the guard of the file tools,
    and the file it names is the one at that place below the workspace. *)
Theorem file_guard_accepts_plain_paths (cwd : string) (comps : list string)
    (w f : string) (fs : list string)
    (Hcomps : Forall (fun c => plain c = true) comps)
    (Hw : plain w = true)
    (Hfs : Forall (fun c => plain c = true) (f :: fs)) :
  let ws := rooted (comps ++ [w]) in
  let file_path := PyStr.join "/" (f :: fs) in
  full_path ws file_path = ws +:+ "/" +:+ file_path /\
  PosixPath.abspath cwd (full_path ws file_path) = ws +:+ "/" +:+ file_path /\
  in_workspace cwd ws file_path = true.
Proof.
  intros ws file_path.
  assert (Hf : plain f = true) by (by apply Forall_cons in Hfs as [? _]).
  apply plain_spec in Hf as (Hfne & _ & _ & Hfns).
  assert (Hfull : full_path ws file_path = rooted ((comps ++ [w]) ++ f :: fs)).
  { apply full_path_relative; [done|]. by apply join_relative. }
  assert (Hjoin : rooted ((comps ++ [w]) ++ f :: fs) = ws +:+ "/" +:+ file_path).
  { unfold ws, rooted. rewrite (join_app (comps ++ [w])) by (done || by destruct comps).
    by rewrite !string_app_assoc. }
  assert (Habs : PosixPath.abspath cwd (full_path ws file_path) = ws +:+ "/" +:+ file_path).
  { rewrite Hfull, abspath_plain; [done|by destruct comps|].
    apply Forall_app. split; [|done].
    apply Forall_app. split; [done|]. by apply Forall_singleton. }
  split; [by rewrite Hfull|]. split; [done|].
  unfold in_workspace. rewrite Habs. unfold ws at 1. rewrite abspath_plain.
  - apply prefix_app.
  - by destruct comps.
  - apply Forall_app. split; [done|]. by apply Forall_singleton.
Qed.

Lemma file_guard_accepts_plain_paths_witness :
  in_workspace "/srv/app" "/srv/app/workspaces/demo" "notes/todo.txt" = true.
Proof.
  refine (proj2 (proj2 (file_guard_accepts_plain_paths "/srv/app"
            ["srv"; "app"; "workspaces"] "demo" "notes" ["todo.txt"] _ _ _))).
  - repeat constructor.
  - reflexivity.
  - repeat constructor.
Defined.

(** X25. For a path that begins with [..], the guard of the file tools
    compares names as strings: the path names a place next to the
    workspace directory, and it is accepted exactly when the name of the
    workspace directory is a prefix of the name that follows [..];
    otherwise [get_file_content] refuses it. *)
Theorem file_guard_on_parent_paths (cwd : string) (comps : list string)
    (w d : string) (fs : list string)
    (Hcomps : Forall (fun c => plain c = true) comps)
    (Hw : plain w = true)
    (Hfs : Forall (fun c => plain c = true) (d :: fs)) :
  let ws := rooted (comps ++ [w]) in
  let file_path := PyStr.join "/" (".." :: d :: fs) in
  PosixPath.abspath cwd (full_path ws file_path) = rooted (comps ++ d :: fs) /\
  in_workspace cwd ws file_path = String.prefix w d /\
  (String.prefix w d = false ->
   forall read,
     get_file_content read cwd ws file_path =
     "Error: Cannot access files outside the workspace: " +:+ file_path).
Proof.
  intros ws file_path.
  destruct (in_workspace_parent cwd comps w d fs Hcomps Hw Hfs) as [Habs Hin].
  fold ws file_path in Habs, Hin.
  split; [done|]. split; [done|].
  intros Hpre read. unfold get_file_content. by rewrite Hin, Hpre.
Qed.

Lemma file_guard_on_parent_paths_witness :
  in_workspace "/srv/app" "/srv/app/workspaces/demo" "../other/todo.txt" =
  String.prefix "demo" "other".
Proof.
  refine (proj1 (proj2 (file_guard_on_parent_paths "/srv/app"
            ["srv"; "app"; "workspaces"] "demo" "other" ["todo.txt"] _ _ _))).
  - repeat constructor.
  - reflexivity.
  - repeat constructor.
Defined.

(** X26. [get_file_content] returns the content of a file that is not in
    the workspace: a file in a directory that lies next to the workspace
    directory and whose name begins with the name of the workspace
    directory, reached through [..]. *)
Theorem get_file_content_reads_next_to_workspace (read : string -> ReadResult)
    (cwd : string) (comps : list string) (w d : string) (fs : list string)
    (content : string)
    (Hcomps : Forall (fun c => plain c = true) comps)
    (Hw : plain w = true)
    (Hfs : Forall (fun c => plain c = true) (d :: fs))
    (Hprefix : String.prefix w d = true)
    (Hother : d <> w)
    (Hread : read (full_path (rooted (comps ++ [w])) (PyStr.join "/" (".." :: d :: fs)))
             = FileContent content) :
  let ws := rooted (comps ++ [w]) in
  let file_path := PyStr.join "/" (".." :: d :: fs) in
  let target := PosixPath.abspath cwd (full_path ws file_path) in
  get_file_content read cwd ws file_path =
    "File content of " +:+ file_path +:+ ":" +:+ PyStr.nl +:+ PyStr.nl +:+ content /\
  target = rooted (comps ++ d :: fs) /\
  target <> ws /\
  String.prefix (ws +:+ "/") target = false.
Proof.
  intros ws file_path target.
  destruct (in_workspace_parent cwd comps w d fs Hcomps Hw Hfs) as [Habs Hin].
  fold ws file_path in Habs, Hin. fold target in Habs.
  assert (Hd : plain d = true) by (by apply Forall_cons in Hfs as [? _]).
  apply plain_spec in Hw as (_ & _ & _ & Hwns).
  apply plain_spec in Hd as (_ & _ & _ & Hdns).
  destruct (rooted_snoc comps w) as (p & Hp & Hrest).
  assert (Hout : String.prefix (ws +:+ "/") target = false).
  { rewrite Habs. unfold ws. rewrite Hp, Hrest, string_app_assoc, prefix_cancel.
    by apply prefix_sep_join. }
  split.
  { unfold get_file_content. rewrite Hin, Hprefix. cbn [negb].
    fold ws file_path in Hread. by rewrite Hread. }
  split; [done|]. split; [|done].
  intros Heq. rewrite Habs in Heq. unfold ws in Heq. rewrite Hp, Hrest in Heq.
  assert (Hj : PyStr.join "/" (d :: fs) = w).
  { clear -Heq. induction p as [|x p IH]; [done|]. injection Heq as Heq. by apply IH. }
  destruct fs as [|f fs]; [done|].
  change (d +:+ "/" +:+ PyStr.join "/" (f :: fs) = w) in Hj.
  rewrite <- Hj in Hwns. by rewrite no_slash_sep in Hwns.
Qed.

Lemma get_file_content_reads_next_to_workspace_witness :
  get_file_content (fun _ => FileContent "secret") "/srv/app"
    "/srv/app/workspaces/demo" "../demo_backup/keys.txt" =
  "File content of " +:+ "../demo_backup/keys.txt" +:+ ":" +:+ PyStr.nl +:+ PyStr.nl
    +:+ "secret".
Proof.
  refine (proj1 (get_file_content_reads_next_to_workspace (fun _ => FileContent "secret")
            "/srv/app" ["srv"; "app"; "workspaces"] "demo" "demo_backup" ["keys.txt"]
            "secret" _ _ _ _ _ _)).
  - repeat constructor.
  - reflexivity.
  - repeat constructor.
  - reflexivity.
  - discriminate.
  - reflexivity.
Defined.
